(** * RSim: the simulation core and its binary save format

    A shallow embedding of the Python sources [map.py], [element.py],
    [food.py], [entity.py], [save.py], [simulation.py] (the engine step) and
    [cmd.py] (the command dispatcher), followed by the properties of the
    specification that can be settled on them.

    Conventions of the embedding.
    - Python integers are [Z]; every [isinstance(value, int)] test of the
      sources therefore succeeds and is not repeated here.
    - Class-level state ([Map.size], [Food.list], [Entity.list],
      [Entity.nEntities], the [Save] instance held by [RSim], the two files
      it touches, the wall clock, the random generator and the terminal) is
      one record, [World], threaded through a state monad whose outcomes are
      a value, a raised exception, or [Starved] when the finite supply of
      random draws (or the fuel of a loop) is used up.
    - A method runs on the pair of its receiver and the world; the engine
      takes the receiver out of [Entity.list] at the iterator's index and
      stores it back there, which is where the object still is: nothing in a
      tick moves or removes an agent at or before that index. *)

From Stdlib Require Import ZArith List String Ascii Lia Bool DecimalString.
From stdpp Require Import base list.
From coqutil Require Import Byte.

Local Open Scope string_scope.
Local Open Scope Z_scope.
Local Open Scope list_scope.

(** ** Exceptions *)

Inductive exn_class := TypeError | ValueError | IOError | IndexError | Exception.

(** The text of an exception, kept structured: each constructor stands for
    one message of the sources (or of the Python runtime). *)
Inductive message :=
| MustFit (name : string) (size : Z)          (* "{name} must fit in {size} bytes!" *)
| CouldNotRead (name : string)                (* "Could not read {name} from file." *)
| MustBeIn (axis : string) (value bound : Z)  (* "{axis}:{value} must be in [0, {bound}[" *)
| MissingArgument (callee arg : string)       (* missing 1 required positional argument *)
| NotSubscriptable                            (* 'NoneType' object is not subscriptable *)
| EmptyRange                                  (* empty range for randrange() *)
| EmptyPopulation                             (* choices() on an empty list *)
| NoSuchFile                                  (* No such file or directory *)
| InvalidLiteral (text : string)              (* invalid literal for int() *)
| TooManyDigits (digits : Z)                  (* Exceeds the limit (4300 digits) ... *)
| Wrapped (prefix : string) (inner : message). (* f"{prefix}{e}" *)

Record exn := Exn { exn_class_of : exn_class; exn_message : message }.

Inductive outcome (A : Type) :=
| Return (a : A)
| Raise (e : exn)
| Starved.
Arguments Return {A} a.
Arguments Raise {A} e.
Arguments Starved {A}.

(** ** The state monad *)

Definition M (S A : Type) : Type := S -> outcome A * S.

Definition ret {S A} (a : A) : M S A := fun s => (Return a, s).

Definition bind {S A B} (m : M S A) (k : A -> M S B) : M S B :=
  fun s =>
    match m s with
    | (Return a, s') => k a s'
    | (Raise e, s') => (Raise e, s')
    | (Starved, s') => (Starved, s')
    end.

Definition raise {S A} (c : exn_class) (m : message) : M S A :=
  fun s => (Raise (Exn c m), s).

Definition starve {S A} : M S A := fun s => (Starved, s).

Definition get {S} : M S S := fun s => (Return s, s).

Definition modify {S} (f : S -> S) : M S unit := fun s => (Return tt, f s).

(** [try: m except <classes>: h] *)
Definition catch {S A} (handles : exn_class -> bool) (m : M S A) (h : exn -> M S A) : M S A :=
  fun s =>
    match m s with
    | (Raise e, s') => if handles (exn_class_of e) then h e s' else (Raise e, s')
    | r => r
    end.

Notation "x <- m ;; k" := (bind m (fun x => k))
  (at level 100, m at next level, k at level 200, right associativity).
Notation "m ;; k" := (bind m (fun _ => k))
  (at level 100, k at level 200, right associativity).

(** A computation on the world alone, run from inside a method. *)
Definition liftW {T W A} (m : M W A) : M (T * W) A :=
  fun s => let (r, w') := m (snd s) in (r, (fst s, w')).

(** The receiver of the running method. *)
Definition self {T W} : M (T * W) T := fun s => (Return (fst s), s).
Definition set_self {T W} (f : T -> T) : M (T * W) unit :=
  fun s => (Return tt, (f (fst s), snd s)).

(** ** Objects *)

(** [Food]: the attributes [_x], [_y] (from [Element]) and [_pts]. *)
Record Food := mkFood { Food_x : Z; Food_y : Z; Food_pts : Z }.

(** [Entity]: [_x], [_y], [_energy], [_time], [_age], [range], [id]. *)
Record Entity := mkEntity {
  Entity_x : Z; Entity_y : Z;
  Entity_energy : Z; Entity_time : Z; Entity_age : Z;
  Entity_range : Z; Entity_id : Z }.

(** What [Food] and [Entity] inherit from [Element]: the two coordinates. *)
Class Element (T : Type) := {
  _x : T -> Z;
  _y : T -> Z;
  with_x : Z -> T -> T;
  with_y : Z -> T -> T }.

#[export] Instance Food_Element : Element Food := {|
  _x := Food_x; _y := Food_y;
  with_x := fun v f => mkFood v (Food_y f) (Food_pts f);
  with_y := fun v f => mkFood (Food_x f) v (Food_pts f) |}.

#[export] Instance Entity_Element : Element Entity := {|
  _x := Entity_x; _y := Entity_y;
  with_x := fun v e => mkEntity v (Entity_y e) (Entity_energy e) (Entity_time e)
                         (Entity_age e) (Entity_range e) (Entity_id e);
  with_y := fun v e => mkEntity (Entity_x e) v (Entity_energy e) (Entity_time e)
                         (Entity_age e) (Entity_range e) (Entity_id e) |}.

Definition with_pts (v : Z) (f : Food) : Food := mkFood (Food_x f) (Food_y f) v.

Definition with_energy (v : Z) (e : Entity) : Entity :=
  mkEntity (Entity_x e) (Entity_y e) v (Entity_time e) (Entity_age e)
           (Entity_range e) (Entity_id e).
Definition with_time (v : Z) (e : Entity) : Entity :=
  mkEntity (Entity_x e) (Entity_y e) (Entity_energy e) v (Entity_age e)
           (Entity_range e) (Entity_id e).
Definition with_age (v : Z) (e : Entity) : Entity :=
  mkEntity (Entity_x e) (Entity_y e) (Entity_energy e) (Entity_time e) v
           (Entity_range e) (Entity_id e).
Definition with_range (v : Z) (e : Entity) : Entity :=
  mkEntity (Entity_x e) (Entity_y e) (Entity_energy e) (Entity_time e)
           (Entity_age e) v (Entity_id e).
Definition with_id (v : Z) (e : Entity) : Entity :=
  mkEntity (Entity_x e) (Entity_y e) (Entity_energy e) (Entity_time e)
           (Entity_age e) (Entity_range e) v.

(** An object whose attributes are not assigned yet; [__init__] assigns each
    of them before anything reads it. *)
Definition blank_Food : Food := mkFood 0 0 0.
Definition blank_Entity : Entity := mkEntity 0 0 0 0 0 0 0.

(** ** The world *)

Record World := mkWorld {
  Map_size : Z * Z;                    (* Map.size: assigned on the class, so a plain attribute
                                          that the validating setter never sees *)
  Food_list : list Food;               (* Food.list *)
  Food_maxFoods : Z;                   (* Food.maxFoods *)
  Entity_list : list Entity;           (* Entity.list *)
  Entity_nEntities : Z;                (* Entity.nEntities *)
  save_last : Z;                       (* RSim.save.last *)
  save_time : Z;                       (* RSim.save._time *)
  save_age : Z;                        (* RSim.save._age *)
  save_energy : option Z;              (* RSim.save._energy, absent until the time setter resets *)
  save_starting : Z;                   (* RSim.save.starting *)
  save_number : Z;                     (* RSim.save.number *)
  save_duration : Z;                   (* RSim.save_duration *)
  running : bool;                      (* RSim._running *)
  clock : Z;                           (* what int(time()) returns during the call *)
  file_save : option (list byte);      (* the file at RSim.save.path, if it exists *)
  file_backup : option (list byte);    (* the file at the backup path, if it exists *)
  tape : list Z;                       (* the draws the random generator will make *)
  stdout : list string                 (* lines printed so far, oldest first *)
}.

Definition set_Map_size v w := mkWorld v (Food_list w) (Food_maxFoods w) (Entity_list w)
  (Entity_nEntities w) (save_last w) (save_time w) (save_age w) (save_energy w)
  (save_starting w) (save_number w) (save_duration w) (running w) (clock w)
  (file_save w) (file_backup w) (tape w) (stdout w).
Definition set_Food_list v w := mkWorld (Map_size w) v (Food_maxFoods w) (Entity_list w)
  (Entity_nEntities w) (save_last w) (save_time w) (save_age w) (save_energy w)
  (save_starting w) (save_number w) (save_duration w) (running w) (clock w)
  (file_save w) (file_backup w) (tape w) (stdout w).
Definition set_Entity_list v w := mkWorld (Map_size w) (Food_list w) (Food_maxFoods w) v
  (Entity_nEntities w) (save_last w) (save_time w) (save_age w) (save_energy w)
  (save_starting w) (save_number w) (save_duration w) (running w) (clock w)
  (file_save w) (file_backup w) (tape w) (stdout w).
Definition set_Entity_nEntities v w := mkWorld (Map_size w) (Food_list w) (Food_maxFoods w)
  (Entity_list w) v (save_last w) (save_time w) (save_age w) (save_energy w)
  (save_starting w) (save_number w) (save_duration w) (running w) (clock w)
  (file_save w) (file_backup w) (tape w) (stdout w).
Definition set_save_last v w := mkWorld (Map_size w) (Food_list w) (Food_maxFoods w)
  (Entity_list w) (Entity_nEntities w) v (save_time w) (save_age w) (save_energy w)
  (save_starting w) (save_number w) (save_duration w) (running w) (clock w)
  (file_save w) (file_backup w) (tape w) (stdout w).
Definition set_save_time v w := mkWorld (Map_size w) (Food_list w) (Food_maxFoods w)
  (Entity_list w) (Entity_nEntities w) (save_last w) v (save_age w) (save_energy w)
  (save_starting w) (save_number w) (save_duration w) (running w) (clock w)
  (file_save w) (file_backup w) (tape w) (stdout w).
Definition set_save_age v w := mkWorld (Map_size w) (Food_list w) (Food_maxFoods w)
  (Entity_list w) (Entity_nEntities w) (save_last w) (save_time w) v (save_energy w)
  (save_starting w) (save_number w) (save_duration w) (running w) (clock w)
  (file_save w) (file_backup w) (tape w) (stdout w).
Definition set_save_energy v w := mkWorld (Map_size w) (Food_list w) (Food_maxFoods w)
  (Entity_list w) (Entity_nEntities w) (save_last w) (save_time w) (save_age w) v
  (save_starting w) (save_number w) (save_duration w) (running w) (clock w)
  (file_save w) (file_backup w) (tape w) (stdout w).
Definition set_save_duration v w := mkWorld (Map_size w) (Food_list w) (Food_maxFoods w)
  (Entity_list w) (Entity_nEntities w) (save_last w) (save_time w) (save_age w)
  (save_energy w) (save_starting w) (save_number w) v (running w) (clock w)
  (file_save w) (file_backup w) (tape w) (stdout w).
Definition set_running v w := mkWorld (Map_size w) (Food_list w) (Food_maxFoods w)
  (Entity_list w) (Entity_nEntities w) (save_last w) (save_time w) (save_age w)
  (save_energy w) (save_starting w) (save_number w) (save_duration w) v (clock w)
  (file_save w) (file_backup w) (tape w) (stdout w).
Definition set_file_save v w := mkWorld (Map_size w) (Food_list w) (Food_maxFoods w)
  (Entity_list w) (Entity_nEntities w) (save_last w) (save_time w) (save_age w)
  (save_energy w) (save_starting w) (save_number w) (save_duration w) (running w) (clock w)
  v (file_backup w) (tape w) (stdout w).
Definition set_file_backup v w := mkWorld (Map_size w) (Food_list w) (Food_maxFoods w)
  (Entity_list w) (Entity_nEntities w) (save_last w) (save_time w) (save_age w)
  (save_energy w) (save_starting w) (save_number w) (save_duration w) (running w) (clock w)
  (file_save w) v (tape w) (stdout w).
Definition set_tape v w := mkWorld (Map_size w) (Food_list w) (Food_maxFoods w)
  (Entity_list w) (Entity_nEntities w) (save_last w) (save_time w) (save_age w)
  (save_energy w) (save_starting w) (save_number w) (save_duration w) (running w) (clock w)
  (file_save w) (file_backup w) v (stdout w).
Definition set_stdout v w := mkWorld (Map_size w) (Food_list w) (Food_maxFoods w)
  (Entity_list w) (Entity_nEntities w) (save_last w) (save_time w) (save_age w)
  (save_energy w) (save_starting w) (save_number w) (save_duration w) (running w) (clock w)
  (file_save w) (file_backup w) (tape w) v.

(** [value in range(n)] *)
Definition in_range (n value : Z) : bool := (0 <=? value) && (value <? n).

(** [print(line)] *)
Definition print (line : string) : M World unit :=
  modify (fun w => set_stdout (stdout w ++ [line]) w).

(** [str(n)] for an integer. *)
Definition str (n : Z) : string := NilZero.string_of_int (Z.to_int n).

(** ** The random generator

    Each call of the generator consumes one draw of the tape. *)
Definition draw : M World Z :=
  fun w =>
    match tape w with
    | [] => (Starved, w)
    | r :: rest => (Return r, set_tape rest w)
    end.

(** [random.randint(a, b)]: an integer of [a..b], [ValueError] on an empty
    range. *)
Definition randint (a b : Z) : M World Z :=
  if b <? a then raise ValueError EmptyRange
  else r <- draw ;; ret (a + r mod (b - a + 1)).

(** [random.choices(population)[0]]: one element, by its index
    [floor(random() * n)]; indexing an empty population raises. *)
Definition choices {A} (population : list A) : M World A :=
  r <- draw ;;
  match population !! Z.to_nat (r mod Z.of_nat (length population)) with
  | Some a => ret a
  | None => raise IndexError EmptyPopulation
  end.

Definition gets {S A} (f : S -> A) : M S A := fun s => (Return (f s), s).

(** [cls(...)]: run [__init__] on a fresh object; the object exists for the
    caller only when [__init__] returns. *)
Definition construct {T} (blank : T) (init : M (T * World) unit) : M World T :=
  fun w =>
    match init (blank, w) with
    | (Return _, (o, w')) => (Return o, w')
    | (Raise e, (_, w')) => (Raise e, w')
    | (Starved, (_, w')) => (Starved, w')
    end.

(** ** map.py *)

Definition Map_MAX_SIZE : Z := 500.
Definition Map_DEFAULT_SIZE : Z * Z := (200, 150).

(** Is some object of [datas] at [(x, y)]? *)
Definition occupied {T} `{Element T} (datas : list T) (x y : Z) : bool :=
  existsb (fun obj => (_x obj =? x) && (_y obj =? y)) datas.

(** The [while True] of [Map.rmdCoord]: every round draws twice, so a tape
    of [n] draws cannot feed more than [n] rounds. *)
Fixpoint rmdCoord_loop {T} `{Element T} (rounds : nat) (datas : list T) : M World (Z * Z) :=
  match rounds with
  | O => starve
  | S k =>
      size <- gets Map_size ;;
      x <- randint 0 (fst size - 1) ;;
      y <- randint 0 (snd size - 1) ;;
      if negb (occupied datas x y) then ret (x, y) else rmdCoord_loop k datas
  end.

Definition Map_rmdCoord {T} `{Element T} (datas : list T) : M World (option (Z * Z)) :=
  size <- gets Map_size ;;
  if fst size * snd size >? Z.of_nat (length datas) then
    draws <- gets tape ;;
    coord <- rmdCoord_loop (S (length draws)) datas ;;
    ret (Some coord)
  else ret None.

(** ** element.py *)

Definition Element_x_set {T} `{Element T} (value : Z) : M (T * World) unit :=
  size <- liftW (gets Map_size) ;;
  if negb (in_range (fst size) value)
  then raise ValueError (MustBeIn "x" value (fst size))
  else set_self (with_x value).

Definition Element_y_set {T} `{Element T} (value : Z) : M (T * World) unit :=
  size <- liftW (gets Map_size) ;;
  if negb (in_range (snd size) value)
  then raise ValueError (MustBeIn "y" value (snd size))
  else set_self (with_y value).

Definition Element_init {T} `{Element T} (coord : Z * Z) : M (T * World) unit :=
  Element_x_set (fst coord) ;;
  Element_y_set (snd coord).

(** [Element.distance], squared.  The sources compare [sqrt(dx**2 + dy**2)]
    of integers far below 2^52; on those the square root is strictly
    monotone and exact on perfect squares, so comparing the squares decides
    the same tests. *)
Definition distance2 {T U} `{Element T} `{Element U} (a : T) (b : U) : Z :=
  (_x a - _x b) ^ 2 + (_y a - _y b) ^ 2.

(** ** food.py *)

Definition Food_NBYTES_PTS : Z := 2.
Definition Food_PTS_MAX : Z := 2 ^ (Food_NBYTES_PTS * 8).
Definition Food_PTS_DEFAULT : Z := 100.
Definition Food_MAXFOODS_DEF : Z := 50.

Definition Food_pts_set (value : Z) : M (Food * World) unit :=
  if negb ((0 <? value) && (value <=? Food_PTS_MAX))
  then set_self (with_pts Food_PTS_DEFAULT)
  else set_self (with_pts value).

(** [Food.__init__(self, coord, pts=PTS_DEFAULT)] *)
Definition Food_init (coord : Z * Z) (pts : option Z) : M (Food * World) unit :=
  Element_init coord ;;
  Food_pts_set (match pts with Some p => p | None => Food_PTS_DEFAULT end).

Definition Food_len : M World Z :=
  foods <- gets Food_list ;; ret (Z.of_nat (length foods)).

(** [Food.new(cls, coord, pts)]: [pts] has no default here, so a call that
    leaves it out raises before the body runs. *)
Definition Food_new (coord : Z * Z) (pts : option Z) : M World Z :=
  match pts with
  | None => raise TypeError (MissingArgument "new" "pts")
  | Some p =>
      food <- construct blank_Food (Food_init coord (Some p)) ;;
      modify (fun w => set_Food_list (Food_list w ++ [food]) w) ;;
      Food_len
  end.

Definition Food_generate : M World unit :=
  n <- Food_len ;;
  cap <- gets Food_maxFoods ;;
  if n <? cap then
    foods <- gets Food_list ;;
    coord <- Map_rmdCoord foods ;;
    match coord with
    | Some c => Food_new c (Some Food_PTS_DEFAULT) ;; ret tt
    | None => ret tt
    end
  else ret tt.

(** [bool(food)]: [Food] defines no [__bool__], and [Element.__len__] is a
    class method returning [len(cls.list)]; a Food is therefore true exactly
    when [Food.list] is not empty. *)
Definition Food_bool : M World bool :=
  n <- Food_len ;; ret (negb (n =? 0)).

(** ** entity.py *)

Definition Entity_NBYTES_ID : Z := 2.
Definition Entity_NBYTES_ENERGY : Z := 2.
Definition Entity_NBYTES_TIME : Z := 2.
Definition Entity_ENERGY_MAX : Z := 9999.
Definition Entity_ENERGY_DEF : Z := 200.
Definition Entity_TIME_MAX : Z := 4000.
Definition Entity_RANGE_DEF : Z := 10.
Definition Entity_MAX_ID : Z := 2 ^ (Entity_NBYTES_ID * 8).
Definition Entity_TIME_IN_AGE : Z := 40.
Definition Entity_AGE_REPROD (age : Z) : bool := (18 <=? age) && (age <? 60).
Definition Entity_MIN_REPROD : Z := 500.
Definition Entity_REPROD : Z := 200.

Definition Entity_energy_set (value : Z) : M (Entity * World) unit :=
  if value >? Entity_ENERGY_MAX then set_self (with_energy Entity_ENERGY_MAX)
  else if value <? 0 then set_self (with_energy 0)
  else set_self (with_energy value).

Definition Entity_time_set (value : Z) : M (Entity * World) unit :=
  if negb (in_range Entity_TIME_MAX value) then
    set_self (with_time (-1)) ;;
    set_self (with_energy 0) ;;
    set_self (with_age 0)
  else
    set_self (with_time value) ;;
    e <- self ;;
    set_self (with_age (Entity_time e / Entity_TIME_IN_AGE)).

(** [Entity.__init__(self, coord, energy, time=0)] *)
Definition Entity_init (coord : Z * Z) (energy time : Z) : M (Entity * World) unit :=
  Element_init coord ;;
  Entity_energy_set energy ;;
  Entity_time_set time ;;
  set_self (with_range Entity_RANGE_DEF) ;;
  n <- liftW (gets Entity_nEntities) ;;
  liftW (modify (set_Entity_nEntities (if n <? Entity_MAX_ID then n + 1 else 1))) ;;
  n' <- liftW (gets Entity_nEntities) ;;
  set_self (with_id n').

Definition Entity_len : M World Z :=
  entities <- gets Entity_list ;; ret (Z.of_nat (length entities)).

(** [Entity.new(cls, coord, energy, time=0)] *)
Definition Entity_new (coord : Z * Z) (energy time : Z) : M World Z :=
  entity <- construct blank_Entity (Entity_init coord energy time) ;;
  modify (fun w => set_Entity_list (Entity_list w ++ [entity]) w) ;;
  Entity_len.

(** [Entity.generate]: [Map.rmdCoord()] is called with its default, empty,
    [datas]; when it answers [None] the constructor fails on [coord[0]]. *)
Definition Entity_generate : M World unit :=
  coord <- Map_rmdCoord (@nil Food) ;;
  match coord with
  | Some c => Entity_new c Entity_ENERGY_DEF 0 ;; ret tt
  | None => raise TypeError NotSubscriptable
  end.

(** [next((food for food in Food.list if food.x == x and food.y == y), None)],
    with the position of the food found. *)
Fixpoint first_food_at (x y : Z) (foods : list Food) : option (nat * Food) :=
  match foods with
  | [] => None
  | food :: rest =>
      if (Food_x food =? x) && (Food_y food =? y) then Some (O, food)
      else match first_food_at x y rest with
           | Some (j, f) => Some (S j, f)
           | None => None
           end
  end.

(** [Entity.eat].  [Food.list.remove(food_at_location)] removes the first
    element equal to the object found; equality of these objects is identity
    and each of them is once in the list, so it goes at its own index. *)
Definition Entity_eat : M (Entity * World) unit :=
  e <- self ;;
  if Entity_energy e <? Entity_ENERGY_MAX then
    foods <- liftW (gets Food_list) ;;
    match first_food_at (Entity_x e) (Entity_y e) foods with
    | Some (j, food_at_location) =>
        truth <- liftW Food_bool ;;
        if truth then
          Entity_energy_set (Z.min Entity_ENERGY_MAX (Entity_energy e + Food_pts food_at_location)) ;;
          liftW (modify (fun w => set_Food_list (delete j (Food_list w)) w))
        else ret tt
    | None => ret tt
    end
  else ret tt.

Definition Entity_possibleMoves : M (Entity * World) (list (Z * Z)) :=
  size <- liftW (gets Map_size) ;;
  e <- self ;;
  ret (flat_map (fun dx =>
         flat_map (fun dy =>
           if (0 <=? Entity_x e + dx) && (Entity_x e + dx <? fst size)
              && ((0 <=? Entity_y e + dy) && (Entity_y e + dy <? snd size))
           then [(dx, dy)] else [])
         [-1; 0; 1])
       [-1; 0; 1]).

Definition Entity_rdmMove : M (Entity * World) (Z * Z) :=
  moves <- Entity_possibleMoves ;;
  d <- liftW (choices moves) ;;
  e <- self ;;
  Element_x_set (Entity_x e + fst d) ;;
  e <- self ;;
  Element_y_set (Entity_y e + snd d) ;;
  ret d.

(** The loop of [Entity.moveTowardsFood]: the closest food in range seen so
    far and its squared distance ([None] is [float('inf')]).  The test
    [dist <= self.range] on the square root is, on the squares, a
    non-negative range and [d2 <= range * range]. *)
Definition closer (e : Entity) (best : option (Food * Z)) (food : Food) : option (Food * Z) :=
  let d2 := distance2 e food in
  if ((0 <=? Entity_range e) && (d2 <=? Entity_range e * Entity_range e))
     && match best with Some (_, m) => d2 <? m | None => true end
  then Some (food, d2) else best.

Definition closest_food (e : Entity) (foods : list Food) : option Food :=
  option_map fst (fold_left (closer e) foods None).

Definition Entity_moveTowardsFood : M (Entity * World) (option (Z * Z)) :=
  e <- self ;;
  foods <- liftW (gets Food_list) ;;
  match closest_food e foods with
  | Some food =>
      truth <- liftW Food_bool ;;
      if truth then
        let dx := Food_x food - Entity_x e in
        let dy := Food_y food - Entity_y e in
        let dx := if negb (dx =? 0) then Z.sgn dx else dx in
        let dy := if negb (dy =? 0) then Z.sgn dy else dy in
        e <- self ;;
        Element_x_set (Entity_x e + dx) ;;
        e <- self ;;
        Element_y_set (Entity_y e + dy) ;;
        ret (Some (dx, dy))
      else ret None
  | None => ret None
  end.

Definition Entity_reproduction : M (Entity * World) unit :=
  e <- self ;;
  if Entity_AGE_REPROD (Entity_age e) && (Entity_energy e >=? Entity_MIN_REPROD) then
    Entity_energy_set (Entity_energy e - Entity_REPROD) ;;
    e <- self ;;
    liftW (Entity_new (Entity_x e, Entity_y e) Entity_ENERGY_DEF 0) ;;
    ret tt
  else ret tt.

Definition Entity_survive (e : Entity) : bool :=
  if (Entity_energy e <=? 0) || (Entity_age e >? Entity_TIME_MAX) then false else true.

(** [Entity.move]: one tick of one agent. *)
Definition Entity_move : M (Entity * World) unit :=
  e <- self ;;
  Entity_energy_set (Z.max 0 (Entity_energy e - 1)) ;;
  e <- self ;;
  Entity_time_set (Entity_time e + 1) ;;
  Entity_eat ;;
  Entity_reproduction ;;
  move <- Entity_moveTowardsFood ;;
  match move with
  | None => Entity_rdmMove ;; ret tt
  | Some _ => ret tt
  end.

(** ** simulation.py: the engine step *)

(** [for a in l: body(a)] over a list the body does not change. *)
Fixpoint for_each {S A} (l : list A) (body : A -> M S unit) : M S unit :=
  match l with
  | [] => ret tt
  | a :: rest => body a ;; for_each rest body
  end.

(** A method call on the agent that sits at index [i] of [Entity.list]. *)
Definition on_entity {A} (i : nat) (entity : Entity) (method : M (Entity * World) A) : M World A :=
  fun w =>
    match method (entity, w) with
    | (r, (entity', w')) => (r, set_Entity_list (<[i := entity']> (Entity_list w')) w')
    end.

(** [Entity.delete(entity)], that is [Element.delete] with [cls = Entity]:
    [cls.list.remove(elem)] for the agent at index [i]. *)
Definition Entity_delete (i : nat) : M World unit :=
  modify (fun w => set_Entity_list (delete i (Entity_list w)) w).

(** [for entity in Entity.list: ...] of [RSim.step].  The list iterator
    holds an index; each round reads the list as it is then, so agents
    appended meanwhile are visited and a removal shifts the rest under the
    iterator. *)
Fixpoint sweep (fuel : nat) (i : nat) : M World unit :=
  match fuel with
  | O => starve
  | S k =>
      entities <- gets Entity_list ;;
      match entities !! i with
      | None => ret tt
      | Some entity =>
          alive <- on_entity i entity (Entity_move ;; e <- self ;; ret (Entity_survive e)) ;;
          (if negb alive then Entity_delete i else ret tt) ;;
          sweep k (S i)
      end
  end.

(** ** save.py *)

Definition Save_NBYTES_TIME : Z := 8.
Definition Save_NBYTES_COORD : Z := 2.
Definition Save_TIME_MAX : Z := 2 ^ (Save_NBYTES_TIME * 8).
Definition Save_TIME_IN_AGE : Z := 40.

Definition Save_time_set (value : Z) : M World unit :=
  if negb (in_range Save_TIME_MAX value) then
    modify (set_save_time (-1)) ;;
    modify (set_save_energy (Some 0)) ;;
    modify (set_save_age 0)
  else
    modify (set_save_time value) ;;
    t <- gets save_time ;;
    modify (set_save_age (t / Save_TIME_IN_AGE)).

(** [value.to_bytes(size, byteorder='big')] *)
Fixpoint to_bytes (size : nat) (value : Z) : list byte :=
  match size with
  | O => []
  | S n => to_bytes n (value / 256) ++ [byte.of_Z value]
  end.

(** [int.from_bytes(data, byteorder='big')] *)
Definition from_bytes (data : list byte) : Z :=
  fold_left (fun acc b => acc * 256 + byte.unsigned b) data 0.

(** [with open(self.path, 'wb') as file]: opening creates or empties the
    file; what the body wrote is in the file when the block is left, also
    when it is left by an exception. *)
Definition with_open_wb {A} (body : M (list byte * World) A) : M World A :=
  fun w =>
    match body ([], set_file_save (Some []) w) with
    | (r, (written, w')) => (r, set_file_save (Some written) w')
    end.

(** [with open(self.path, 'rb') as file]: the receiver of the body is what
    the file still holds after the read position. *)
Definition with_open_rb {A} (body : M (list byte * World) A) : M World A :=
  fun w =>
    match file_save w with
    | None => (Raise (Exn IOError NoSuchFile), w)
    | Some content =>
        match body (content, w) with
        | (r, (_, w')) => (r, w')
        end
    end.

(** [shutil.copy(str(self.path), backup_path)] *)
Definition copy_to_backup : M World unit :=
  fun w =>
    match file_save w with
    | None => (Raise (Exn IOError NoSuchFile), w)
    | Some content => (Return tt, set_file_backup (Some content) w)
    end.

(** The three [except] clauses closing [Save.save] and [Save.load]. *)
Definition reraise {S A} (failed : string) (e : exn) : M S A :=
  match exn_class_of e with
  | IOError => raise IOError (Wrapped "File error: " (exn_message e))
  | ValueError => raise ValueError (Wrapped "Value error: " (exn_message e))
  | _ => raise Exception (Wrapped failed (exn_message e))
  end.

Definition Save_write_int (size value : Z) (name : string) : M (list byte * World) unit :=
  if negb ((0 <=? value) && (value <? 2 ^ (size * 8)))
  then raise ValueError (MustFit name size)
  else set_self (fun file => file ++ to_bytes (Z.to_nat size) value).

Definition Save_write_food : M (list byte * World) unit :=
  foods <- liftW (gets Food_list) ;;
  for_each foods (fun food =>
    Save_write_int Food_NBYTES_PTS (Food_pts food) "food.pts" ;;
    Save_write_int Save_NBYTES_COORD (Food_x food) "food.x" ;;
    Save_write_int Save_NBYTES_COORD (Food_y food) "food.y") ;;
  Save_write_int Food_NBYTES_PTS 0 "food.end".

Definition Save_write_entity : M (list byte * World) unit :=
  entities <- liftW (gets Entity_list) ;;
  for_each entities (fun entity =>
    Save_write_int Entity_NBYTES_ID (Entity_id entity) "entity.id" ;;
    Save_write_int Save_NBYTES_COORD (Entity_x entity) "entity.x" ;;
    Save_write_int Save_NBYTES_COORD (Entity_y entity) "entity.y" ;;
    Save_write_int Entity_NBYTES_ENERGY (Entity_energy entity) "entity.energy" ;;
    Save_write_int Entity_NBYTES_TIME (Entity_time entity) "entity.time") ;;
  Save_write_int Entity_NBYTES_ID 0 "entity.end".

Definition Save_save : M World unit :=
  stop <- catch (fun _ => true)
            (stop <- gets clock ;; copy_to_backup ;; ret stop)
            (fun _ => gets clock) ;;
  catch (fun _ => true)
    (with_open_wb
       (t <- liftW (gets save_time) ;;
        starting <- liftW (gets save_starting) ;;
        size <- liftW (gets Map_size) ;;
        Save_write_int Save_NBYTES_TIME stop "file.last_loading" ;;
        Save_write_int Save_NBYTES_TIME (t + (stop - starting)) "file.sim_time" ;;
        Save_write_int Save_NBYTES_COORD (fst size) "map.size_x" ;;
        Save_write_int Save_NBYTES_COORD (snd size) "map.size_y" ;;
        Save_write_food ;;
        Save_write_entity))
    (reraise "Failed to save: ").

Definition Save_read_int (size : Z) (name : string) : M (list byte * World) Z :=
  file <- self ;;
  let data := firstn (Z.to_nat size) file in
  set_self (skipn (Z.to_nat size)) ;;
  if negb (Z.of_nat (length data) =? size)
  then raise ValueError (CouldNotRead name)
  else ret (from_bytes data).

(** The [while True] of [Save._read_food]: a round that goes on has read six
    bytes, so a file of [n] bytes cannot feed more than [n] rounds. *)
Fixpoint read_food_loop (rounds : nat) : M (list byte * World) unit :=
  match rounds with
  | O => starve
  | S k =>
      pts <- Save_read_int Food_NBYTES_PTS "food.pts" ;;
      if pts =? 0 then ret tt
      else
        x <- Save_read_int Save_NBYTES_COORD "food.x" ;;
        y <- Save_read_int Save_NBYTES_COORD "food.y" ;;
        liftW (Food_new (x, y) (Some pts)) ;;
        read_food_loop k
  end.

Definition Save_read_food : M (list byte * World) unit :=
  liftW (modify (set_Food_list [])) ;;
  file <- self ;;
  read_food_loop (S (length file)).

Fixpoint read_entity_loop (rounds : nat) : M (list byte * World) unit :=
  match rounds with
  | O => starve
  | S k =>
      entity_id <- Save_read_int Entity_NBYTES_ID "entity.id" ;;
      if entity_id =? 0 then ret tt
      else
        x <- Save_read_int Save_NBYTES_COORD "entity.x" ;;
        y <- Save_read_int Save_NBYTES_COORD "entity.y" ;;
        energy <- Save_read_int Entity_NBYTES_ENERGY "entity.energy" ;;
        time <- Save_read_int Entity_NBYTES_TIME "entity.time" ;;
        liftW (Entity_new (x, y) energy time) ;;
        read_entity_loop k
  end.

Definition Save_read_entity : M (list byte * World) unit :=
  liftW (modify (set_Entity_list [])) ;;
  file <- self ;;
  read_entity_loop (S (length file)).

Definition Save_load : M World unit :=
  catch (fun _ => true)
    (with_open_rb
       (last <- Save_read_int Save_NBYTES_TIME "file.last_loading" ;;
        liftW (modify (set_save_last last)) ;;
        t <- Save_read_int Save_NBYTES_TIME "file.sim_time" ;;
        liftW (Save_time_set t) ;;
        size_x <- Save_read_int Save_NBYTES_COORD "map.size_x" ;;
        size_y <- Save_read_int Save_NBYTES_COORD "map.size_y" ;;
        liftW (modify (set_Map_size (size_x, size_y))) ;;
        Save_read_food ;;
        Save_read_entity))
    (reraise "Failed to load: ").

(** [RSim.step].  No agent born during the sweep reproduces in it, so the
    iterator stops within twice the length the list had when it started. *)
Definition RSim_step : M World unit :=
  entities <- gets Entity_list ;;
  sweep (S (2 * length entities)) 0 ;;
  t <- gets save_time ;;
  Save_time_set (t + 1) ;;
  Food_generate.

(** ** cmd.py *)

(** The text [str(e)] of an exception.  The messages the sources build
    ([MustFit], [CouldNotRead], [MustBeIn] and what wraps them) are rendered
    exactly as their f-strings build them.  The texts of the Python runtime
    vary with the interpreter (the qualified name of the callee, the errno
    and path of a missing file, the [repr] of a literal): they are given in
    an abridged form that no property below relies on. *)
Fixpoint render (m : message) : string :=
  match m with
  | MustFit name size => name ++ " must fit in " ++ str size ++ " bytes!"
  | CouldNotRead name => "Could not read " ++ name ++ " from file."
  | MustBeIn axis value bound =>
      axis ++ ":" ++ str value ++ " must be in [0, " ++ str bound ++ "["
  | MissingArgument callee arg =>
      callee ++ "() missing 1 required positional argument: '" ++ arg ++ "'"
  | NotSubscriptable => "'NoneType' object is not subscriptable"
  | EmptyRange => "empty range for randrange()"
  | EmptyPopulation => "list index out of range"
  | NoSuchFile => "No such file or directory"
  | InvalidLiteral text => "invalid literal for int() with base 10: '" ++ text ++ "'"
  | TooManyDigits n =>
      "Exceeds the limit (4300 digits) for integer string conversion: value has "
      ++ str n ++ " digits"
  | Wrapped prefix inner => prefix ++ render inner
  end%string.

(** Text.  A character of a [string] is a code point below U+0100; a line
    with any other character is outside what is modelled, and the properties
    of the console that depend on how a line is read are stated for ASCII
    lines. *)
Definition ascii_text (s : string) : bool :=
  forallb (fun c => Z.of_nat (nat_of_ascii c) <? 128) (list_ascii_of_string s).

(** [str.isspace]: below U+0100 the white space is U+0009..U+000D,
    U+001C..U+0020, U+0085 and U+00A0. *)
Definition isspace (c : ascii) : bool :=
  let n := Z.of_nat (nat_of_ascii c) in
  (n =? 32) || ((9 <=? n) && (n <=? 13)) || ((28 <=? n) && (n <=? 31))
  || (n =? 133) || (n =? 160).

(** [command.split()]: the maximal runs of characters that are not white
    space in the sense of [str.isspace]; [word] is the run being read. *)
Fixpoint split (command : string) (word : string) : list string :=
  match command with
  | EmptyString => match word with EmptyString => [] | _ => [word] end
  | String c rest =>
      if isspace c
      then match word with
           | EmptyString => split rest EmptyString
           | _ => word :: split rest EmptyString
           end
      else split rest (word ++ String c EmptyString)%string
  end.

Definition digit (c : ascii) : option Z :=
  let n := Z.of_nat (nat_of_ascii c) in
  if (48 <=? n) && (n <=? 57) then Some (n - 48) else None.

(** The digits of a decimal literal, single underscores allowed between
    two digits. *)
Fixpoint digits (s : string) (acc : Z) (after_digit : bool) : option Z :=
  match s with
  | EmptyString => if after_digit then Some acc else None
  | String c rest =>
      match digit c with
      | Some d => digits rest (acc * 10 + d) true
      | None =>
          if (Ascii.eqb c "_"%char) && after_digit then digits rest acc false else None
      end
  end.

(** The white space [int] strips from both ends of its argument: U+0009..
    U+000D, U+0020, U+0085 and U+00A0 (not U+001C..U+001F). *)
Definition int_space (c : ascii) : bool :=
  let n := Z.of_nat (nat_of_ascii c) in
  (n =? 32) || ((9 <=? n) && (n <=? 13)) || (n =? 133) || (n =? 160).

Fixpoint drop_space (l : list ascii) : list ascii :=
  match l with
  | c :: rest => if int_space c then drop_space rest else l
  | [] => []
  end.

Definition strip (text : string) : string :=
  string_of_list_ascii (rev (drop_space (rev (drop_space (list_ascii_of_string text))))).

(** The number of digit characters of a literal, underscores left out. *)
Definition count_digits (s : string) : Z :=
  Z.of_nat (length (List.filter (fun c => match digit c with Some _ => true | None => false end)
                                (list_ascii_of_string s))).

(** [sys.get_int_max_str_digits()], CPython's default. *)
Definition INT_MAX_STR_DIGITS : Z := 4300.

(** [int(text)]: white space stripped, an optional sign and a decimal
    literal of at most 4300 digits.  Both failures are a [ValueError]; for a
    literal that is ill-formed and has more than 4300 digits, which of the
    two texts is raised depends on the interpreter's version, and the one
    caller, [Cmd._spawn], treats them alike. *)
Definition int (text : string) : M World Z :=
  let literal := strip text in
  let body :=
    match literal with
    | String "-"%char rest => rest
    | String "+"%char rest => rest
    | _ => literal
    end in
  let parsed :=
    match literal with
    | String "-"%char rest => option_map Z.opp (digits rest 0 false)
    | String "+"%char rest => digits rest 0 false
    | _ => digits literal 0 false
    end in
  match parsed with
  | Some n =>
      if count_digits body >? INT_MAX_STR_DIGITS
      then raise ValueError (TooManyDigits (count_digits body))
      else ret n
  | None => raise ValueError (InvalidLiteral text)
  end.

Definition Cmd_spawn (args : list string) : M World unit :=
  match args with
  | [] => print "Usage: spawn <elem_type> [x] [y] [...]"
  | elem_type :: coords =>
      parsed <- catch (fun c => match c with ValueError => true | _ => false end)
                  (x <- match coords with
                        | sx :: _ => (v <- int sx ;; ret (Some v))
                        | [] => ret None
                        end ;;
                   y <- match coords with
                        | _ :: sy :: _ => (v <- int sy ;; ret (Some v))
                        | _ => ret None
                        end ;;
                   ret (Some (x, y)))
                  (fun _ => print "Coordinates must be integers." ;; ret None) ;;
      match parsed with
      | None => ret tt
      | Some (x, y) =>
          if String.eqb elem_type "entity" then
            match x, y with
            | Some x, Some y =>
                Entity_new (x, y) Entity_ENERGY_DEF 0 ;;
                print ("Spawning entity at (" ++ str x ++ ", " ++ str y ++ ")")%string
            | _, _ =>
                Entity_generate ;;
                print "Spawning entity at a random location."
            end
          else if String.eqb elem_type "food" then
            match x, y with
            | Some x, Some y =>
                (* Food.new((x, y)): the points are not passed *)
                Food_new (x, y) None ;;
                print ("Spawning food at (" ++ str x ++ ", " ++ str y ++ ")")%string
            | _, _ =>
                Food_generate ;;
                print "Spawning food at a random location."
            end
          else print "Unknown element type. Use 'entity' or 'food'."
      end
  end.

Definition Cmd_save : M World unit :=
  catch (fun _ => true)
    (modify (set_save_duration 60) ;;
     Save_save ;;
     number <- gets save_number ;;
     print ("Saving simulation with ID " ++ str number ++ "...")%string)
    (fun e => print ("Error saving simulation: " ++ render (exn_message e))%string).

Definition Cmd_help : M World unit :=
  print "Available commands:" ;;
  print " - save: Saves the current state of the simulation." ;;
  print " - spawn <elem_type> [x] [y] [...]: Make an element spawn in the simulation." ;;
  print " - exit: Exits the simulation." ;;
  print " - clear: Clears the terminal screen." ;;
  print " - help: Displays this help message.".

(** [Cmd._clear] runs the terminal's own clear command; nothing of the
    world changes. *)
Definition Cmd_clear : M World unit := ret tt.

Definition Cmd_processCmd (command : string) : M World unit :=
  match split command EmptyString with
  | [] => ret tt
  | cmd :: args =>
      if String.eqb cmd "save" then Cmd_save
      else if String.eqb cmd "exit" then modify (set_running false)
      else if String.eqb cmd "help" then Cmd_help
      else if String.eqb cmd "clear" then Cmd_clear
      else if String.eqb cmd "spawn" then Cmd_spawn args
      else print "Unknown command. Type 'help' for a list of commands."
  end.

(** One round of [Cmd._handle_input] once a line has been read. *)
Definition Cmd_handle_input (command : string) : M World unit :=
  is_running <- gets running ;;
  if is_running then
    catch (fun _ => true)
      (Cmd_processCmd command)
      (fun err => print ("#ERROR: " ++ render (exn_message err))%string)
  else ret tt.

(** ** Sample worlds *)

Definition empty_world (size : Z * Z) : World :=
  mkWorld size [] Food_MAXFOODS_DEF [] 0 0 0 0 None 0 0 0 true 0 None None [] [].

(** ** The save record, field by field

    A flat description of what [Save.save] hands to [_write_int], in
    order; it is related to the code by [Save_save_fields] below. *)

Record field := Field { field_size : Z; field_value : Z; field_name : string }.

Definition fits (f : field) : bool :=
  (0 <=? field_value f) && (field_value f <? 2 ^ (field_size f * 8)).

Definition Food_fields (food : Food) : list field :=
  [ Field Food_NBYTES_PTS (Food_pts food) "food.pts";
    Field Save_NBYTES_COORD (Food_x food) "food.x";
    Field Save_NBYTES_COORD (Food_y food) "food.y" ].

Definition Entity_fields (entity : Entity) : list field :=
  [ Field Entity_NBYTES_ID (Entity_id entity) "entity.id";
    Field Save_NBYTES_COORD (Entity_x entity) "entity.x";
    Field Save_NBYTES_COORD (Entity_y entity) "entity.y";
    Field Entity_NBYTES_ENERGY (Entity_energy entity) "entity.energy";
    Field Entity_NBYTES_TIME (Entity_time entity) "entity.time" ].

Definition header_fields (w : World) : list field :=
  [ Field Save_NBYTES_TIME (clock w) "file.last_loading";
    Field Save_NBYTES_TIME (save_time w + (clock w - save_starting w)) "file.sim_time";
    Field Save_NBYTES_COORD (fst (Map_size w)) "map.size_x";
    Field Save_NBYTES_COORD (snd (Map_size w)) "map.size_y" ].

Definition food_section (foods : list Food) : list field :=
  flat_map Food_fields foods ++ [Field Food_NBYTES_PTS 0 "food.end"].

Definition entity_section (entities : list Entity) : list field :=
  flat_map Entity_fields entities ++ [Field Entity_NBYTES_ID 0 "entity.end"].

Definition record_fields (w : World) : list field :=
  header_fields w ++ food_section (Food_list w) ++ entity_section (Entity_list w).

Definition field_bytes (f : field) : list byte :=
  to_bytes (Z.to_nat (field_size f)) (field_value f).

(** Writing fields one after the other until one does not fit. *)
Fixpoint write_all (fields : list field) (file : list byte) : outcome unit * list byte :=
  match fields with
  | [] => (Return tt, file)
  | f :: rest =>
      if fits f then write_all rest (file ++ field_bytes f)
      else (Raise (Exn ValueError (MustFit (field_name f) (field_size f))), file)
  end.

(** The fields before the first one that does not fit, and that one. *)
Fixpoint fitting_prefix (fields : list field) : list field :=
  match fields with
  | [] => []
  | f :: rest => if fits f then f :: fitting_prefix rest else []
  end.

Fixpoint first_misfit (fields : list field) : option field :=
  match fields with
  | [] => None
  | f :: rest => if fits f then first_misfit rest else Some f
  end.

(** Every value of the world fits the width of its field. *)
Definition saveable (w : World) : bool := forallb fits (record_fields w).

(** The bytes of the complete record of a world. *)
Definition record_bytes (w : World) : list byte :=
  flat_map field_bytes (record_fields w).

(** ** Well-formed worlds

    What the setters establish for every live object, with the two
    off-by-one bounds left out: points and ids below 2^16. *)

Definition Food_ok (size : Z * Z) (food : Food) : bool :=
  in_range (fst size) (Food_x food) && in_range (snd size) (Food_y food)
  && (0 <? Food_pts food) && (Food_pts food <=? Food_PTS_MAX).

Definition Entity_ok (size : Z * Z) (entity : Entity) : bool :=
  in_range (fst size) (Entity_x entity) && in_range (snd size) (Entity_y entity)
  && (0 <=? Entity_energy entity) && (Entity_energy entity <=? Entity_ENERGY_MAX)
  && (-1 <=? Entity_time entity) && (Entity_time entity <? Entity_TIME_MAX)
  && (0 <? Entity_id entity) && (Entity_id entity <=? Entity_MAX_ID)
  && (Entity_range entity =? Entity_RANGE_DEF).

Definition World_ok (w : World) : bool :=
  forallb (Food_ok (Map_size w)) (Food_list w)
  && forallb (Entity_ok (Map_size w)) (Entity_list w)
  && (0 <=? Entity_nEntities w) && (Entity_nEntities w <=? Entity_MAX_ID).

(** The id [Entity.__init__] hands out when the counter stands at [n]. *)
Definition next_id (n : Z) : Z := if n <? Entity_MAX_ID then n + 1 else 1.

(** The ids of [k] agents created in a row from counter [n]. *)
Fixpoint fresh_ids (n : Z) (k : nat) : list Z :=
  match k with
  | O => []
  | S k' => next_id n :: fresh_ids (next_id n) k'
  end.

Definition Food_tuple (food : Food) : Z * Z * Z :=
  (Food_pts food, Food_x food, Food_y food).

(** An agent without its id, and with it. *)
Definition Entity_body (entity : Entity) : Z * Z * Z * Z :=
  (Entity_x entity, Entity_y entity, Entity_energy entity, Entity_time entity).
Definition Entity_tuple (entity : Entity) : Z * Z * Z * Z * Z :=
  (Entity_id entity, Entity_x entity, Entity_y entity, Entity_energy entity, Entity_time entity).

(** What the first [try] of [Save.save] leaves: the backup holds the
    content of the save file when there was one. *)
Definition backed_up (w : World) : World :=
  match file_save w with
  | Some content => set_file_backup (Some content) w
  | None => w
  end.

(** ** Reading a cut record

    When a file holds only the first [n] bytes of a section, the field whose
    read fails is determined by [n]. *)

Definition header_read_name (n : nat) : string :=
  if (n <? 8)%nat then "file.last_loading"
  else if (n <? 16)%nat then "file.sim_time"
  else if (n <? 18)%nat then "map.size_x"
  else "map.size_y".

Definition food_read_name (n : nat) : string :=
  if (n mod 6 <? 2)%nat then "food.pts"
  else if (n mod 6 <? 4)%nat then "food.x"
  else "food.y".

Definition entity_read_name (n : nat) : string :=
  if (n mod 10 <? 2)%nat then "entity.id"
  else if (n mod 10 <? 4)%nat then "entity.x"
  else if (n mod 10 <? 6)%nat then "entity.y"
  else if (n mod 10 <? 8)%nat then "entity.energy"
  else "entity.time".

(** The agents [Save._read_entity] creates from the records of [entities]
    when the id counter stands at [n]: same place, energy and time, a fresh
    id each. *)
Fixpoint reload (n : Z) (entities : list Entity) : list Entity :=
  match entities with
  | [] => []
  | entity :: rest =>
      mkEntity (Entity_x entity) (Entity_y entity) (Entity_energy entity)
               (Entity_time entity) (Entity_time entity / Entity_TIME_IN_AGE)
               Entity_RANGE_DEF (next_id n)
      :: reload (next_id n) rest
  end.

Fixpoint counter_after (n : Z) (k : nat) : Z :=
  match k with
  | O => n
  | S k' => counter_after (next_id n) k'
  end.

(** The exception [Save.load] raises when [name] cannot be read. *)
Definition read_error (name : string) : exn :=
  Exn ValueError (Wrapped "Value error: " (CouldNotRead name)).

(** The timers of the [Save] object after [Save.load] has read what the
    first [n] bytes of the record of [src] hold of them. *)
Definition cut_header (src : World) (n : nat) (w : World) : World :=
  let t := save_time src + (clock src - save_starting src) in
  if (n <? 8)%nat then w
  else if (n <? 16)%nat then set_save_last (clock src) w
  else set_save_age (t / Save_TIME_IN_AGE) (set_save_time t (set_save_last (clock src) w)).

(** What [Save.load] does in world [w] when the save file holds the first
    [n] bytes of the record of [src]. *)
Definition load_firstn (src : World) (n : nat) (w : World) : outcome unit * World :=
  let foods := Food_list src in
  let entities := Entity_list src in
  let c := Entity_nEntities w in
  if (n <? 20)%nat then (Raise (read_error (header_read_name n)), cut_header src n w)
  else
    let wh := set_Map_size (Map_size src) (cut_header src n w) in
    let nf := (n - 20)%nat in
    if (nf <? 6 * length foods + 2)%nat
    then (Raise (read_error (food_read_name nf)), set_Food_list (firstn (nf / 6) foods) wh)
    else
      let wf := set_Food_list foods wh in
      let ne := (nf - (6 * length foods + 2))%nat in
      if (ne <? 10 * length entities + 2)%nat
      then (Raise (read_error (entity_read_name ne)),
            set_Entity_list (reload c (firstn (ne / 10) entities))
              (set_Entity_nEntities (counter_after c (ne / 10)) wf))
      else (Return tt,
            set_Entity_list (reload c entities)
              (set_Entity_nEntities (counter_after c (length entities)) wf)).

(** A 5x5 world with one agent at (2,2), then also one food there, both
    created by the code. *)
Definition one_agent_world : World :=
  snd (Entity_new (2, 2) 50 0 (empty_world (5, 5))).

Definition fed_world : World :=
  snd (Food_new (2, 2) (Some 100) one_agent_world).

(** A 5x5 world whose save file already holds one byte and whose only agent
    was created with the time 4000, which its setter resets. *)
Definition reset_agent_world : World :=
  snd (Entity_new (2, 2) 50 4000
         (set_file_save (Some [Byte.x2a]) (empty_world (5, 5)))).

(** [one_agent_world] with a save file cut one byte into the food section
    of the record of [fed_world]. *)
Definition cut_file_world : World :=
  set_file_save (Some (firstn 21 (record_bytes fed_world))) one_agent_world.

(** ** The tick, phase by phase, in the words of the specification

    Section 4.3 of the specification lists what one tick of an agent does.
    Each phase is written here as a function on the agent and the world,
    from those words; the properties below relate them to the code. *)

Definition on_map (size : Z * Z) (x y : Z) : bool :=
  in_range (fst size) x && in_range (snd size) y.

(** 1. Energy -= 1, floored at 0. *)
Definition tick_energy (s : Entity * World) : Entity * World :=
  (with_energy (Z.max 0 (Entity_energy (fst s) - 1)) (fst s), snd s).

(** 2. Elapsed-time += 1, recomputing the derived age, elapsed time
    divided by 40; a value outside [0, 4000) is not stored: the time
    becomes -1 and energy and age are forced to 0. *)
Definition tick_time (s : Entity * World) : Entity * World :=
  let t := Entity_time (fst s) + 1 in
  if (0 <=? t) && (t <? 4000)
  then (with_age (t / 40) (with_time t (fst s)), snd s)
  else (with_age 0 (with_energy 0 (with_time (-1) (fst s))), snd s).

(** The first Food of the list at [(x, y)], and the list without it. *)
Fixpoint take_first_at (x y : Z) (foods : list Food) : option (Food * list Food) :=
  match foods with
  | [] => None
  | food :: rest =>
      if (Food_x food =? x) && (Food_y food =? y) then Some (food, rest)
      else match take_first_at x y rest with
           | Some (found, others) => Some (found, food :: others)
           | None => None
           end
  end.

(** 3. Eat: if energy < max, the first Food co-located with the agent, if
    any, has its points added to energy, capped at max, and is removed. *)
Definition tick_eat (s : Entity * World) : Entity * World :=
  let (e, w) := s in
  if Entity_energy e <? 9999 then
    match take_first_at (Entity_x e) (Entity_y e) (Food_list w) with
    | Some (food, others) =>
        (with_energy (Z.min 9999 (Entity_energy e + Food_pts food)) e,
         set_Food_list others w)
    | None => (e, w)
    end
  else (e, w).

(** 4. Reproduce: if age is in [18, 60) and energy >= 500, subtract 200 from
    energy and spawn a new agent at the same coordinate with energy 200, a
    fresh id and time 0. *)
Definition tick_reproduce (s : Entity * World) : Entity * World :=
  let (e, w) := s in
  if (18 <=? Entity_age e) && (Entity_age e <? 60) && (500 <=? Entity_energy e) then
    let child := mkEntity (Entity_x e) (Entity_y e) 200 0 0 10
                          (next_id (Entity_nEntities w)) in
    (with_energy (Entity_energy e - 200) e,
     set_Entity_list (Entity_list w ++ [child])
       (set_Entity_nEntities (next_id (Entity_nEntities w)) w))
  else (e, w).

(** Within the foraging range of 10, Euclidean and inclusive. *)
Definition in_sight (e : Entity) (food : Food) : bool :=
  distance2 e food <=? 10 * 10.

(** The nearest Food in sight; among equally near ones the first of the
    list. *)
Fixpoint nearest (e : Entity) (foods : list Food) : option Food :=
  match foods with
  | [] => None
  | food :: rest =>
      match nearest e rest with
      | Some other =>
          if in_sight e food && (distance2 e food <=? distance2 e other)
          then Some food else Some other
      | None => if in_sight e food then Some food else None
      end
  end.

(** One unit toward [target] on one axis: the sign of the difference. *)
Definition toward (from target : Z) : Z := from + Z.sgn (target - from).

(** The offsets of the 3x3 Moore neighbourhood, [(0, 0)] included. *)
Definition moore : list (Z * Z) := list_prod [-1; 0; 1] [-1; 0; 1].

Definition keeps_on_map (size : Z * Z) (e : Entity) (d : Z * Z) : bool :=
  on_map size (Entity_x e + fst d) (Entity_y e + snd d).

(** 5. Move: one unit toward the nearest Food in sight on each axis; with no
    Food in sight, by one of the Moore offsets that keep the agent on the
    map, chosen by the next random draw.  [None] when no draw is left. *)
Definition tick_movement (s : Entity * World) : option (Entity * World) :=
  let (e, w) := s in
  match nearest e (Food_list w) with
  | Some food =>
      Some (with_y (toward (Entity_y e) (Food_y food))
              (with_x (toward (Entity_x e) (Food_x food)) e), w)
  | None =>
      let moves := List.filter (keeps_on_map (Map_size w) e) moore in
      match tape w with
      | [] => None
      | r :: rest =>
          match moves !! Z.to_nat (r mod Z.of_nat (length moves)) with
          | Some d =>
              Some (with_y (Entity_y e + snd d) (with_x (Entity_x e + fst d) e),
                    set_tape rest w)
          | None => None
          end
      end
  end.

(** The five phases in order. *)
Definition tick_phases (s : Entity * World) : outcome unit * (Entity * World) :=
  let s4 := tick_reproduce (tick_eat (tick_time (tick_energy s))) in
  match tick_movement s4 with
  | Some s5 => (Return tt, s5)
  | None => (Starved, s4)
  end.

(** What the setters and the constructors guarantee of an agent about to be
    ticked and of the Food around it. *)
Definition tickable (s : Entity * World) : Prop :=
  let (e, w) := s in
  on_map (Map_size w) (Entity_x e) (Entity_y e) = true
  /\ 0 <= Entity_energy e <= Entity_ENERGY_MAX
  /\ Entity_range e = Entity_RANGE_DEF
  /\ forallb (Food_ok (Map_size w)) (Food_list w) = true.

(** What the loop of [moveTowardsFood] holds after more of the list: the
    Food it held, unless a strictly nearer one was [found] later. *)
Definition later_nearer (e : Entity) (best : option (Food * Z)) (found : option Food)
  : option Food :=
  match best, found with
  | None, _ => found
  | Some (b, _), None => Some b
  | Some (b, db), Some g => if distance2 e g <? db then Some g else Some b
  end.

(** ** One round of the engine's sweep *)

(** The body of the [for] of [RSim.step] up to the survival test, on the
    agent at index [i]. *)
Definition sweep_round (i : nat) (entity : Entity) : M World bool :=
  on_entity i entity (Entity_move ;; e <- self ;; ret (Entity_survive e)).

(** Two worlds that differ at most in the two lists, the id counter and the
    random tape. *)
Definition differ_in_lists (w w' : World) : Prop :=
  exists foods entities n tp,
    w' = set_tape tp (set_Entity_nEntities n (set_Entity_list entities (set_Food_list foods w))).

(** Rounds the sweep still has to make from index [i]: an agent whose time
    is 0 cannot reproduce in this sweep, any other may add one agent to the
    list, and that one is born with time 0. *)
Definition weight (entity : Entity) : nat :=
  if Entity_time entity =? 0 then 1%nat else 2%nat.

Definition rounds_left (i : nat) (entities : list Entity) : nat :=
  list_sum (map weight (skipn i entities)).

(** A 5x5 world with two agents and one draw on the tape: the first agent
    has energy 1 and starves in its tick, the second stands at (3,3). *)
Definition two_agent_world : World :=
  snd (Entity_new (3, 3) 50 0
         (snd (Entity_new (2, 2) 1 0 (set_tape [4] (empty_world (5, 5)))))).

(** ** What the constructors build

    The object [Food(coord, pts)] and [Entity(coord, energy, time)] hand
    back for a coordinate of the map; the lemmas [Food_new_cases] and
    [Entity_new_cases] below relate them to the code. *)

Definition built_Food (x y pts : Z) : Food :=
  mkFood x y (if (0 <? pts) && (pts <=? Food_PTS_MAX) then pts else Food_PTS_DEFAULT).

Definition built_Entity (x y energy time id : Z) : Entity :=
  if in_range Entity_TIME_MAX time
  then mkEntity x y
         (if energy >? Entity_ENERGY_MAX then Entity_ENERGY_MAX
          else if energy <? 0 then 0 else energy)
         time (time / Entity_TIME_IN_AGE) Entity_RANGE_DEF id
  else mkEntity x y 0 (-1) 0 Entity_RANGE_DEF id.

(** Two worlds with the same files, terminal, random tape and settings:
    what [Save.load] never assigns. *)
Definition same_outside (w w' : World) : Prop :=
  file_save w' = file_save w /\ file_backup w' = file_backup w
  /\ tape w' = tape w /\ stdout w' = stdout w /\ clock w' = clock w
  /\ Food_maxFoods w' = Food_maxFoods w /\ save_starting w' = save_starting w
  /\ save_number w' = save_number w /\ save_duration w' = save_duration w
  /\ running w' = running w.

(** The place of a Food, as a pair. *)
Definition Food_cell (food : Food) : Z * Z := (Food_x food, Food_y food).

(** ** simulation.py: the first population *)

(** [for _ in range(n): body] *)
Fixpoint repeat_times {S} (n : nat) (body : M S unit) : M S unit :=
  match n with
  | O => ret tt
  | S k => body ;; repeat_times k body
  end.

(** [RSim.generate(nEntities, nFoods)]; [range] of a negative number is
    empty. *)
Definition RSim_generate (nEntities nFoods : Z) : M World unit :=
  repeat_times (Z.to_nat nEntities) Entity_generate ;;
  repeat_times (Z.to_nat nFoods) Food_generate.

(** An agent as [Entity.generate] makes it: default energy, no elapsed time. *)
Definition newborn (e : Entity) : Prop :=
  Entity_energy e = Entity_ENERGY_DEF /\ Entity_time e = 0 /\ Entity_age e = 0.

(** ** More sample worlds *)

(** [two_agent_world] with the three draws one engine step needs there: one
    for the random move of the first agent, two for the new Food. *)
Definition stocked_world : World := set_tape [4; 7; 7] two_agent_world.

(** A save file written by hand for a 5x5 map: no Food, and one agent
    record with energy 60000 and time 100 at (1, 1), stored under the id 7. *)
Definition crafted_file : list byte :=
  to_bytes 8 0 ++ to_bytes 8 0 ++ to_bytes 2 5 ++ to_bytes 2 5
  ++ to_bytes 2 0
  ++ to_bytes 2 7 ++ to_bytes 2 1 ++ to_bytes 2 1 ++ to_bytes 2 60000 ++ to_bytes 2 100
  ++ to_bytes 2 0.

Definition crafted_world : World :=
  set_file_save (Some crafted_file) (empty_world (200, 150)).

(** The messages whose text the sources build themselves. *)
Fixpoint source_text (m : message) : bool :=
  match m with
  | MustFit _ _ | CouldNotRead _ | MustBeIn _ _ _ => true
  | Wrapped _ inner => source_text inner
  | _ => false
  end.

(** A 10x10 world with one agent at (8, 8) whose save file holds the header
    of the record of the 5x5 [fed_world] and one byte of its Food section. *)
Definition stale_world : World :=
  set_file_save (Some (firstn 21 (record_bytes fed_world)))
    (snd (Entity_new (8, 8) 50 0 (empty_world (10, 10)))).

(** A save file for a 5x5 map whose simulated time is 2^64 - 1, with no Food
    and one agent at (2, 2); and a world that has it and three draws. *)
Definition late_file : list byte :=
  to_bytes 8 0 ++ to_bytes 8 (2 ^ 64 - 1) ++ to_bytes 2 5 ++ to_bytes 2 5
  ++ to_bytes 2 0
  ++ to_bytes 2 1 ++ to_bytes 2 2 ++ to_bytes 2 2 ++ to_bytes 2 50 ++ to_bytes 2 0
  ++ to_bytes 2 0.

Definition late_world : World :=
  set_tape [4; 7; 7] (set_file_save (Some late_file) (empty_world (5, 5))).

(** A literal of 4301 digits: 4300 zeros and a one. *)
Definition long_literal : string :=
  string_of_list_ascii (repeat "0"%char 4300 ++ ["1"%char]).

(** * Properties *)

(** ** Big-endian integers *)

Lemma length_to_bytes (n : nat) (v : Z) : length (to_bytes n v) = n.
Proof.
  revert v; induction n as [|n IH]; intros v; simpl; [reflexivity|].
  rewrite length_app, IH; simpl; lia.
Qed.

Lemma from_bytes_snoc (l : list byte) (b : byte) :
  from_bytes (l ++ [b]) = from_bytes l * 256 + byte.unsigned b.
Proof. unfold from_bytes. rewrite fold_left_app. reflexivity. Qed.

Lemma from_to_bytes (n : nat) (v : Z) :
  0 <= v < 256 ^ Z.of_nat n -> from_bytes (to_bytes n v) = v.
Proof.
  revert v; induction n as [|n IH]; intros v Hv.
  - simpl in *. change (256 ^ 0) with 1 in Hv. unfold from_bytes; simpl. lia.
  - cbn [to_bytes]. rewrite from_bytes_snoc, byte.unsigned_of_Z.
    unfold byte.wrap. change (2 ^ 8) with 256.
    rewrite IH.
    + pose proof (Z.div_mod v 256 ltac:(lia)). lia.
    + rewrite Nat2Z.inj_succ, Z.pow_succ_r in Hv by lia.
      split; [apply Z.div_pos; lia|apply Z.div_lt_upper_bound; lia].
Qed.

Lemma fits_bound (f : field) :
  0 <= field_size f -> fits f = true ->
  0 <= field_value f < 256 ^ Z.of_nat (Z.to_nat (field_size f)).
Proof.
  intros Hs Hf. unfold fits in Hf. apply andb_prop in Hf as [H1 H2].
  apply Z.leb_le in H1. apply Z.ltb_lt in H2.
  rewrite Z2Nat.id by lia. change 256 with (2 ^ 8).
  rewrite <- Z.pow_mul_r by lia. rewrite (Z.mul_comm 8). lia.
Qed.

Lemma length_field_bytes (f : field) : length (field_bytes f) = Z.to_nat (field_size f).
Proof. apply length_to_bytes. Qed.

(** ** Writing *)

Lemma write_all_app (fs gs : list field) (file : list byte) :
  write_all (fs ++ gs) file =
  match write_all fs file with
  | (Return _, file') => write_all gs file'
  | r => r
  end.
Proof.
  revert file; induction fs as [|f fs IH]; intros file; simpl; [reflexivity|].
  destruct (fits f); [apply IH|reflexivity].
Qed.

Lemma write_all_fitting (fs : list field) (file : list byte) :
  write_all fs file =
  match first_misfit fs with
  | None => (Return tt, file ++ flat_map field_bytes fs)
  | Some f => (Raise (Exn ValueError (MustFit (field_name f) (field_size f))),
               file ++ flat_map field_bytes (fitting_prefix fs))
  end.
Proof.
  revert file; induction fs as [|f fs IH]; intros file; simpl.
  - rewrite app_nil_r. reflexivity.
  - destruct (fits f); simpl.
    + rewrite IH. destruct (first_misfit fs); rewrite <- app_assoc; reflexivity.
    + rewrite app_nil_r. reflexivity.
Qed.

Lemma first_misfit_None (fs : list field) :
  first_misfit fs = None <-> forallb fits fs = true.
Proof.
  induction fs as [|f fs IH]; simpl; [tauto|].
  destruct (fits f); simpl; [exact IH|]. split; discriminate.
Qed.

Lemma first_misfit_Some (fs : list field) (f : field) :
  first_misfit fs = Some f -> In f fs /\ fits f = false.
Proof.
  induction fs as [|g fs IH]; simpl; [discriminate|].
  destruct (fits g) eqn:E.
  - intros H. destruct (IH H). auto.
  - intros [= <-]. auto.
Qed.

(** One [_write_int] is one step of [write_all]. *)
Lemma Save_write_int_step (size value : Z) (name : string) (file : list byte) (w : World) :
  Save_write_int size value name (file, w) =
  let (r, file') := write_all [Field size value name] file in (r, (file', w)).
Proof.
  unfold Save_write_int, write_all, fits, field_bytes; simpl.
  destruct ((0 <=? value) && (value <? 2 ^ (size * 8))); reflexivity.
Qed.

Lemma bind_assoc {S A B C} (m : M S A) (f : A -> M S B) (g : B -> M S C) (s : S) :
  bind (bind m f) g s = bind m (fun a => bind (f a) g) s.
Proof. unfold bind. destruct (m s) as [[a|e|] s']; reflexivity. Qed.

Lemma bind_write_int {A} (size value : Z) (name : string)
      (k : unit -> M (list byte * World) A) (file : list byte) (w : World) :
  bind (Save_write_int size value name) k (file, w) =
  if fits (Field size value name)
  then k tt (file ++ field_bytes (Field size value name), w)
  else (Raise (Exn ValueError (MustFit name size)), (file, w)).
Proof.
  unfold bind, Save_write_int, fits, field_bytes; simpl.
  destruct ((0 <=? value) && (value <? 2 ^ (size * 8))); reflexivity.
Qed.

Ltac run_write_int :=
  repeat (rewrite ?bind_assoc; rewrite bind_write_int;
          cbn [write_all field_size field_value field_name];
          match goal with
          | |- context [fits ?f] => destruct (fits f); cbn [write_all]; [|reflexivity]
          end).

Lemma for_each_Food_fields (foods : list Food) (file : list byte) (w : World) :
  for_each foods (fun food =>
    Save_write_int Food_NBYTES_PTS (Food_pts food) "food.pts" ;;
    Save_write_int Save_NBYTES_COORD (Food_x food) "food.x" ;;
    Save_write_int Save_NBYTES_COORD (Food_y food) "food.y") (file, w) =
  let (r, file') := write_all (flat_map Food_fields foods) file in (r, (file', w)).
Proof.
  revert file; induction foods as [|food foods IH]; intros file; [reflexivity|].
  cbn [for_each flat_map Food_fields app].
  run_write_int.
  apply IH.
Qed.

Lemma for_each_Entity_fields (entities : list Entity) (file : list byte) (w : World) :
  for_each entities (fun entity =>
    Save_write_int Entity_NBYTES_ID (Entity_id entity) "entity.id" ;;
    Save_write_int Save_NBYTES_COORD (Entity_x entity) "entity.x" ;;
    Save_write_int Save_NBYTES_COORD (Entity_y entity) "entity.y" ;;
    Save_write_int Entity_NBYTES_ENERGY (Entity_energy entity) "entity.energy" ;;
    Save_write_int Entity_NBYTES_TIME (Entity_time entity) "entity.time") (file, w) =
  let (r, file') := write_all (flat_map Entity_fields entities) file in (r, (file', w)).
Proof.
  revert file; induction entities as [|entity entities IH]; intros file; [reflexivity|].
  cbn [for_each flat_map Entity_fields app].
  run_write_int.
  apply IH.
Qed.

Lemma Save_write_food_fields (file : list byte) (w : World) :
  Save_write_food (file, w) =
  let (r, file') := write_all (food_section (Food_list w)) file in (r, (file', w)).
Proof.
  unfold Save_write_food, food_section.
  unfold bind at 1. cbn [liftW gets snd fst].
  unfold bind at 1. rewrite for_each_Food_fields, write_all_app.
  destruct (write_all (flat_map Food_fields (Food_list w)) file) as [[[]|e|] file']; reflexivity.
Qed.

Lemma Save_write_entity_fields (file : list byte) (w : World) :
  Save_write_entity (file, w) =
  let (r, file') := write_all (entity_section (Entity_list w)) file in (r, (file', w)).
Proof.
  unfold Save_write_entity, entity_section.
  unfold bind at 1. cbn [liftW gets snd fst].
  unfold bind at 1. rewrite for_each_Entity_fields, write_all_app.
  destruct (write_all (flat_map Entity_fields (Entity_list w)) file) as [[[]|e|] file']; reflexivity.
Qed.

(** The [with] block of [Save.save] writes the fields of the record. *)
Lemma Save_save_body_fields (w : World) (file : list byte) :
  (t <- liftW (gets save_time) ;;
   starting <- liftW (gets save_starting) ;;
   size <- liftW (gets Map_size) ;;
   Save_write_int Save_NBYTES_TIME (clock w) "file.last_loading" ;;
   Save_write_int Save_NBYTES_TIME (t + (clock w - starting)) "file.sim_time" ;;
   Save_write_int Save_NBYTES_COORD (fst size) "map.size_x" ;;
   Save_write_int Save_NBYTES_COORD (snd size) "map.size_y" ;;
   Save_write_food ;;
   Save_write_entity) (file, w) =
  let (r, file') := write_all (record_fields w) file in (r, (file', w)).
Proof.
  unfold record_fields, header_fields.
  do 3 (unfold bind at 1; cbn [liftW gets fst snd]).
  cbn [app write_all].
  run_write_int.
  unfold bind. rewrite Save_write_food_fields, write_all_app.
  destruct (write_all (food_section (Food_list w)) _) as [[[]|e|] file']; try reflexivity.
  apply Save_write_entity_fields.
Qed.

(** [Save.save] in closed form. *)
Lemma Save_save_fields (w : World) :
  Save_save w =
  match first_misfit (record_fields w) with
  | None => (Return tt, set_file_save (Some (record_bytes w)) (backed_up w))
  | Some f =>
      (Raise (Exn ValueError (Wrapped "Value error: " (MustFit (field_name f) (field_size f)))),
       set_file_save (Some (flat_map field_bytes (fitting_prefix (record_fields w))))
                     (backed_up w))
  end.
Proof.
  assert (Hbody : forall w1, clock w1 = clock w -> record_fields w1 = record_fields w ->
    catch (fun _ => true)
      (with_open_wb
         (t <- liftW (gets save_time) ;;
          starting <- liftW (gets save_starting) ;;
          size <- liftW (gets Map_size) ;;
          Save_write_int Save_NBYTES_TIME (clock w) "file.last_loading" ;;
          Save_write_int Save_NBYTES_TIME (t + (clock w - starting)) "file.sim_time" ;;
          Save_write_int Save_NBYTES_COORD (fst size) "map.size_x" ;;
          Save_write_int Save_NBYTES_COORD (snd size) "map.size_y" ;;
          Save_write_food ;;
          Save_write_entity))
      (reraise "Failed to save: ") w1 =
    match first_misfit (record_fields w) with
    | None => (Return tt, set_file_save (Some (record_bytes w)) w1)
    | Some f =>
        (Raise (Exn ValueError (Wrapped "Value error: " (MustFit (field_name f) (field_size f)))),
         set_file_save (Some (flat_map field_bytes (fitting_prefix (record_fields w)))) w1)
    end).
  { intros w1 Hc Hr. unfold catch, with_open_wb.
    rewrite <- Hc.
    change (clock w1) with (clock (set_file_save (Some []) w1)).
    rewrite Save_save_body_fields.
    change (record_fields (set_file_save (Some []) w1)) with (record_fields w1).
    rewrite Hr, write_all_fitting. unfold record_bytes.
    destruct (first_misfit (record_fields w)); reflexivity. }
  unfold Save_save, backed_up.
  unfold bind at 1. unfold catch at 1. unfold bind at 1. cbn [gets].
  unfold bind at 1. unfold copy_to_backup.
  destruct (file_save w) as [content|] eqn:E; cbn [ret gets].
  - apply Hbody; reflexivity.
  - apply Hbody; reflexivity.
Qed.

(** ** Reading *)

(** Reading one field from a file that holds the first [n] bytes of a
    stream starting with that field. *)
Lemma bind_read_int_firstn {A} (size value : Z) (written_as name : string)
      (k : Z -> M (list byte * World) A) (n : nat) (rest : list byte) (w : World) :
  0 <= size -> fits (Field size value written_as) = true ->
  bind (Save_read_int size name) k
       (firstn n (field_bytes (Field size value written_as) ++ rest), w) =
  if (Z.to_nat size <=? n)%nat
  then k value (firstn (n - Z.to_nat size) rest, w)
  else (Raise (Exn ValueError (CouldNotRead name)), ([], w)).
Proof.
  intros Hs Hf.
  set (f := Field size value written_as) in *.
  pose proof (length_field_bytes f) as Hl. cbn [field_size f] in Hl.
  unfold Save_read_int. rewrite !bind_assoc.
  unfold bind, self, set_self; cbn [fst snd].
  destruct (Nat.leb_spec (Z.to_nat size) n) as [Hle|Hlt].
  - rewrite firstn_app, Hl, (firstn_all2 (field_bytes f)) by lia.
    rewrite firstn_app, Hl, Nat.sub_diag, firstn_O, app_nil_r.
    rewrite (firstn_all2 (field_bytes f)) by lia.
    rewrite skipn_app, Hl, Nat.sub_diag, skipn_O, (skipn_all2 (field_bytes f)) by lia.
    rewrite Z2Nat.id, Z.eqb_refl by lia. cbn [negb ret app].
    unfold field_bytes. rewrite from_to_bytes by (apply (fits_bound f); assumption).
    reflexivity.
  - assert (Hlen : (length (firstn n (field_bytes f ++ rest)) <= n)%nat)
      by (rewrite length_firstn; lia).
    rewrite skipn_all2 by lia.
    destruct (Z.eqb_spec (Z.of_nat (length (firstn (Z.to_nat size)
                (firstn n (field_bytes f ++ rest))))) size) as [E|E].
    + rewrite length_firstn in E. lia.
    + reflexivity.
Qed.

(** ** Constructors *)

Ltac unfold_monad :=
  unfold bind, ret, raise, liftW, gets, self, set_self, modify, construct; cbn [fst snd].

Lemma Food_new_ok (w : World) (x y pts : Z) :
  in_range (fst (Map_size w)) x = true ->
  in_range (snd (Map_size w)) y = true ->
  (0 <? pts) && (pts <=? Food_PTS_MAX) = true ->
  Food_new (x, y) (Some pts) w =
  (Return (Z.of_nat (length (Food_list w ++ [mkFood x y pts]))),
   set_Food_list (Food_list w ++ [mkFood x y pts]) w).
Proof.
  intros Hx Hy Hp.
  unfold Food_new, Food_init, Element_init, Element_x_set, Element_y_set, Food_pts_set, Food_len.
  unfold_monad. rewrite Hx. cbn. rewrite Hy. cbn. rewrite Hp. reflexivity.
Qed.

Lemma Entity_new_ok (w : World) (x y energy time : Z) :
  in_range (fst (Map_size w)) x = true ->
  in_range (snd (Map_size w)) y = true ->
  0 <= energy <= Entity_ENERGY_MAX ->
  in_range Entity_TIME_MAX time = true ->
  let entity := mkEntity x y energy time (time / Entity_TIME_IN_AGE) Entity_RANGE_DEF
                         (next_id (Entity_nEntities w)) in
  Entity_new (x, y) energy time w =
  (Return (Z.of_nat (length (Entity_list w ++ [entity]))),
   set_Entity_list (Entity_list w ++ [entity])
     (set_Entity_nEntities (next_id (Entity_nEntities w)) w)).
Proof.
  intros Hx Hy He Ht entity.
  unfold Entity_new, Entity_init, Element_init, Element_x_set, Element_y_set,
    Entity_energy_set, Entity_time_set, Entity_len.
  unfold_monad. rewrite Hx. cbn. rewrite Hy. cbn.
  destruct (Z.gtb_spec energy Entity_ENERGY_MAX); [lia|].
  destruct (Z.ltb_spec energy 0); [lia|].
  cbn. rewrite Ht. reflexivity.
Qed.

Lemma set_Food_list_same (w : World) : set_Food_list (Food_list w) w = w.
Proof. destruct w; reflexivity. Qed.

Lemma set_Entity_list_same (w : World) : set_Entity_list (Entity_list w) w = w.
Proof. destruct w; reflexivity. Qed.

Lemma Food_ok_fields (size : Z * Z) (food : Food) :
  Food_ok size food = true ->
  in_range (fst size) (Food_x food) = true /\ in_range (snd size) (Food_y food) = true
  /\ (0 <? Food_pts food) && (Food_pts food <=? Food_PTS_MAX) = true.
Proof.
  unfold Food_ok. rewrite !andb_true_iff. tauto.
Qed.

Lemma div_step (c n : nat) : c <> 0%nat -> (c <= n)%nat -> (n / c = S ((n - c) / c))%nat.
Proof.
  intros Hc Hn. replace n with (1 * c + (n - c))%nat at 1 by lia.
  rewrite Nat.div_add_l by assumption. reflexivity.
Qed.

Lemma mod_step (c n : nat) : (c <= n)%nat -> (n mod c = (n - c) mod c)%nat.
Proof.
  intros Hn. replace n with ((n - c) + 1 * c)%nat at 1 by lia.
  apply Nat.Div0.mod_add.
Qed.

Ltac closed_side := first [assumption | reflexivity | (vm_compute; discriminate) | lia].

(** The food loop on the first [n] bytes of a food section followed by
    [rest]. *)
Lemma read_food_loop_firstn (foods : list Food) :
  forall (rounds n : nat) (rest : list byte) (w : World),
  forallb (Food_ok (Map_size w)) foods = true ->
  forallb fits (food_section foods) = true ->
  (Nat.min (n / 6) (length foods) < rounds)%nat ->
  read_food_loop rounds (firstn n (flat_map field_bytes (food_section foods) ++ rest), w) =
  if (n <? 6 * length foods + 2)%nat
  then (Raise (Exn ValueError (CouldNotRead (food_read_name n))),
        ([], set_Food_list (Food_list w ++ firstn (n / 6) foods) w))
  else (Return tt,
        (firstn (n - (6 * length foods + 2)) rest, set_Food_list (Food_list w ++ foods) w)).
Proof.
  induction foods as [|food foods IH]; intros rounds n rest w Hok Hfit Hr;
    (destruct rounds as [|k]; [lia|]).
  - cbn [read_food_loop food_section flat_map app].
    rewrite app_nil_r.
    rewrite bind_read_int_firstn by closed_side.
    change (Z.to_nat Food_NBYTES_PTS) with 2%nat. cbn [length Nat.mul Nat.add].
    rewrite app_nil_r, set_Food_list_same.
    destruct (Nat.leb_spec 2 n), (Nat.ltb_spec n 2); try lia.
    + cbn. reflexivity.
    + unfold food_read_name. rewrite Nat.mod_small by lia.
      destruct (Nat.ltb_spec n 2); [|lia].
      rewrite Nat.div_small by lia. cbn. rewrite app_nil_r, set_Food_list_same. reflexivity.
  - cbn [forallb] in Hok. apply andb_prop in Hok as [Hfood Hok].
    apply Food_ok_fields in Hfood as (Hx & Hy & Hp).
    unfold food_section in Hfit |- *.
    cbn [flat_map Food_fields app forallb] in Hfit |- *.
    apply andb_prop in Hfit as [Hf1 Hfit].
    apply andb_prop in Hfit as [Hf2 Hfit].
    apply andb_prop in Hfit as [Hf3 Hfit].
    cbn [read_food_loop length]. rewrite <- !app_assoc.
    assert (Hcut : (n < 6)%nat ->
      (if (n <? 6 * S (length foods) + 2)%nat
       then (Raise (Exn ValueError (CouldNotRead (food_read_name n))),
             (@nil byte, set_Food_list (Food_list w ++ firstn (n / 6) (food :: foods)) w))
       else (Return tt,
             (firstn (n - (6 * S (length foods) + 2)) rest,
              set_Food_list (Food_list w ++ food :: foods) w))) =
      (Raise (Exn ValueError (CouldNotRead (food_read_name n))), (@nil byte, w))).
    { intros Hn. destruct (Nat.ltb_spec n (6 * S (length foods) + 2)); [|lia].
      rewrite Nat.div_small by lia. cbn [firstn]. rewrite app_nil_r, set_Food_list_same.
      reflexivity. }
    rewrite bind_read_int_firstn by closed_side.
    change (Z.to_nat Food_NBYTES_PTS) with 2%nat.
    destruct (Nat.leb_spec 2 n) as [H2|H2].
    2:{ rewrite Hcut by lia. unfold food_read_name. rewrite Nat.mod_small by lia.
        destruct (Nat.ltb_spec n 2); [reflexivity|lia]. }
    destruct (Z.eqb_spec (Food_pts food) 0) as [E|_].
    { rewrite E in Hp. discriminate. }
    rewrite bind_read_int_firstn by closed_side.
    change (Z.to_nat Save_NBYTES_COORD) with 2%nat.
    destruct (Nat.leb_spec 2 (n - 2)) as [H4|H4].
    2:{ rewrite Hcut by lia. unfold food_read_name. rewrite Nat.mod_small by lia.
        destruct (Nat.ltb_spec n 2); [lia|].
        destruct (Nat.ltb_spec n 4); [reflexivity|lia]. }
    rewrite bind_read_int_firstn by closed_side.
    change (Z.to_nat Save_NBYTES_COORD) with 2%nat.
    destruct (Nat.leb_spec 2 (n - 2 - 2)) as [H6|H6].
    2:{ rewrite Hcut by lia. unfold food_read_name. rewrite Nat.mod_small by lia.
        destruct (Nat.ltb_spec n 2); [lia|].
        destruct (Nat.ltb_spec n 4); [lia|reflexivity]. }
    unfold bind at 1. unfold liftW at 1. cbn [fst snd].
    rewrite Food_new_ok by assumption.
    replace (mkFood (Food_x food) (Food_y food) (Food_pts food)) with food
      by (destruct food; reflexivity).
    replace (n - 2 - 2 - 2)%nat with (n - 6)%nat by lia.
    assert (Hdiv : (n / 6 = S ((n - 6) / 6))%nat) by (apply div_step; lia).
    assert (Hmod : (n mod 6 = (n - 6) mod 6)%nat) by (apply mod_step; lia).
    rewrite IH by (cbn [Map_size set_Food_list length] in *; first [assumption | lia]).
    cbn [Food_list set_Food_list].
    unfold food_read_name. rewrite Hdiv, Hmod. cbn [firstn].
    rewrite <- !app_assoc. cbn [app].
    replace (n - (6 * S (length foods) + 2))%nat with (n - 6 - (6 * length foods + 2))%nat by lia.
    destruct (Nat.ltb_spec (n - 6) (6 * length foods + 2)),
             (Nat.ltb_spec n (6 * S (length foods) + 2)); try lia; reflexivity.
Qed.

Lemma Entity_ok_fields (size : Z * Z) (entity : Entity) :
  Entity_ok size entity = true ->
  in_range (fst size) (Entity_x entity) = true /\ in_range (snd size) (Entity_y entity) = true
  /\ 0 <= Entity_energy entity <= Entity_ENERGY_MAX
  /\ -1 <= Entity_time entity < Entity_TIME_MAX
  /\ 0 < Entity_id entity <= Entity_MAX_ID
  /\ Entity_range entity = Entity_RANGE_DEF.
Proof.
  unfold Entity_ok. rewrite !andb_true_iff.
  rewrite !Z.leb_le, !Z.ltb_lt, Z.eqb_eq. tauto.
Qed.

Lemma set_counter_same (w : World) :
  set_Entity_list (Entity_list w) (set_Entity_nEntities (Entity_nEntities w) w) = w.
Proof. destruct w; reflexivity. Qed.

(** The agent loop on the first [n] bytes of an agent section followed by
    [rest]. *)
Lemma read_entity_loop_firstn (entities : list Entity) :
  forall (rounds n : nat) (rest : list byte) (w : World),
  forallb (Entity_ok (Map_size w)) entities = true ->
  forallb fits (entity_section entities) = true ->
  (Nat.min (n / 10) (length entities) < rounds)%nat ->
  read_entity_loop rounds
    (firstn n (flat_map field_bytes (entity_section entities) ++ rest), w) =
  if (n <? 10 * length entities + 2)%nat
  then (Raise (Exn ValueError (CouldNotRead (entity_read_name n))),
        ([], set_Entity_list
               (Entity_list w ++ reload (Entity_nEntities w) (firstn (n / 10) entities))
               (set_Entity_nEntities (counter_after (Entity_nEntities w) (n / 10)) w)))
  else (Return tt,
        (firstn (n - (10 * length entities + 2)) rest,
         set_Entity_list (Entity_list w ++ reload (Entity_nEntities w) entities)
           (set_Entity_nEntities (counter_after (Entity_nEntities w) (length entities)) w))).
Proof.
  induction entities as [|entity entities IH]; intros rounds n rest w Hok Hfit Hr;
    (destruct rounds as [|k]; [lia|]).
  - cbn [read_entity_loop entity_section flat_map app].
    rewrite app_nil_r.
    rewrite bind_read_int_firstn by closed_side.
    change (Z.to_nat Entity_NBYTES_ID) with 2%nat. cbn [length Nat.mul Nat.add reload counter_after].
    rewrite app_nil_r, set_counter_same.
    destruct (Nat.leb_spec 2 n), (Nat.ltb_spec n 2); try lia.
    + cbn. reflexivity.
    + unfold entity_read_name. rewrite Nat.mod_small by lia.
      destruct (Nat.ltb_spec n 2); [|lia].
      rewrite Nat.div_small by lia. cbn [firstn reload counter_after].
      rewrite app_nil_r, set_counter_same. reflexivity.
  - cbn [forallb] in Hok. apply andb_prop in Hok as [Hentity Hok].
    apply Entity_ok_fields in Hentity as (Hx & Hy & He & Ht & Hi & _).
    unfold entity_section in Hfit |- *.
    cbn [flat_map Entity_fields app forallb] in Hfit |- *.
    apply andb_prop in Hfit as [Hf1 Hfit].
    apply andb_prop in Hfit as [Hf2 Hfit].
    apply andb_prop in Hfit as [Hf3 Hfit].
    apply andb_prop in Hfit as [Hf4 Hfit].
    apply andb_prop in Hfit as [Hf5 Hfit].
    assert (Htime : in_range Entity_TIME_MAX (Entity_time entity) = true).
    { unfold fits in Hf5. cbn [field_value] in Hf5. apply andb_prop in Hf5 as [Hf5 _].
      unfold in_range. rewrite Hf5. apply Z.ltb_lt. lia. }
    cbn [read_entity_loop length]. rewrite <- !app_assoc.
    assert (Hcut : (n < 10)%nat ->
      (if (n <? 10 * S (length entities) + 2)%nat
       then (Raise (Exn ValueError (CouldNotRead (entity_read_name n))),
             (@nil byte,
              set_Entity_list
                (Entity_list w ++ reload (Entity_nEntities w) (firstn (n / 10) (entity :: entities)))
                (set_Entity_nEntities (counter_after (Entity_nEntities w) (n / 10)) w)))
       else (Return tt,
             (firstn (n - (10 * S (length entities) + 2)) rest,
              set_Entity_list (Entity_list w ++ reload (Entity_nEntities w) (entity :: entities))
                (set_Entity_nEntities
                   (counter_after (Entity_nEntities w) (S (length entities))) w)))) =
      (Raise (Exn ValueError (CouldNotRead (entity_read_name n))), (@nil byte, w))).
    { intros Hn. destruct (Nat.ltb_spec n (10 * S (length entities) + 2)); [|lia].
      rewrite Nat.div_small by lia. cbn [firstn reload counter_after].
      rewrite app_nil_r, set_counter_same. reflexivity. }
    rewrite bind_read_int_firstn by closed_side.
    change (Z.to_nat Entity_NBYTES_ID) with 2%nat.
    destruct (Nat.leb_spec 2 n) as [H2|H2].
    2:{ rewrite Hcut by lia. unfold entity_read_name. rewrite Nat.mod_small by lia.
        destruct (Nat.ltb_spec n 2); [reflexivity|lia]. }
    destruct (Z.eqb_spec (Entity_id entity) 0) as [E|_]; [lia|].
    rewrite bind_read_int_firstn by closed_side.
    change (Z.to_nat Save_NBYTES_COORD) with 2%nat.
    destruct (Nat.leb_spec 2 (n - 2)) as [H4|H4].
    2:{ rewrite Hcut by lia. unfold entity_read_name. rewrite Nat.mod_small by lia.
        destruct (Nat.ltb_spec n 2); [lia|].
        destruct (Nat.ltb_spec n 4); [reflexivity|lia]. }
    rewrite bind_read_int_firstn by closed_side.
    change (Z.to_nat Save_NBYTES_COORD) with 2%nat.
    destruct (Nat.leb_spec 2 (n - 2 - 2)) as [H6|H6].
    2:{ rewrite Hcut by lia. unfold entity_read_name. rewrite Nat.mod_small by lia.
        destruct (Nat.ltb_spec n 2); [lia|].
        destruct (Nat.ltb_spec n 4); [lia|].
        destruct (Nat.ltb_spec n 6); [reflexivity|lia]. }
    rewrite bind_read_int_firstn by closed_side.
    change (Z.to_nat Entity_NBYTES_ENERGY) with 2%nat.
    destruct (Nat.leb_spec 2 (n - 2 - 2 - 2)) as [H8|H8].
    2:{ rewrite Hcut by lia. unfold entity_read_name. rewrite Nat.mod_small by lia.
        destruct (Nat.ltb_spec n 2); [lia|].
        destruct (Nat.ltb_spec n 4); [lia|].
        destruct (Nat.ltb_spec n 6); [lia|].
        destruct (Nat.ltb_spec n 8); [reflexivity|lia]. }
    rewrite bind_read_int_firstn by closed_side.
    change (Z.to_nat Entity_NBYTES_TIME) with 2%nat.
    destruct (Nat.leb_spec 2 (n - 2 - 2 - 2 - 2)) as [H10|H10].
    2:{ rewrite Hcut by lia. unfold entity_read_name. rewrite Nat.mod_small by lia.
        destruct (Nat.ltb_spec n 2); [lia|].
        destruct (Nat.ltb_spec n 4); [lia|].
        destruct (Nat.ltb_spec n 6); [lia|].
        destruct (Nat.ltb_spec n 8); [lia|reflexivity]. }
    unfold bind at 1. unfold liftW at 1. cbn [fst snd].
    rewrite Entity_new_ok by assumption.
    replace (n - 2 - 2 - 2 - 2 - 2)%nat with (n - 10)%nat by lia.
    assert (Hdiv : (n / 10 = S ((n - 10) / 10))%nat) by (apply div_step; lia).
    assert (Hmod : (n mod 10 = (n - 10) mod 10)%nat) by (apply mod_step; lia).
    rewrite IH by (cbn [Map_size set_Entity_list set_Entity_nEntities length] in *;
                   first [assumption | lia]).
    cbn [Entity_list Entity_nEntities set_Entity_list set_Entity_nEntities].
    unfold entity_read_name. rewrite Hdiv, Hmod. cbn [firstn reload counter_after].
    rewrite <- !app_assoc. cbn [app].
    replace (n - (10 * S (length entities) + 2))%nat
      with (n - 10 - (10 * length entities + 2))%nat by lia.
    destruct (Nat.ltb_spec (n - 10) (10 * length entities + 2)),
             (Nat.ltb_spec n (10 * S (length entities) + 2)); try lia; reflexivity.
Qed.

Lemma length_food_section_bytes (foods : list Food) :
  length (flat_map field_bytes (food_section foods)) = (6 * length foods + 2)%nat.
Proof.
  unfold food_section. induction foods as [|food foods IH]; [reflexivity|].
  cbn [flat_map Food_fields app length]. rewrite !length_app, !length_field_bytes.
  cbn [flat_map] in IH. rewrite IH.
  cbn [field_size]. change (Z.to_nat Food_NBYTES_PTS) with 2%nat.
  change (Z.to_nat Save_NBYTES_COORD) with 2%nat. lia.
Qed.

Lemma length_entity_section_bytes (entities : list Entity) :
  length (flat_map field_bytes (entity_section entities)) = (10 * length entities + 2)%nat.
Proof.
  unfold entity_section. induction entities as [|entity entities IH]; [reflexivity|].
  cbn [flat_map Entity_fields app length]. rewrite !length_app, !length_field_bytes.
  cbn [flat_map] in IH. rewrite IH.
  cbn [field_size]. change (Z.to_nat Entity_NBYTES_ID) with 2%nat.
  change (Z.to_nat Save_NBYTES_COORD) with 2%nat.
  change (Z.to_nat Entity_NBYTES_ENERGY) with 2%nat.
  change (Z.to_nat Entity_NBYTES_TIME) with 2%nat. lia.
Qed.

Lemma rounds_enough (c n total len : nat) (l : list byte) :
  (0 < c)%nat -> (c * len <= total)%nat -> length l = total ->
  forall rest, (Nat.min (n / c) len < S (length (firstn n (l ++ rest))))%nat.
Proof.
  intros Hc Hlen Hl rest. rewrite length_firstn, length_app, Hl.
  assert (n / c <= n)%nat by (apply Nat.Div0.div_le_upper_bound; nia).
  assert (len <= total)%nat by nia.
  lia.
Qed.

Lemma Save_read_food_firstn {A} (k : unit -> M (list byte * World) A)
      (foods : list Food) (n : nat) (rest : list byte) (w : World) :
  forallb (Food_ok (Map_size w)) foods = true ->
  forallb fits (food_section foods) = true ->
  bind Save_read_food k (firstn n (flat_map field_bytes (food_section foods) ++ rest), w) =
  if (n <? 6 * length foods + 2)%nat
  then (Raise (Exn ValueError (CouldNotRead (food_read_name n))),
        ([], set_Food_list (firstn (n / 6) foods) w))
  else k tt (firstn (n - (6 * length foods + 2)) rest, set_Food_list foods w).
Proof.
  intros Hok Hfit. unfold Save_read_food. rewrite !bind_assoc.
  unfold bind at 1. unfold liftW at 1, modify. cbn [fst snd].
  rewrite bind_assoc. unfold bind at 1, self. cbn [fst snd].
  unfold bind.
  rewrite read_food_loop_firstn; try assumption.
  - cbn [Food_list set_Food_list app].
    destruct (n <? 6 * length foods + 2)%nat; reflexivity.
  - apply (rounds_enough 6 n (6 * length foods + 2)); try lia.
    apply length_food_section_bytes.
Qed.

Lemma Save_read_entity_firstn (entities : list Entity) (n : nat) (w : World) :
  forallb (Entity_ok (Map_size w)) entities = true ->
  forallb fits (entity_section entities) = true ->
  Save_read_entity (firstn n (flat_map field_bytes (entity_section entities)), w) =
  if (n <? 10 * length entities + 2)%nat
  then (Raise (Exn ValueError (CouldNotRead (entity_read_name n))),
        ([], set_Entity_list (reload (Entity_nEntities w) (firstn (n / 10) entities))
               (set_Entity_nEntities (counter_after (Entity_nEntities w) (n / 10)) w)))
  else (Return tt,
        ([], set_Entity_list (reload (Entity_nEntities w) entities)
               (set_Entity_nEntities (counter_after (Entity_nEntities w) (length entities)) w))).
Proof.
  intros Hok Hfit. unfold Save_read_entity.
  unfold bind at 1. unfold liftW at 1, modify. cbn [fst snd].
  unfold bind at 1, self. cbn [fst snd].
  rewrite <- (app_nil_r (flat_map field_bytes (entity_section entities))).
  rewrite read_entity_loop_firstn; try assumption.
  - cbn [Entity_list Entity_nEntities set_Entity_list set_Entity_nEntities app].
    rewrite firstn_nil.
    destruct (n <? 10 * length entities + 2)%nat; reflexivity.
  - apply (rounds_enough 10 n (10 * length entities + 2)); try lia.
    apply length_entity_section_bytes.
Qed.

Lemma Save_time_set_in_range (value : Z) (w : World) :
  in_range Save_TIME_MAX value = true ->
  Save_time_set value w =
  (Return tt, set_save_age (value / Save_TIME_IN_AGE) (set_save_time value w)).
Proof. intros H. unfold Save_time_set. rewrite H. reflexivity. Qed.

Ltac cut_case :=
  repeat match goal with
         | |- context [(?a <? ?b)%nat] => destruct (Nat.ltb_spec a b); try lia
         end;
  try reflexivity.

Lemma saveable_parts (w : World) :
  saveable w = true ->
  forallb fits (header_fields w) = true
  /\ forallb fits (food_section (Food_list w)) = true
  /\ forallb fits (entity_section (Entity_list w)) = true.
Proof.
  unfold saveable, record_fields. rewrite !forallb_app, !andb_true_iff. tauto.
Qed.

Lemma World_ok_parts (w : World) :
  World_ok w = true ->
  forallb (Food_ok (Map_size w)) (Food_list w) = true
  /\ forallb (Entity_ok (Map_size w)) (Entity_list w) = true
  /\ 0 <= Entity_nEntities w <= Entity_MAX_ID.
Proof.
  unfold World_ok. rewrite !andb_true_iff, Z.leb_le, Z.leb_le. tauto.
Qed.

(** [Save.load] on a file that holds the first [n] bytes of the record of a
    well-formed, saveable world. *)
Lemma Save_load_firstn (src : World) (n : nat) (w : World) :
  World_ok src = true -> saveable src = true ->
  file_save w = Some (firstn n (record_bytes src)) ->
  Save_load w = load_firstn src n w.
Proof.
  intros Hok Hsave Hfile.
  apply World_ok_parts in Hok as (Hfoods & Hentities & _).
  apply saveable_parts in Hsave as (Hh & Hf & He).
  unfold header_fields in Hh. cbn [forallb] in Hh.
  apply andb_prop in Hh as [Hh1 Hh].
  apply andb_prop in Hh as [Hh2 Hh].
  apply andb_prop in Hh as [Hh3 Hh].
  apply andb_prop in Hh as [Hh4 _].
  unfold Save_load, catch, with_open_rb. rewrite Hfile.
  unfold record_bytes, record_fields, header_fields.
  rewrite !flat_map_app. cbn [flat_map]. rewrite <- !app_assoc. cbn [app].
  unfold load_firstn, cut_header, read_error.
  rewrite bind_read_int_firstn by closed_side.
  change (Z.to_nat Save_NBYTES_TIME) with 8%nat.
  destruct (Nat.leb_spec 8 n) as [H8|H8].
  2:{ unfold header_read_name. cbn [reraise exn_class_of exn_message raise]. cut_case. }
  unfold bind at 1. unfold liftW at 1, modify. cbn [fst snd].
  rewrite bind_read_int_firstn by closed_side.
  change (Z.to_nat Save_NBYTES_TIME) with 8%nat.
  destruct (Nat.leb_spec 8 (n - 8)) as [H16|H16].
  2:{ unfold header_read_name. cbn [reraise exn_class_of exn_message raise]. cut_case. }
  unfold bind at 1. unfold liftW at 1. cbn [fst snd].
  rewrite Save_time_set_in_range by exact Hh2.
  rewrite bind_read_int_firstn by closed_side.
  change (Z.to_nat Save_NBYTES_COORD) with 2%nat.
  destruct (Nat.leb_spec 2 (n - 8 - 8)) as [H18|H18].
  2:{ unfold header_read_name. cbn [reraise exn_class_of exn_message raise]. cut_case. }
  rewrite bind_read_int_firstn by closed_side.
  change (Z.to_nat Save_NBYTES_COORD) with 2%nat.
  destruct (Nat.leb_spec 2 (n - 8 - 8 - 2)) as [H20|H20].
  2:{ unfold header_read_name. cbn [reraise exn_class_of exn_message raise]. cut_case. }
  unfold bind at 1. unfold liftW at 1, modify. cbn [fst snd].
  replace (n - 8 - 8 - 2 - 2)%nat with (n - 20)%nat by lia.
  rewrite <- surjective_pairing.
  rewrite Save_read_food_firstn by assumption.
  destruct (Nat.ltb_spec (n - 20) (6 * length (Food_list src) + 2)) as [Hnf|Hnf].
  { cbn [reraise exn_class_of exn_message raise]. cut_case. }
  rewrite Save_read_entity_firstn by assumption.
  cbn [Entity_nEntities set_Food_list set_Map_size set_save_age set_save_time set_save_last].
  destruct (Nat.ltb_spec (n - 20 - (6 * length (Food_list src) + 2))
                         (10 * length (Entity_list src) + 2)) as [Hne|Hne].
  { cbn [reraise exn_class_of exn_message raise]. cut_case. }
  cut_case.
Qed.

Lemma length_record_bytes (w : World) :
  length (record_bytes w) =
  (20 + (6 * length (Food_list w) + 2) + (10 * length (Entity_list w) + 2))%nat.
Proof.
  unfold record_bytes, record_fields. rewrite !flat_map_app, !length_app.
  rewrite length_food_section_bytes, length_entity_section_bytes.
  unfold header_fields. cbn [flat_map]. rewrite !length_app, !length_field_bytes.
  cbn [field_size length].
  change (Z.to_nat Save_NBYTES_TIME) with 8%nat.
  change (Z.to_nat Save_NBYTES_COORD) with 2%nat. lia.
Qed.

Lemma reload_body (c : Z) (entities : list Entity) :
  map Entity_body (reload c entities) = map Entity_body entities.
Proof.
  revert c; induction entities as [|e l IH]; intros c; [reflexivity|].
  cbn [reload map]. rewrite IH. reflexivity.
Qed.

Lemma reload_ids (c : Z) (entities : list Entity) :
  map Entity_id (reload c entities) = fresh_ids c (length entities).
Proof.
  revert c; induction entities as [|e l IH]; intros c; [reflexivity|].
  cbn [reload map length fresh_ids Entity_id]. rewrite IH. reflexivity.
Qed.

Lemma length_reload (c : Z) (entities : list Entity) :
  length (reload c entities) = length entities.
Proof.
  revert c; induction entities as [|e l IH]; intros c; [reflexivity|].
  cbn [reload length]. rewrite IH. reflexivity.
Qed.

(** ** Saving then loading *)

(** C1, as amended.  For every well-formed world whose values all fit their
    fields, [Save.save] succeeds, [Save.load] of what it wrote succeeds, and
    afterwards the map size and the Food list are the ones before the save,
    the agents have, in the same order, the same position, energy and time,
    and their ids are the next ones of the id counter as it stood before the
    save: the ids of the file are read but not restored. *)
Theorem save_load_roundtrip (w : World) :
  World_ok w = true -> saveable w = true ->
  exists w1 w2,
    Save_save w = (Return tt, w1) /\ Save_load w1 = (Return tt, w2)
    /\ Map_size w2 = Map_size w
    /\ Food_list w2 = Food_list w
    /\ map Food_tuple (Food_list w2) = map Food_tuple (Food_list w)
    /\ map Entity_body (Entity_list w2) = map Entity_body (Entity_list w)
    /\ map Entity_id (Entity_list w2)
       = fresh_ids (Entity_nEntities w) (length (Entity_list w)).
Proof.
  intros Hok Hsave.
  pose proof (Save_save_fields w) as Hs.
  assert (Hnone : first_misfit (record_fields w) = None)
    by (apply first_misfit_None; exact Hsave).
  rewrite Hnone in Hs.
  set (w1 := set_file_save (Some (record_bytes w)) (backed_up w)) in *.
  assert (Hfile : file_save w1 = Some (firstn (length (record_bytes w)) (record_bytes w))).
  { rewrite firstn_all. reflexivity. }
  pose proof (Save_load_firstn w _ w1 Hok Hsave Hfile) as Hl.
  unfold load_firstn in Hl. rewrite length_record_bytes in Hl.
  destruct (Nat.ltb_spec (20 + (6 * length (Food_list w) + 2)
                            + (10 * length (Entity_list w) + 2)) 20); [lia|].
  destruct (Nat.ltb_spec (20 + (6 * length (Food_list w) + 2)
                            + (10 * length (Entity_list w) + 2) - 20)
                         (6 * length (Food_list w) + 2)); [lia|].
  destruct (Nat.ltb_spec (20 + (6 * length (Food_list w) + 2)
                            + (10 * length (Entity_list w) + 2) - 20
                            - (6 * length (Food_list w) + 2))
                         (10 * length (Entity_list w) + 2)); [lia|].
  eexists w1, _. split; [exact Hs|]. split; [exact Hl|].
  cbn [Map_size Food_list Entity_list set_Entity_list set_Entity_nEntities set_Food_list
       set_Map_size].
  assert (Hn : Entity_nEntities w1 = Entity_nEntities w).
  { unfold w1, backed_up. destruct (file_save w); reflexivity. }
  rewrite Hn, reload_body, reload_ids. repeat split; reflexivity.
Qed.

Lemma save_load_roundtrip_witness :
  exists w1 w2,
    Save_save fed_world = (Return tt, w1) /\ Save_load w1 = (Return tt, w2)
    /\ Map_size w2 = Map_size fed_world
    /\ Food_list w2 = Food_list fed_world
    /\ map Food_tuple (Food_list w2) = map Food_tuple (Food_list fed_world)
    /\ map Entity_body (Entity_list w2) = map Entity_body (Entity_list fed_world)
    /\ map Entity_id (Entity_list w2)
       = fresh_ids (Entity_nEntities fed_world) (length (Entity_list fed_world)).
Proof. apply (save_load_roundtrip fed_world); vm_compute; reflexivity. Defined.

(** C1 as the specification states it fails: the agent of [one_agent_world]
    has id 1 before the save and id 2 after the load, so the sets of
    (id, x, y, energy, time) tuples differ. *)
Lemma save_load_changes_ids :
  World_ok one_agent_world = true /\ saveable one_agent_world = true
  /\ exists w1 w2,
       Save_save one_agent_world = (Return tt, w1) /\ Save_load w1 = (Return tt, w2)
       /\ map Entity_tuple (Entity_list one_agent_world) = [(1, 2, 2, 50, 0)]
       /\ map Entity_tuple (Entity_list w2) = [(2, 2, 2, 50, 0)]
       /\ ~ (forall t, In t (map Entity_tuple (Entity_list w2))
                      <-> In t (map Entity_tuple (Entity_list one_agent_world))).
Proof.
  split; [vm_compute; reflexivity|]. split; [vm_compute; reflexivity|].
  exists (snd (Save_save one_agent_world)).
  exists (snd (Save_load (snd (Save_save one_agent_world)))).
  assert (Hb : map Entity_tuple (Entity_list one_agent_world) = [(1, 2, 2, 50, 0)])
    by (vm_compute; reflexivity).
  assert (Ha : map Entity_tuple
                 (Entity_list (snd (Save_load (snd (Save_save one_agent_world)))))
               = [(2, 2, 2, 50, 0)])
    by (vm_compute; reflexivity).
  split; [vm_compute; reflexivity|]. split; [vm_compute; reflexivity|].
  split; [exact Hb|]. split; [exact Ha|].
  rewrite Ha, Hb. intros H.
  destruct (proj1 (H (2, 2, 2, 50, 0)) (or_introl eq_refl)) as [E|[]].
  discriminate E.
Qed.

(** ** A value that does not fit *)

Lemma first_misfit_split (fields : list field) (f : field) :
  first_misfit fields = Some f ->
  exists after, fields = fitting_prefix fields ++ f :: after
                /\ forallb fits (fitting_prefix fields) = true /\ fits f = false.
Proof.
  induction fields as [|g fields IH]; cbn [first_misfit fitting_prefix]; [discriminate|].
  destruct (fits g) eqn:E.
  - intros H. destruct (IH H) as (after & Heq & Hall & Hf).
    exists after. cbn [app forallb]. rewrite E, Hall. rewrite <- Heq. auto.
  - intros [= <-]. exists fields. auto.
Qed.

Lemma saveable_false_misfit (w : World) :
  saveable w = false -> exists f, first_misfit (record_fields w) = Some f.
Proof.
  intros H. destruct (first_misfit (record_fields w)) as [f|] eqn:E; [eauto|].
  apply first_misfit_None in E. unfold saveable in H. congruence.
Qed.

(** C2, as amended.  When some value of the world does not fit its field,
    [Save.save] raises the value-range error of the first such field [f] of
    the record; the save file then holds the bytes of the fields written
    before [f] and nothing else, and what it held before is kept only in the
    backup file. *)
Theorem save_misfit_partial_write (w : World) :
  saveable w = false ->
  exists f before after w',
    record_fields w = before ++ f :: after
    /\ forallb fits before = true /\ fits f = false
    /\ Save_save w =
       (Raise (Exn ValueError
                 (Wrapped "Value error: " (MustFit (field_name f) (field_size f)))), w')
    /\ file_save w' = Some (flat_map field_bytes before)
    /\ (forall content, file_save w = Some content -> file_backup w' = Some content).
Proof.
  intros H. destruct (saveable_false_misfit w H) as [f Hf].
  destruct (first_misfit_split _ _ Hf) as (after & Heq & Hall & Hfit).
  exists f, (fitting_prefix (record_fields w)), after.
  eexists. split; [exact Heq|]. split; [exact Hall|]. split; [exact Hfit|].
  split; [rewrite Save_save_fields, Hf; reflexivity|].
  split; [reflexivity|].
  intros content Hc. unfold backed_up. rewrite Hc. reflexivity.
Qed.

Lemma save_misfit_partial_write_witness :
  saveable reset_agent_world = false
  /\ exists f before after w',
       record_fields reset_agent_world = before ++ f :: after
       /\ forallb fits before = true /\ fits f = false
       /\ Save_save reset_agent_world =
          (Raise (Exn ValueError
                    (Wrapped "Value error: " (MustFit (field_name f) (field_size f)))), w')
       /\ file_save w' = Some (flat_map field_bytes before)
       /\ (forall content, file_save reset_agent_world = Some content ->
                           file_backup w' = Some content).
Proof.
  split; [vm_compute; reflexivity|].
  apply (save_misfit_partial_write reset_agent_world). vm_compute. reflexivity.
Defined.

(** C2 as the specification states it fails: in [reset_agent_world] the save
    file holds one byte; [Save.save] raises its value-range error, and the
    file then holds thirty bytes of the new record, which is neither what it
    held before nor a whole record: loading it stops on the missing
    [entity.time]. *)
Lemma save_failure_overwrites_file :
  saveable reset_agent_world = false
  /\ file_save reset_agent_world = Some [Byte.x2a]
  /\ exists e w',
       Save_save reset_agent_world = (Raise e, w')
       /\ exn_class_of e = ValueError
       /\ option_map (@length byte) (file_save w') = Some 30%nat
       /\ file_save w' <> file_save reset_agent_world
       /\ fst (Save_load w') = Raise (read_error "entity.time").
Proof.
  split; [vm_compute; reflexivity|]. split; [reflexivity|].
  exists (Exn ValueError (Wrapped "Value error: " (MustFit "entity.time" 2))).
  exists (snd (Save_save reset_agent_world)).
  split; [vm_compute; reflexivity|]. split; [reflexivity|].
  split; [vm_compute; reflexivity|].
  split; [vm_compute; discriminate|].
  vm_compute. reflexivity.
Qed.

(** ** An agent whose time was reset *)

Lemma Entity_fields_in_record (w : World) (entity : Entity) (f : field) :
  In entity (Entity_list w) -> In f (Entity_fields entity) -> In f (record_fields w).
Proof.
  intros He Hf. unfold record_fields, entity_section.
  apply in_or_app; right. apply in_or_app; right. apply in_or_app; left.
  apply in_flat_map. exists entity. auto.
Qed.

(** C10.  The time setter answers an out-of-range value by storing time -1,
    energy 0 and age 0 without raising.  For every world with a live agent
    whose time is -1: writing that agent's [entity.time] raises the
    value-range error, and [Save.save] fails with the value-range error of
    a field that does not fit, which is [entity.time] whenever every other
    value of the world fits. *)
Theorem save_rejects_reset_agent (w : World) (entity : Entity) :
  In entity (Entity_list w) -> Entity_time entity = -1 ->
  (forall value e0 w0, in_range Entity_TIME_MAX value = false ->
     exists e1, Entity_time_set value (e0, w0) = (Return tt, (e1, w0))
                /\ Entity_time e1 = -1 /\ Entity_energy e1 = 0 /\ Entity_age e1 = 0)
  /\ (forall file,
        Save_write_int Entity_NBYTES_TIME (Entity_time entity) "entity.time" (file, w) =
        (Raise (Exn ValueError (MustFit "entity.time" Entity_NBYTES_TIME)), (file, w)))
  /\ exists f w',
       Save_save w =
       (Raise (Exn ValueError
                 (Wrapped "Value error: " (MustFit (field_name f) (field_size f)))), w')
       /\ In f (record_fields w) /\ fits f = false
       /\ ((forall g, In g (record_fields w) -> fits g = false ->
                      field_name g = "entity.time") ->
           field_name f = "entity.time").
Proof.
  intros Hin Ht. split; [|split].
  - intros value e0 w0 Hv. eexists. unfold Entity_time_set. rewrite Hv.
    cbn [negb]. unfold_monad. repeat split; reflexivity.
  - intros file. rewrite Ht. reflexivity.
  - assert (Hs : saveable w = false).
    { unfold saveable. apply not_true_is_false. intros Hall.
      rewrite forallb_forall in Hall.
      specialize (Hall (Field Entity_NBYTES_TIME (Entity_time entity) "entity.time")).
      rewrite Ht in Hall. discriminate Hall.
      rewrite <- Ht. apply (Entity_fields_in_record w entity); [assumption|].
      cbn. auto 10. }
    destruct (saveable_false_misfit w Hs) as [f Hf].
    destruct (first_misfit_Some _ _ Hf) as [Hfin Hfit].
    exists f. eexists. split; [rewrite Save_save_fields, Hf; reflexivity|].
    repeat split; auto.
Qed.

Lemma save_rejects_reset_agent_witness :
  In (mkEntity 2 2 0 (-1) 0 10 1) (Entity_list reset_agent_world)
  /\ exists f w',
       Save_save reset_agent_world =
       (Raise (Exn ValueError
                 (Wrapped "Value error: " (MustFit (field_name f) (field_size f)))), w')
       /\ In f (record_fields reset_agent_world) /\ fits f = false.
Proof.
  split; [left; reflexivity|].
  destruct (save_rejects_reset_agent reset_agent_world (mkEntity 2 2 0 (-1) 0 10 1))
    as (_ & _ & f & w' & Hs & Hin & Hfit & _).
  - left. reflexivity.
  - reflexivity.
  - exists f, w'. auto.
Defined.

(** ** Loading a cut file *)

(** C7, as amended.  Let the save file hold the first [n] bytes of the
    record of a well-formed, saveable world [src].  When bytes are missing,
    [Save.load] raises the read error of some field, and each collection is
    cleared only when its own section is reached: the Food list keeps what it
    held if the header is cut, and else holds the food records that are
    whole in the file; the agent list keeps what it held if the header or
    the food section is cut, and else holds the agents created from the
    agent records that are whole, with fresh ids.  When no byte is missing,
    the zero [pts] ends the food section, the zero [id] ends the agent
    section, and [Save.load] returns with all of them. *)
Theorem load_cut_record (src : World) (n : nat) (w : World) :
  World_ok src = true -> saveable src = true ->
  file_save w = Some (firstn n (record_bytes src)) ->
  ((n < length (record_bytes src))%nat ->
   exists name w',
     Save_load w = (Raise (read_error name), w')
     /\ Food_list w' =
        (if (n <? 20)%nat then Food_list w
         else firstn ((n - 20) / 6) (Food_list src))
     /\ Entity_list w' =
        (if (n <? 22 + 6 * length (Food_list src))%nat then Entity_list w
         else reload (Entity_nEntities w)
                (firstn ((n - (22 + 6 * length (Food_list src))) / 10) (Entity_list src))))
  /\ ((length (record_bytes src) <= n)%nat ->
      exists w',
        Save_load w = (Return tt, w')
        /\ Food_list w' = Food_list src
        /\ Entity_list w' = reload (Entity_nEntities w) (Entity_list src)).
Proof.
  intros Hok Hsave Hfile.
  rewrite (Save_load_firstn src n w Hok Hsave Hfile).
  rewrite length_record_bytes. unfold load_firstn, cut_header.
  set (F := length (Food_list src)). set (E := length (Entity_list src)).
  split; intros Hn.
  - destruct (Nat.ltb_spec n 20) as [H20|H20].
    + destruct (Nat.ltb_spec n (22 + 6 * F)); [|lia].
      eexists _, _. split; [reflexivity|].
      destruct (n <? 8)%nat, (n <? 16)%nat; split; reflexivity.
    + destruct (Nat.ltb_spec (n - 20) (6 * F + 2)) as [Hf|Hf].
      * destruct (Nat.ltb_spec n (22 + 6 * F)); [|lia].
        eexists _, _. split; [reflexivity|].
        destruct (n <? 8)%nat, (n <? 16)%nat; split; reflexivity.
      * destruct (Nat.ltb_spec n (22 + 6 * F)); [lia|].
        destruct (Nat.ltb_spec (n - 20 - (6 * F + 2)) (10 * E + 2)); [|lia].
        eexists _, _. split; [reflexivity|].
        cbn [Food_list Entity_list set_Entity_list set_Entity_nEntities set_Food_list].
        replace (n - 20 - (6 * F + 2))%nat with (n - (22 + 6 * F))%nat by lia.
        split; [|destruct (n <? 8)%nat, (n <? 16)%nat; reflexivity].
        symmetry. apply firstn_all2.
        apply Nat.div_le_lower_bound; lia.
  - destruct (Nat.ltb_spec n 20); [lia|].
    destruct (Nat.ltb_spec (n - 20) (6 * F + 2)); [lia|].
    destruct (Nat.ltb_spec (n - 20 - (6 * F + 2)) (10 * E + 2)); [lia|].
    eexists. split; [reflexivity|].
    destruct (n <? 8)%nat, (n <? 16)%nat; split; reflexivity.
Qed.

Lemma load_cut_record_witness :
  World_ok fed_world = true /\ saveable fed_world = true
  /\ file_save cut_file_world = Some (firstn 21 (record_bytes fed_world))
  /\ exists name w',
       Save_load cut_file_world = (Raise (read_error name), w')
       /\ Food_list w' = []
       /\ Entity_list w' = Entity_list cut_file_world.
Proof.
  split; [vm_compute; reflexivity|]. split; [vm_compute; reflexivity|].
  split; [reflexivity|].
  destruct (load_cut_record fed_world 21 cut_file_world) as [Hcut _].
  - vm_compute; reflexivity.
  - vm_compute; reflexivity.
  - reflexivity.
  - destruct Hcut as (name & w' & Hl & Hf & He); [vm_compute; lia|].
    exists name, w'. auto.
Defined.

(** C7 as the specification states it fails: in [cut_file_world] the file
    ends one byte into the food section.  [Save.load] raises the read error
    of [food.pts]; no agent record was read, yet the agent list is not
    empty: it was never cleared and still holds the agent it held. *)
Lemma load_cut_keeps_old_agents :
  exists w',
    Save_load cut_file_world = (Raise (read_error "food.pts"), w')
    /\ Food_list w' = []
    /\ Entity_list w' = Entity_list cut_file_world
    /\ Entity_list w' = [mkEntity 2 2 50 0 0 10 1].
Proof.
  exists (snd (Save_load cut_file_world)).
  split; [vm_compute; reflexivity|]. split; [vm_compute; reflexivity|].
  split; vm_compute; reflexivity.
Qed.

(** ** Points of a Food *)

(** After the setter, the points lie in [1, PTS_MAX], whatever was
    assigned. *)
Lemma Food_pts_set_range (value : Z) (food : Food) (w : World) :
  exists food', Food_pts_set value (food, w) = (Return tt, (food', w))
                /\ 1 <= Food_pts food' <= Food_PTS_MAX.
Proof.
  unfold Food_pts_set.
  destruct ((0 <? value) && (value <=? Food_PTS_MAX)) eqn:E; cbn [negb].
  - eexists. split; [reflexivity|]. cbn. apply andb_prop in E as [H1 H2]. lia.
  - eexists. split; [reflexivity|]. cbn. unfold Food_PTS_DEFAULT. vm_compute.
    split; discriminate.
Qed.

(** C5 fails on the code.  The setter compares with [<= PTS_MAX], and
    [PTS_MAX] is 2^16: assigning 65536 keeps 65536, which is outside
    [1, 65535] and is not replaced by the default 100. *)
Theorem Food_pts_set_keeps_65536 :
  Food_PTS_MAX = 65536
  /\ (forall (food : Food) (w : World),
        Food_pts_set 65536 (food, w) = (Return tt, (with_pts 65536 food, w)))
  /\ Food_new (0, 0) (Some 65536) (empty_world (5, 5))
     = (Return 1, set_Food_list [mkFood 0 0 65536] (empty_world (5, 5)))
  /\ fits (Field Food_NBYTES_PTS 65536 "food.pts") = false.
Proof.
  split; [reflexivity|]. split; [intros; reflexivity|]. split; reflexivity.
Qed.

(** ** Ids of agents *)

Lemma Entity_new_id (w : World) (x y energy time : Z) :
  in_range (fst (Map_size w)) x = true ->
  in_range (snd (Map_size w)) y = true ->
  exists entity w',
    Entity_new (x, y) energy time w
    = (Return (Z.of_nat (length (Entity_list w ++ [entity]))), w')
    /\ Entity_list w' = Entity_list w ++ [entity]
    /\ Entity_id entity = next_id (Entity_nEntities w)
    /\ Entity_nEntities w' = next_id (Entity_nEntities w).
Proof.
  intros Hx Hy.
  unfold Entity_new, Entity_init, Element_init, Element_x_set, Element_y_set,
    Entity_energy_set, Entity_time_set, Entity_len.
  unfold_monad. rewrite Hx. cbn. rewrite Hy. cbn.
  destruct (energy >? Entity_ENERGY_MAX); [|destruct (energy <? 0)].
  all: cbn.
  all: destruct (in_range Entity_TIME_MAX time).
  all: cbn.
  all: eexists _, _.
  all: repeat split; reflexivity.
Qed.

(** C6 fails on the code.  The counter is compared with [< MAX_ID], and
    [MAX_ID] is 2^16: the agent created after id 65535 gets id 65536, which
    does not fit the two bytes of [entity.id]; the wrap to 1 comes one
    creation later. *)
Theorem Entity_id_reaches_65536 :
  next_id 0 = 1 /\ next_id 65535 = 65536 /\ next_id 65536 = 1
  /\ (exists w',
        Entity_new (0, 0) Entity_ENERGY_DEF 0
          (set_Entity_nEntities 65535 (empty_world (5, 5))) = (Return 1, w')
        /\ map Entity_id (Entity_list w') = [65536])
  /\ fits (Field Entity_NBYTES_ID 65536 "entity.id") = false.
Proof.
  split; [reflexivity|]. split; [reflexivity|]. split; [reflexivity|].
  split; [|reflexivity].
  eexists. split; reflexivity.
Qed.

(** ** The command [spawn food x y] *)

(** C9 fails on the code.  [Cmd._spawn] calls [Food.new((x, y))] without the
    points that [Food.new] requires: whenever both coordinates are given as
    integers the call raises [TypeError] and the world is unchanged, so no
    Food is placed. *)
Theorem spawn_food_at_raises (w : World) (sx sy : string) (x y : Z) :
  int sx w = (Return x, w) -> int sy w = (Return y, w) ->
  Cmd_spawn ["food"; sx; sy] w = (Raise (Exn TypeError (MissingArgument "new" "pts")), w).
Proof.
  intros Hx Hy. unfold Cmd_spawn.
  unfold bind at 1. unfold catch. unfold bind at 1. unfold bind at 1.
  rewrite Hx. cbn [ret]. unfold bind at 1. unfold bind at 1. rewrite Hy. cbn [ret].
  reflexivity.
Qed.

Lemma spawn_food_at_raises_witness :
  int "1" (empty_world (5, 5)) = (Return 1, empty_world (5, 5))
  /\ Cmd_spawn ["food"; "1"; "1"] (empty_world (5, 5))
     = (Raise (Exn TypeError (MissingArgument "new" "pts")), empty_world (5, 5))
  /\ Food_list (snd (Cmd_handle_input "spawn food 1 1" (empty_world (5, 5)))) = [].
Proof.
  split; [reflexivity|]. split; [|reflexivity].
  apply (spawn_food_at_raises (empty_world (5, 5)) "1" "1" 1 1); reflexivity.
Defined.

(** ** The tick of one agent *)

Lemma bind_energy_set {A} (value : Z) (k : unit -> M (Entity * World) A)
      (e : Entity) (w : World) :
  0 <= value <= Entity_ENERGY_MAX ->
  bind (Entity_energy_set value) k (e, w) = k tt (with_energy value e, w).
Proof.
  intros H. unfold bind, Entity_energy_set.
  destruct (Z.gtb_spec value Entity_ENERGY_MAX); [lia|].
  destruct (Z.ltb_spec value 0); [lia|]. reflexivity.
Qed.

Lemma bind_time_set {A} (value : Z) (k : unit -> M (Entity * World) A)
      (e : Entity) (w : World) :
  bind (Entity_time_set value) k (e, w) =
  k tt (if in_range Entity_TIME_MAX value
        then with_age (value / Entity_TIME_IN_AGE) (with_time value e)
        else with_age 0 (with_energy 0 (with_time (-1) e)), w).
Proof.
  unfold Entity_time_set. destruct (in_range Entity_TIME_MAX value); reflexivity.
Qed.

Lemma take_first_at_index (x y : Z) (foods : list Food) :
  match first_food_at x y foods with
  | Some (j, food) => take_first_at x y foods = Some (food, delete j foods)
  | None => take_first_at x y foods = None
  end.
Proof.
  induction foods as [|food rest IH]; cbn [first_food_at take_first_at]; [reflexivity|].
  destruct ((Food_x food =? x) && (Food_y food =? y)); [reflexivity|].
  destruct (first_food_at x y rest) as [[j f]|]; rewrite IH; reflexivity.
Qed.

Lemma take_first_at_In (x y : Z) (foods : list Food) (food : Food) (others : list Food) :
  take_first_at x y foods = Some (food, others) ->
  In food foods /\ (forall f, In f others -> In f foods).
Proof.
  revert others; induction foods as [|g rest IH]; intros others; cbn [take_first_at];
    [discriminate|].
  destruct ((Food_x g =? x) && (Food_y g =? y)).
  - intros [= <- <-]. split; [left; reflexivity|]. intros f Hf. right. exact Hf.
  - destruct (take_first_at x y rest) as [[found o]|]; [|discriminate].
    intros [= <- <-]. destruct (IH o eq_refl) as [H1 H2].
    split; [right; exact H1|]. intros f [Hf|Hf]; [left; exact Hf|right; auto].
Qed.

Lemma first_food_at_nonempty (x y : Z) (foods : list Food) (j : nat) (food : Food) :
  first_food_at x y foods = Some (j, food) -> foods <> [].
Proof. destruct foods; [discriminate|discriminate]. Qed.

Lemma Food_bool_nonempty (w : World) :
  Food_list w <> [] -> Food_bool w = (Return true, w).
Proof.
  intros H. unfold Food_bool, Food_len. unfold_monad.
  destruct (Food_list w); [contradiction|reflexivity].
Qed.

Lemma forallb_In {A} (p : A -> bool) (l : list A) (a : A) :
  forallb p l = true -> In a l -> p a = true.
Proof. intros H Ha. rewrite forallb_forall in H. auto. Qed.

(** Phase 3 of the code is phase 3 of the specification. *)
Lemma Entity_eat_phase (e : Entity) (w : World) :
  0 <= Entity_energy e ->
  forallb (Food_ok (Map_size w)) (Food_list w) = true ->
  Entity_eat (e, w) = (Return tt, tick_eat (e, w)).
Proof.
  intros He Hfoods. unfold Entity_eat, tick_eat.
  unfold bind at 1, self. cbn [fst snd].
  change Entity_ENERGY_MAX with 9999.
  destruct (Entity_energy e <? 9999); [|reflexivity].
  unfold bind at 1. unfold liftW at 1, gets. cbn [fst snd].
  pose proof (take_first_at_index (Entity_x e) (Entity_y e) (Food_list w)) as Hi.
  destruct (first_food_at (Entity_x e) (Entity_y e) (Food_list w)) as [[j food]|] eqn:E;
    rewrite Hi; [|reflexivity].
  unfold bind at 1. unfold liftW at 1. cbn [fst snd].
  rewrite Food_bool_nonempty by (eapply first_food_at_nonempty; exact E).
  destruct (take_first_at_In _ _ _ _ _ Hi) as [Hin _].
  pose proof (forallb_In _ _ _ Hfoods Hin) as Hok.
  apply Food_ok_fields in Hok as (_ & _ & Hp). apply andb_prop in Hp as [Hp _].
  rewrite bind_energy_set by (unfold Entity_ENERGY_MAX; lia).
  reflexivity.
Qed.

(** Phase 4 of the code is phase 4 of the specification. *)
Lemma Entity_reproduction_phase (e : Entity) (w : World) :
  on_map (Map_size w) (Entity_x e) (Entity_y e) = true ->
  0 <= Entity_energy e <= Entity_ENERGY_MAX ->
  Entity_reproduction (e, w) = (Return tt, tick_reproduce (e, w)).
Proof.
  intros Hmap He. apply andb_prop in Hmap as [Hx Hy].
  unfold Entity_reproduction, tick_reproduce, Entity_AGE_REPROD.
  unfold bind at 1, self. cbn [fst snd].
  rewrite Z.geb_leb. change Entity_MIN_REPROD with 500.
  destruct ((18 <=? Entity_age e) && (Entity_age e <? 60)); [|reflexivity].
  destruct (Z.leb_spec 500 (Entity_energy e)) as [H500|H500]; [|reflexivity].
  cbn [andb].
  rewrite bind_energy_set by (unfold Entity_REPROD, Entity_ENERGY_MAX in *; lia).
  unfold bind at 1, self. cbn [fst snd].
  unfold bind at 1. unfold liftW at 1. cbn [fst snd Entity_x Entity_y with_energy].
  rewrite Entity_new_ok; try assumption; try reflexivity.
  unfold Entity_ENERGY_DEF, Entity_ENERGY_MAX. lia.
Qed.

(** The loop of [moveTowardsFood] finds the nearest Food in sight, the
    first of the list among equally near ones. *)
Ltac case_compare :=
  repeat match goal with
         | |- context [(?a <=? ?b)] => destruct (Z.leb_spec a b)
         | |- context [(?a <? ?b)] => destruct (Z.ltb_spec a b)
         end.

Lemma fold_closer (e : Entity) (foods : list Food) :
  Entity_range e = Entity_RANGE_DEF ->
  forall best,
    (forall b db, best = Some (b, db) -> db = distance2 e b /\ db <= 100) ->
    option_map fst (fold_left (closer e) foods best) = later_nearer e best (nearest e foods).
Proof.
  intros Hr. induction foods as [|food rest IH]; intros best Hbest.
  - destruct best as [[b db]|]; reflexivity.
  - cbn [fold_left nearest]. rewrite IH.
    + unfold closer, in_sight. rewrite Hr. change Entity_RANGE_DEF with 10.
      change (0 <=? 10) with true. change (10 * 10) with 100. cbn [andb].
      destruct best as [[b db]|].
      * destruct (Hbest b db eq_refl) as [-> Hb].
        destruct (nearest e rest) as [g|]; cbn [later_nearer];
          case_compare; cbn [andb later_nearer]; case_compare;
          try reflexivity; try lia.
      * destruct (nearest e rest) as [g|]; cbn [later_nearer];
          case_compare; cbn [andb later_nearer]; case_compare;
          try reflexivity; try lia.
    + intros b db. unfold closer. rewrite Hr. change Entity_RANGE_DEF with 10.
      change (0 <=? 10) with true. change (10 * 10) with 100. cbn [andb].
      destruct best as [[b0 db0]|].
      * destruct (Hbest b0 db0 eq_refl) as [-> Hb].
        case_compare; cbn [andb]; intros [= <- <-]; auto.
      * case_compare; cbn [andb]; intros [= <- <-]; auto.
Qed.

Lemma closest_food_nearest (e : Entity) (foods : list Food) :
  Entity_range e = Entity_RANGE_DEF ->
  closest_food e foods = nearest e foods.
Proof.
  intros Hr. unfold closest_food. rewrite fold_closer; [reflexivity|assumption|].
  discriminate.
Qed.

Lemma nearest_In (e : Entity) (foods : list Food) (food : Food) :
  nearest e foods = Some food -> In food foods.
Proof.
  induction foods as [|f rest IH]; cbn [nearest]; [discriminate|].
  destruct (nearest e rest) as [g|].
  - destruct (in_sight e f && (distance2 e f <=? distance2 e g)).
    + intros [= <-]. left. reflexivity.
    + intros [= <-]. right. apply IH. reflexivity.
  - destruct (in_sight e f); [|discriminate]. intros [= <-]. left. reflexivity.
Qed.

Lemma toward_in_range (n from target : Z) :
  in_range n from = true -> in_range n target = true ->
  in_range n (toward from target) = true.
Proof.
  unfold in_range, toward. rewrite !andb_true_iff, !Z.leb_le, !Z.ltb_lt.
  intros [H1 H2] [H3 H4]. pose proof (Z.sgn_spec (target - from)). lia.
Qed.

Lemma bind_x_set {A} (value : Z) (k : unit -> M (Entity * World) A)
      (e : Entity) (w : World) :
  in_range (fst (Map_size w)) value = true ->
  bind (Element_x_set value) k (e, w) = k tt (with_x value e, w).
Proof.
  intros H. unfold bind, Element_x_set. unfold_monad. rewrite H. reflexivity.
Qed.

Lemma bind_y_set {A} (value : Z) (k : unit -> M (Entity * World) A)
      (e : Entity) (w : World) :
  in_range (snd (Map_size w)) value = true ->
  bind (Element_y_set value) k (e, w) = k tt (with_y value e, w).
Proof.
  intros H. unfold bind, Element_y_set. unfold_monad. rewrite H. reflexivity.
Qed.

Lemma sgn_step (d : Z) : (if negb (d =? 0) then Z.sgn d else d) = Z.sgn d.
Proof. destruct (Z.eqb_spec d 0) as [->|]; reflexivity. Qed.

(** [moveTowardsFood] when the agent and the Food are on the map. *)
Lemma Entity_moveTowardsFood_phase (e : Entity) (w : World) :
  on_map (Map_size w) (Entity_x e) (Entity_y e) = true ->
  Entity_range e = Entity_RANGE_DEF ->
  forallb (Food_ok (Map_size w)) (Food_list w) = true ->
  Entity_moveTowardsFood (e, w) =
  match nearest e (Food_list w) with
  | Some food =>
      (Return (Some (Z.sgn (Food_x food - Entity_x e), Z.sgn (Food_y food - Entity_y e))),
       (with_y (toward (Entity_y e) (Food_y food))
          (with_x (toward (Entity_x e) (Food_x food)) e), w))
  | None => (Return None, (e, w))
  end.
Proof.
  intros Hmap Hr Hfoods. apply andb_prop in Hmap as [Hx Hy].
  unfold Entity_moveTowardsFood.
  unfold bind at 1, self. cbn [fst snd].
  unfold bind at 1. unfold liftW at 1, gets. cbn [fst snd].
  rewrite closest_food_nearest by assumption.
  destruct (nearest e (Food_list w)) as [food|] eqn:E; [|reflexivity].
  pose proof (nearest_In _ _ _ E) as Hin.
  pose proof (forallb_In _ _ _ Hfoods Hin) as Hok.
  apply Food_ok_fields in Hok as (Hfx & Hfy & _).
  unfold bind at 1. unfold liftW at 1. cbn [fst snd].
  rewrite Food_bool_nonempty by (intros Hnil; rewrite Hnil in Hin; destruct Hin).
  rewrite !sgn_step.
  unfold bind at 1, self. cbn [fst snd].
  rewrite bind_x_set by (apply toward_in_range; assumption).
  unfold bind at 1, self. cbn [fst snd].
  rewrite bind_y_set by (apply toward_in_range; assumption).
  reflexivity.
Qed.

Lemma possibleMoves_moore (e : Entity) (w : World) :
  Entity_possibleMoves (e, w) =
  (Return (List.filter (keeps_on_map (Map_size w) e) moore), (e, w)).
Proof.
  unfold Entity_possibleMoves. unfold_monad.
  unfold moore, keeps_on_map, on_map, in_range.
  cbn [list_prod map app flat_map List.filter fst snd].
  repeat match goal with
         | |- context [if ?c then [?d] else []] => destruct c
         end; reflexivity.
Qed.

Lemma stay_is_possible (e : Entity) (size : Z * Z) :
  on_map size (Entity_x e) (Entity_y e) = true ->
  In (0, 0) (List.filter (keeps_on_map size e) moore).
Proof.
  intros H. apply filter_In. split.
  - unfold moore. cbn. auto 10.
  - unfold keeps_on_map. cbn [fst snd]. rewrite !Z.add_0_r. exact H.
Qed.

Lemma lookup_mod {A} (l : list A) (r : Z) :
  l <> [] -> exists a, l !! Z.to_nat (r mod Z.of_nat (length l)) = Some a /\ In a l.
Proof.
  intros Hl.
  assert (Hlen : (0 < length l)%nat) by (destruct l; [contradiction|cbn; lia]).
  pose proof (Z.mod_pos_bound r (Z.of_nat (length l)) ltac:(lia)) as Hb.
  destruct (lookup_lt_is_Some_2 l (Z.to_nat (r mod Z.of_nat (length l)))) as [a Ha]; [lia|].
  exists a. split; [exact Ha|]. apply list_elem_of_In. eapply list_elem_of_lookup_2. exact Ha.
Qed.

(** [rdmMove] when the agent is on the map. *)
Lemma Entity_rdmMove_phase (e : Entity) (w : World) :
  on_map (Map_size w) (Entity_x e) (Entity_y e) = true ->
  Entity_rdmMove (e, w) =
  match tape w with
  | [] => (Starved, (e, w))
  | r :: rest =>
      let moves := List.filter (keeps_on_map (Map_size w) e) moore in
      match moves !! Z.to_nat (r mod Z.of_nat (length moves)) with
      | Some d => (Return d, (with_y (Entity_y e + snd d) (with_x (Entity_x e + fst d) e),
                              set_tape rest w))
      | None => (Raise (Exn IndexError EmptyPopulation), (e, set_tape rest w))
      end
  end.
Proof.
  intros Hmap. unfold Entity_rdmMove.
  unfold bind at 1. rewrite possibleMoves_moore.
  unfold bind at 1. unfold liftW at 1. cbn [fst snd].
  unfold choices. unfold bind at 1, draw.
  destruct (tape w) as [|r rest] eqn:Et; [reflexivity|].
  cbv zeta.
  destruct (List.filter (keeps_on_map (Map_size w) e) moore
              !! Z.to_nat (r mod Z.of_nat (length (List.filter (keeps_on_map (Map_size w) e) moore))))
    as [d|] eqn:El; [|reflexivity].
  cbn [ret].
  assert (Hd : keeps_on_map (Map_size w) e d = true).
  { apply list_elem_of_lookup_2, list_elem_of_In, filter_In in El. apply El. }
  apply andb_prop in Hd as [Hdx Hdy].
  unfold bind at 1, self. cbn [fst snd].
  rewrite bind_x_set by exact Hdx.
  unfold bind at 1, self. cbn [fst snd].
  rewrite bind_y_set by exact Hdy.
  reflexivity.
Qed.

Lemma tickable_energy (s : Entity * World) : tickable s -> tickable (tick_energy s).
Proof.
  destruct s as [e w]. unfold tickable, tick_energy. cbn.
  unfold Entity_ENERGY_MAX. intuition lia.
Qed.

Lemma tickable_time (s : Entity * World) : tickable s -> tickable (tick_time s).
Proof.
  destruct s as [e w]. unfold tickable, tick_time. cbn [fst snd].
  destruct ((0 <=? Entity_time e + 1) && (Entity_time e + 1 <? 4000)); cbn;
    unfold Entity_ENERGY_MAX; intuition lia.
Qed.

Lemma tickable_eat (s : Entity * World) : tickable s -> tickable (tick_eat s).
Proof.
  destruct s as [e w]. unfold tickable, tick_eat. intros (Hm & He & Hr & Hf).
  destruct (Entity_energy e <? 9999); [|auto].
  destruct (take_first_at (Entity_x e) (Entity_y e) (Food_list w)) as [[food others]|] eqn:E;
    [|auto].
  destruct (take_first_at_In _ _ _ _ _ E) as [Hin Hsub].
  pose proof (forallb_In _ _ _ Hf Hin) as Hok.
  apply Food_ok_fields in Hok as (_ & _ & Hp). apply andb_prop in Hp as [Hp _].
  cbn. repeat split; try assumption; try (unfold Entity_ENERGY_MAX in *; lia).
  apply forallb_forall. intros f Hfo. apply (forallb_In _ _ _ Hf). auto.
Qed.

Lemma tickable_reproduce (s : Entity * World) : tickable s -> tickable (tick_reproduce s).
Proof.
  destruct s as [e w]. unfold tickable, tick_reproduce. intros (Hm & He & Hr & Hf).
  destruct ((18 <=? Entity_age e) && (Entity_age e <? 60)); [|cbn; auto].
  destruct (Z.leb_spec 500 (Entity_energy e)); [|cbn; auto].
  cbn. repeat split; try assumption; lia.
Qed.

(** The code of one tick is the five phases in their order. *)
Lemma Entity_move_tick_phases (s : Entity * World) :
  tickable s -> Entity_move s = tick_phases s.
Proof.
  intros Hs. unfold tick_phases.
  pose proof (tickable_energy s Hs) as H1.
  pose proof (tickable_time _ H1) as H2.
  pose proof (tickable_eat _ H2) as H3.
  pose proof (tickable_reproduce _ H3) as H4.
  destruct s as [e w]. unfold Entity_move.
  unfold bind at 1, self. cbn [fst snd].
  rewrite bind_energy_set by (destruct Hs as (_ & He & _); unfold Entity_ENERGY_MAX in *; lia).
  unfold bind at 1, self. cbn [fst snd].
  rewrite bind_time_set.
  change (with_energy (Z.max 0 (Entity_energy e - 1)) e, w) with (tick_energy (e, w)) in *.
  change (Entity_time (with_energy (Z.max 0 (Entity_energy e - 1)) e))
    with (Entity_time (fst (tick_energy (e, w)))).
  change (with_energy (Z.max 0 (Entity_energy e - 1)) e) with (fst (tick_energy (e, w))).
  set (s1 := tick_energy (e, w)) in *.
  change w with (snd s1) at 1.
  match goal with
  | |- context [(if ?c then ?a else ?b, snd s1)] =>
      replace (if c then a else b, snd s1) with (tick_time s1)
        by (unfold tick_time; change (in_range Entity_TIME_MAX (Entity_time (fst s1) + 1))
              with ((0 <=? Entity_time (fst s1) + 1) && (Entity_time (fst s1) + 1 <? 4000));
            destruct ((0 <=? Entity_time (fst s1) + 1) && (Entity_time (fst s1) + 1 <? 4000));
            reflexivity)
  end.
  set (s2 := tick_time s1) in *.
  unfold bind at 1.
  destruct s2 as [e2 w2] eqn:E2.
  rewrite Entity_eat_phase by (destruct H2 as (_ & He & _ & Hf); first [lia | assumption]).
  set (s3 := tick_eat (e2, w2)) in *.
  unfold bind at 1.
  destruct s3 as [e3 w3] eqn:E3.
  rewrite Entity_reproduction_phase by (destruct H3 as (Hm & He & _); assumption).
  set (s4 := tick_reproduce (e3, w3)) in *.
  unfold bind at 1.
  destruct s4 as [e4 w4] eqn:E4.
  destruct H4 as (Hm & He & Hr & Hf).
  rewrite Entity_moveTowardsFood_phase by assumption.
  unfold tick_movement.
  destruct (nearest e4 (Food_list w4)) as [food|]; [reflexivity|].
  unfold bind at 1. rewrite Entity_rdmMove_phase by assumption.
  destruct (tape w4) as [|r rest]; [reflexivity|].
  cbv zeta.
  destruct (lookup_mod (List.filter (keeps_on_map (Map_size w4) e4) moore) r) as (d & Hd & _).
  { intros Hnil. pose proof (stay_is_possible e4 (Map_size w4) Hm) as H0.
    rewrite Hnil in H0. destruct H0. }
  rewrite Hd. reflexivity.
Qed.



(** ** What a tick leaves unchanged *)

(** The movement phase changes the place of the agent, within the map, and
    the random tape; nothing else. *)
Lemma tick_movement_frame (e e' : Entity) (w w' : World) :
  on_map (Map_size w) (Entity_x e) (Entity_y e) = true ->
  forallb (Food_ok (Map_size w)) (Food_list w) = true ->
  tick_movement (e, w) = Some (e', w') ->
  (exists x y, e' = with_y y (with_x x e) /\ on_map (Map_size w) x y = true)
  /\ (exists tp, w' = set_tape tp w /\ (w' = w \/ exists r, tape w = r :: tp)).
Proof.
  intros Hmap Hfoods. unfold tick_movement.
  apply andb_prop in Hmap as [Hx Hy].
  destruct (nearest e (Food_list w)) as [food|] eqn:E.
  - intros [= <- <-].
    pose proof (forallb_In _ _ _ Hfoods (nearest_In _ _ _ E)) as Hok.
    apply Food_ok_fields in Hok as (Hfx & Hfy & _).
    split.
    + exists (toward (Entity_x e) (Food_x food)), (toward (Entity_y e) (Food_y food)).
      split; [reflexivity|]. unfold on_map.
      rewrite !toward_in_range by assumption. reflexivity.
    + exists (tape w). split; [destruct w; reflexivity|]. left. reflexivity.
  - destruct (tape w) as [|r rest] eqn:Et; [discriminate|].
    destruct (List.filter (keeps_on_map (Map_size w) e) moore
                !! Z.to_nat (r mod Z.of_nat (length (List.filter (keeps_on_map (Map_size w) e) moore))))
      as [d|] eqn:El; [|discriminate].
    intros [= <- <-].
    apply list_elem_of_lookup_2, list_elem_of_In, filter_In in El. destruct El as [_ Hd].
    split.
    + exists (Entity_x e + fst d), (Entity_y e + snd d). split; [reflexivity|]. exact Hd.
    + exists rest. split; [reflexivity|]. right. exists r. reflexivity.
Qed.

(** The first four phases: the Food list can only lose an item, the agent
    list can only gain one child of the agent, born with time 0 where its
    parent stands, and only of a parent whose own time was not 0. *)
Lemma tick_first_phases_frame (e e' : Entity) (w w' : World) :
  Entity_ok (Map_size w) e = true ->
  forallb (Food_ok (Map_size w)) (Food_list w) = true ->
  0 <= Entity_nEntities w <= Entity_MAX_ID ->
  tick_reproduce (tick_eat (tick_time (tick_energy (e, w)))) = (e', w') ->
  Entity_ok (Map_size w) e' = true
  /\ Entity_x e' = Entity_x e /\ Entity_y e' = Entity_y e
  /\ (exists foods, (forall f, In f foods -> In f (Food_list w))
        /\ (w' = set_Food_list foods w
            \/ exists child,
                 w' = set_Entity_list (Entity_list w ++ [child])
                        (set_Entity_nEntities (next_id (Entity_nEntities w))
                           (set_Food_list foods w))
                 /\ Entity_ok (Map_size w) child = true
                 /\ Entity_time child = 0 /\ Entity_time e <> 0
                 /\ Entity_survive e' = true)).
Proof.
  intros Hok Hfoods Hn.
  apply Entity_ok_fields in Hok as (Hx & Hy & He & Ht & Hi & Hr).
  unfold tick_energy, tick_time. cbn [fst snd with_energy Entity_time].
  assert (Hok' : forall energy time age,
            0 <= energy <= Entity_ENERGY_MAX -> -1 <= time < Entity_TIME_MAX ->
            Entity_ok (Map_size w)
              (mkEntity (Entity_x e) (Entity_y e) energy time age (Entity_range e) (Entity_id e))
            = true).
  { intros energy time age H1 H2. unfold Entity_ok. cbn.
    rewrite Hx, Hy, Hr. cbn.
    repeat (apply andb_true_intro; split); try apply Z.leb_le; try apply Z.ltb_lt;
      try apply Z.eqb_eq; try lia; reflexivity. }
  set (s2 := if (0 <=? Entity_time e + 1) && (Entity_time e + 1 <? 4000) then _ else _).
  assert (H2 : exists energy time age,
            s2 = (mkEntity (Entity_x e) (Entity_y e) energy time age (Entity_range e) (Entity_id e), w)
            /\ 0 <= energy <= Entity_ENERGY_MAX /\ -1 <= time < Entity_TIME_MAX
            /\ (18 <= age -> Entity_time e <> 0)).
  { unfold s2. unfold Entity_ENERGY_MAX, Entity_TIME_MAX in *.
    destruct (Z.leb_spec 0 (Entity_time e + 1)); cbn [andb];
      [destruct (Z.ltb_spec (Entity_time e + 1) 4000)|];
      eexists _, _, _; (split; [reflexivity|]); cbn; repeat split; try lia.
    intros Hage Ht0. rewrite Ht0 in Hage. vm_compute in Hage. congruence. }
  destruct H2 as (energy2 & time2 & age2 & -> & He2 & Ht2 & Hage2).
  unfold tick_eat. cbn [Entity_energy Entity_x Entity_y].
  set (s3 := if energy2 <? 9999 then _ else _).
  assert (H3 : exists energy foods,
            s3 = (mkEntity (Entity_x e) (Entity_y e) energy time2 age2 (Entity_range e) (Entity_id e),
                  set_Food_list foods w)
            /\ 0 <= energy <= Entity_ENERGY_MAX
            /\ (forall f, In f foods -> In f (Food_list w))).
  { unfold s3. destruct (energy2 <? 9999).
    - destruct (take_first_at (Entity_x e) (Entity_y e) (Food_list w)) as [[food others]|] eqn:E.
      + destruct (take_first_at_In _ _ _ _ _ E) as [Hin Hsub].
        pose proof (forallb_In _ _ _ Hfoods Hin) as Hfood.
        apply Food_ok_fields in Hfood as (_ & _ & Hp). apply andb_prop in Hp as [Hp _].
        eexists _, others. split; [reflexivity|]. split; [|exact Hsub].
        cbn. unfold Entity_ENERGY_MAX in *. lia.
      + exists energy2, (Food_list w). rewrite set_Food_list_same. auto.
    - exists energy2, (Food_list w). rewrite set_Food_list_same. auto. }
  destruct H3 as (energy3 & foods & -> & He3 & Hsub).
  unfold tick_reproduce. cbn [Entity_age Entity_energy Entity_x Entity_y].
  destruct ((18 <=? age2) && (age2 <? 60)) eqn:Eage; cbn [andb].
  2:{ intros [= <- <-]. split; [apply Hok'; assumption|]. split; [reflexivity|].
      split; [reflexivity|]. exists foods. auto. }
  destruct (Z.leb_spec 500 energy3) as [H500|H500].
  2:{ intros [= <- <-]. split; [apply Hok'; assumption|]. split; [reflexivity|].
      split; [reflexivity|]. exists foods. auto. }
  intros [= <- <-]. cbn [with_energy Entity_x Entity_y Entity_energy Entity_time Entity_age
                         Entity_range Entity_id].
  split; [apply Hok'; unfold Entity_ENERGY_MAX in *; lia || assumption|].
  split; [reflexivity|]. split; [reflexivity|].
  exists foods. split; [exact Hsub|]. right. eexists. split; [reflexivity|].
  apply andb_prop in Eage as [Eage Eage60]. apply Z.leb_le in Eage.
  apply Z.ltb_lt in Eage60.
  repeat split.
  - unfold Entity_ok. cbn. rewrite Hx, Hy. cbn.
    unfold next_id, Entity_MAX_ID in *.
    destruct (Z.ltb_spec (Entity_nEntities w) (2 ^ (Entity_NBYTES_ID * 8))).
    + repeat (apply andb_true_intro; split); try apply Z.leb_le; try apply Z.ltb_lt;
        try lia; reflexivity.
    + reflexivity.
  - auto.
  - unfold Entity_survive. cbn.
    destruct (Z.leb_spec (energy3 - 200) 0); [lia|].
    destruct (Z.gtb_spec age2 Entity_TIME_MAX); [|reflexivity].
    unfold Entity_TIME_MAX in *. lia.
Qed.

(** ** The sweep of the engine *)

Lemma forallb_Forall {A} (p : A -> bool) (l : list A) :
  forallb p l = true <-> Forall (fun a => p a = true) l.
Proof.
  induction l as [|a l IH]; cbn [forallb].
  - split; [constructor|reflexivity].
  - rewrite andb_true_iff, IH. split.
    + intros [H1 H2]. constructor; assumption.
    + intros H. inversion H. auto.
Qed.

Lemma differ_in_lists_refl (w : World) : differ_in_lists w w.
Proof.
  exists (Food_list w), (Entity_list w), (Entity_nEntities w), (tape w).
  destruct w; reflexivity.
Qed.

Lemma differ_in_lists_trans (w1 w2 w3 : World) :
  differ_in_lists w1 w2 -> differ_in_lists w2 w3 -> differ_in_lists w1 w3.
Proof.
  intros (f & l & n & t & ->) (f' & l' & n' & t' & ->).
  exists f', l', n', t'. reflexivity.
Qed.

Lemma differ_in_lists_settings (w w' : World) :
  differ_in_lists w w' ->
  Map_size w' = Map_size w /\ Food_maxFoods w' = Food_maxFoods w
  /\ save_time w' = save_time w /\ save_last w' = save_last w
  /\ file_save w' = file_save w /\ file_backup w' = file_backup w
  /\ clock w' = clock w /\ stdout w' = stdout w.
Proof. intros (f & l & n & t & ->). repeat split. Qed.

Lemma sweep_unfold (k i : nat) (w : World) :
  sweep (S k) i w =
  match Entity_list w !! i with
  | None => (Return tt, w)
  | Some entity =>
      match sweep_round i entity w with
      | (Return alive, w1) =>
          sweep k (S i)
            (if alive then w1 else set_Entity_list (delete i (Entity_list w1)) w1)
      | (Raise e, w1) => (Raise e, w1)
      | (Starved, w1) => (Starved, w1)
      end
  end.
Proof.
  cbn [sweep]. unfold bind at 1, gets.
  destruct (Entity_list w !! i) as [entity|]; [|reflexivity].
  unfold bind at 1. fold (sweep_round i entity).
  destruct (sweep_round i entity w) as [[alive|e|] w1]; try reflexivity.
  unfold bind at 1. destruct alive; reflexivity.
Qed.

Lemma Entity_ok_moved (size : Z * Z) (e : Entity) (x y : Z) :
  Entity_ok size e = true -> on_map size x y = true ->
  Entity_ok size (with_y y (with_x x e)) = true.
Proof.
  unfold Entity_ok, on_map. cbn. rewrite !andb_true_iff. tauto.
Qed.

Lemma Entity_survive_moved (e : Entity) (x y : Z) :
  Entity_survive (with_y y (with_x x e)) = Entity_survive e.
Proof. reflexivity. Qed.

(** One round on a well-formed world: it does not raise; the world stays
    well-formed and changes in its lists, counter and tape only; the Food
    list can only lose items; in the agent list the agent at [i] is
    updated and at most one child is appended. *)
Lemma sweep_round_frame (i : nat) (e : Entity) (w : World) :
  World_ok w = true -> Entity_list w !! i = Some e ->
  exists r e' children w1,
    sweep_round i e w = (r, w1)
    /\ (r = Starved \/ r = Return (Entity_survive e'))
    /\ World_ok w1 = true
    /\ differ_in_lists w w1
    /\ (forall f, In f (Food_list w1) -> In f (Food_list w))
    /\ Entity_list w1 = <[i := e']> (Entity_list w) ++ children
    /\ (children = []
        \/ exists child, children = [child] /\ Entity_time child = 0
                         /\ Entity_time e <> 0 /\ Entity_survive e' = true).
Proof.
  intros Hok Hi.
  apply World_ok_parts in Hok as (Hfoods & Hents & Hn).
  assert (Hlt : (i < length (Entity_list w))%nat) by (eapply lookup_lt_Some; exact Hi).
  assert (He : Entity_ok (Map_size w) e = true).
  { apply (forallb_In _ _ _ Hents). apply list_elem_of_In. eapply list_elem_of_lookup_2. exact Hi. }
  assert (Ht : tickable (e, w)).
  { apply Entity_ok_fields in He as (Hx & Hy & Hen & _ & _ & Hr).
    unfold tickable, on_map. rewrite Hx, Hy. auto. }
  unfold sweep_round, on_entity. unfold bind at 1.
  rewrite Entity_move_tick_phases by exact Ht. unfold tick_phases.
  destruct (tick_reproduce (tick_eat (tick_time (tick_energy (e, w))))) as [e4 w4] eqn:E4.
  destruct (tick_first_phases_frame e e4 w w4 He Hfoods Hn E4)
    as (He4 & Hx4 & Hy4 & foods & Hsub & Hw4).
  assert (Hfoods4 : forallb (Food_ok (Map_size w)) foods = true).
  { apply forallb_forall. intros f Hf. apply (forallb_In _ _ _ Hfoods). auto. }
  assert (Hsize4 : Map_size w4 = Map_size w /\ Food_list w4 = foods).
  { destruct Hw4 as [->|(child & -> & _)]; split; reflexivity. }
  destruct Hsize4 as [Hsize4 Hfl4].
  assert (Hmap4 : on_map (Map_size w4) (Entity_x e4) (Entity_y e4) = true).
  { rewrite Hsize4. apply Entity_ok_fields in He4 as (Hx & Hy & _).
    unfold on_map. rewrite Hx, Hy. reflexivity. }
  assert (Hfo4 : forallb (Food_ok (Map_size w4)) (Food_list w4) = true)
    by (rewrite Hsize4, Hfl4; exact Hfoods4).
  assert (Hwok : forall w1 e5 children,
            Map_size w1 = Map_size w -> Food_list w1 = foods ->
            Entity_list w1 = <[i := e5]> (Entity_list w) ++ children ->
            Entity_ok (Map_size w) e5 = true ->
            Forall (fun c => Entity_ok (Map_size w) c = true) children ->
            0 <= Entity_nEntities w1 <= Entity_MAX_ID ->
            World_ok w1 = true).
  { intros w1 e5 children Hs1 Hf1 Hl1 H5 Hc Hn'. unfold World_ok.
    rewrite Hs1, Hf1, Hl1, Hfoods4. cbn [andb].
    assert (Hl : forallb (Entity_ok (Map_size w)) (<[i := e5]> (Entity_list w) ++ children) = true).
    { apply forallb_Forall. apply Forall_app_2; [|exact Hc].
      apply Forall_insert; [apply forallb_Forall; exact Hents|exact H5]. }
    rewrite Hl. cbn [andb]. apply andb_true_intro. split; [apply Z.leb_le|apply Z.leb_le]; lia. }
  assert (Hnext : 0 <= next_id (Entity_nEntities w) <= Entity_MAX_ID).
  { unfold next_id. destruct (Entity_nEntities w <? Entity_MAX_ID) eqn:El;
      [apply Z.ltb_lt in El; lia|vm_compute; split; discriminate]. }
  destruct (tick_movement (e4, w4)) as [[e5 w5]|] eqn:E5.
  - destruct (tick_movement_frame e4 e5 w4 w5 Hmap4 Hfo4 E5)
      as ((x & y & -> & Hxy) & tp & -> & _).
    rewrite Hsize4 in Hxy.
    unfold bind, self, ret. cbn [fst snd].
    destruct Hw4 as [->|(child & -> & Hcok & Hc0 & He0 & Hsurv)].
    + exists (Return (Entity_survive (with_y y (with_x x e4)))), (with_y y (with_x x e4)), [].
      eexists. split; [reflexivity|]. split; [right; reflexivity|].
      cbn [Entity_list set_tape set_Food_list set_Entity_list].
      split; [|split; [|split; [|split]]].
      * apply (Hwok _ (with_y y (with_x x e4)) []);
          [reflexivity|reflexivity|cbn; rewrite app_nil_r; reflexivity
          |apply Entity_ok_moved; assumption|constructor|exact Hn].
      * exists foods, (<[i:=with_y y (with_x x e4)]> (Entity_list w)),
          (Entity_nEntities w), tp. destruct w; reflexivity.
      * exact Hsub.
      * rewrite app_nil_r. reflexivity.
      * left. reflexivity.
    + exists (Return (Entity_survive (with_y y (with_x x e4)))), (with_y y (with_x x e4)), [child].
      eexists. split; [reflexivity|]. split; [right; reflexivity|].
      cbn [Entity_list set_tape set_Food_list set_Entity_list set_Entity_nEntities].
      rewrite insert_app_l by exact Hlt.
      split; [|split; [|split; [|split]]].
      * apply (Hwok _ (with_y y (with_x x e4)) [child]);
          [reflexivity|reflexivity|reflexivity
          |apply Entity_ok_moved; assumption|repeat constructor; exact Hcok|exact Hnext].
      * exists foods, (<[i:=with_y y (with_x x e4)]> (Entity_list w) ++ [child]),
          (next_id (Entity_nEntities w)), tp. reflexivity.
      * exact Hsub.
      * reflexivity.
      * right. exists child. rewrite Entity_survive_moved. auto.
  - destruct Hw4 as [->|(child & -> & Hcok & Hc0 & He0 & Hsurv)].
    + exists Starved, e4, []. eexists. split; [reflexivity|]. split; [left; reflexivity|].
      cbn [Entity_list set_tape set_Food_list set_Entity_list].
      split; [|split; [|split; [|split]]].
      * apply (Hwok _ e4 []);
          [reflexivity|reflexivity|cbn; rewrite app_nil_r; reflexivity
          |assumption|constructor|exact Hn].
      * exists foods, (<[i:=e4]> (Entity_list w)),
          (Entity_nEntities w), (tape w). destruct w; reflexivity.
      * exact Hsub.
      * rewrite app_nil_r. reflexivity.
      * left. reflexivity.
    + exists Starved, e4, [child]. eexists. split; [reflexivity|]. split; [left; reflexivity|].
      cbn [Entity_list set_tape set_Food_list set_Entity_list set_Entity_nEntities].
      rewrite insert_app_l by exact Hlt.
      split; [|split; [|split; [|split]]].
      * apply (Hwok _ e4 [child]);
          [reflexivity|reflexivity|reflexivity
          |assumption|repeat constructor; exact Hcok|exact Hnext].
      * exists foods, (<[i:=e4]> (Entity_list w) ++ [child]),
          (next_id (Entity_nEntities w)), (tape w). destruct w; reflexivity.
      * exact Hsub.
      * reflexivity.
      * right. exists child. auto.
Qed.

Lemma World_ok_delete (i : nat) (w : World) :
  World_ok w = true -> World_ok (set_Entity_list (delete i (Entity_list w)) w) = true.
Proof.
  intros Hok. apply World_ok_parts in Hok as (Hf & He & Hn).
  unfold World_ok. cbn [Map_size Food_list Entity_list Entity_nEntities set_Entity_list].
  rewrite Hf. cbn [andb].
  assert (Hl : forallb (Entity_ok (Map_size w)) (delete i (Entity_list w)) = true).
  { apply forallb_Forall, Forall_delete, forallb_Forall. exact He. }
  rewrite Hl. cbn [andb]. apply andb_true_intro. split; apply Z.leb_le; lia.
Qed.

Lemma differ_in_lists_delete (i : nat) (w : World) :
  differ_in_lists w (set_Entity_list (delete i (Entity_list w)) w).
Proof.
  exists (Food_list w), (delete i (Entity_list w)), (Entity_nEntities w), (tape w).
  destruct w; reflexivity.
Qed.

Lemma take_delete_same {A} (i : nat) (l : list A) : take i (delete i l) = take i l.
Proof.
  rewrite delete_take_drop.
  destruct (Nat.le_gt_cases i (length l)) as [Hle|Hgt].
  - rewrite take_app_length'; [reflexivity|]. rewrite length_take. lia.
  - rewrite (drop_ge l (S i)) by lia. rewrite app_nil_r. apply take_idemp.
Qed.

(** What the sweep from index [i] keeps: it does not raise, the world stays
    well-formed, only lists, counter and tape change, the Food list only
    loses items, and the agents before [i] are not touched. *)
Lemma sweep_frame (fuel : nat) :
  forall (i : nat) (w : World) (r : outcome unit) (w' : World),
  World_ok w = true -> sweep fuel i w = (r, w') ->
  (r = Starved \/ r = Return tt)
  /\ World_ok w' = true
  /\ differ_in_lists w w'
  /\ (forall f, In f (Food_list w') -> In f (Food_list w))
  /\ take i (Entity_list w') = take i (Entity_list w).
Proof.
  induction fuel as [|k IH]; intros i w r w' Hok.
  - intros [= <- <-]. repeat split; auto using differ_in_lists_refl.
  - rewrite sweep_unfold.
    destruct (Entity_list w !! i) as [e|] eqn:Ei.
    2:{ intros [= <- <-]. repeat split; auto using differ_in_lists_refl. }
    destruct (sweep_round_frame i e w Hok Ei)
      as (r0 & e' & children & w1 & -> & Hr0 & Hok1 & Hd1 & Hf1 & Hl1 & _).
    assert (Hlt : (i < length (Entity_list w))%nat) by (eapply lookup_lt_Some; exact Ei).
    assert (Htake1 : take i (Entity_list w1) = take i (Entity_list w)).
    { rewrite Hl1, take_app_le by (rewrite length_insert; lia).
      apply take_insert_ge. lia. }
    destruct Hr0 as [->| ->].
    { intros [= <- <-]. repeat split; auto. }
    set (w2 := if Entity_survive e' then w1
               else set_Entity_list (delete i (Entity_list w1)) w1).
    assert (H2 : World_ok w2 = true /\ differ_in_lists w1 w2
                 /\ Food_list w2 = Food_list w1
                 /\ take i (Entity_list w2) = take i (Entity_list w1)).
    { unfold w2. destruct (Entity_survive e').
      - repeat split; auto using differ_in_lists_refl.
      - repeat split; auto using World_ok_delete, differ_in_lists_delete.
        apply take_delete_same. }
    destruct H2 as (Hok2 & Hd2 & Hf2 & Htake2).
    intros Hs. destruct (IH (S i) w2 r w' Hok2 Hs) as (Hr & Hok' & Hd' & Hf' & Htake').
    split; [exact Hr|]. split; [exact Hok'|].
    split; [eauto using differ_in_lists_trans|].
    split; [intros f Hf; apply Hf1; rewrite <- Hf2; auto|].
    rewrite <- Htake1, <- Htake2.
    assert (Hcut : forall l : list Entity, take i l = take i (take (S i) l))
      by (intros l; rewrite take_take, Nat.min_l by lia; reflexivity).
    rewrite (Hcut (Entity_list w')), (Hcut (Entity_list w2)), Htake'. reflexivity.
Qed.

(** ** The sweep ends *)

Lemma weight_pos (e : Entity) : (1 <= weight e <= 2)%nat.
Proof. unfold weight. destruct (Entity_time e =? 0); lia. Qed.

Lemma rounds_left_lookup (i : nat) (l : list Entity) (e : Entity) :
  l !! i = Some e -> rounds_left i l = (weight e + rounds_left (S i) l)%nat.
Proof.
  intros H. unfold rounds_left. rewrite (drop_S l e i H). reflexivity.
Qed.

Lemma rounds_left_bound (i : nat) (l : list Entity) :
  (rounds_left i l <= 2 * length l)%nat.
Proof.
  unfold rounds_left. revert i. induction l as [|a l IH]; intros i.
  - rewrite drop_nil. cbn. lia.
  - destruct i as [|i].
    + rewrite drop_0. cbn [map list_sum fold_right length]. specialize (IH 0%nat).
      rewrite drop_0 in IH. unfold list_sum in IH. pose proof (weight_pos a). lia.
    + cbn [drop length]. specialize (IH i). lia.
Qed.

Lemma rounds_left_delete (i : nat) (l : list Entity) :
  (rounds_left (S i) (delete i l) <= rounds_left (S i) l)%nat.
Proof.
  unfold rounds_left. revert i. induction l as [|a l IH]; intros i.
  - change (delete i (@nil Entity)) with (@nil Entity). reflexivity.
  - destruct i as [|i].
    + change (delete 0%nat (a :: l)) with l.
      destruct l as [|b l]; unfold list_sum; cbn; rewrite ?drop_0; lia.
    + change (delete (S i) (a :: l)) with (a :: delete i l).
      cbn [drop]. apply IH.
Qed.

Lemma rounds_left_round (i : nat) (l : list Entity) (e e' : Entity) (children : list Entity) :
  l !! i = Some e ->
  rounds_left (S i) (<[i := e']> l ++ children)
  = (rounds_left (S i) l + list_sum (map weight children))%nat.
Proof.
  intros H. pose proof (lookup_lt_Some _ _ _ H) as Hlt.
  unfold rounds_left.
  rewrite drop_app_le by (rewrite length_insert; lia).
  rewrite drop_insert_lt by lia.
  rewrite map_app, list_sum_app. reflexivity.
Qed.

(** With more fuel than rounds left, the sweep does not depend on the
    fuel: it never runs out of it. *)
Lemma sweep_fuel (fuel : nat) :
  forall (fuel' i : nat) (w : World),
  World_ok w = true ->
  (rounds_left i (Entity_list w) < fuel)%nat ->
  (rounds_left i (Entity_list w) < fuel')%nat ->
  sweep fuel i w = sweep fuel' i w.
Proof.
  induction fuel as [|k IH]; intros fuel' i w Hok Hk Hk'; [lia|].
  destruct fuel' as [|k']; [lia|].
  rewrite !sweep_unfold.
  destruct (Entity_list w !! i) as [e|] eqn:Ei; [|reflexivity].
  destruct (sweep_round_frame i e w Hok Ei)
    as (r0 & e' & children & w1 & -> & Hr0 & Hok1 & _ & _ & Hl1 & Hch).
  destruct Hr0 as [->| ->]; [reflexivity|].
  rewrite (rounds_left_lookup i _ e Ei) in Hk, Hk'.
  pose proof (rounds_left_round i (Entity_list w) e e' children Ei) as Hround.
  rewrite <- Hl1 in Hround.
  assert (Hless : (rounds_left (S i) (Entity_list w1)
                   < weight e + rounds_left (S i) (Entity_list w))%nat).
  { rewrite Hround. pose proof (weight_pos e).
    destruct Hch as [->|(child & -> & Hc0 & He0 & _)].
    - cbn. lia.
    - assert (Hwc : weight child = 1%nat) by (unfold weight; rewrite Hc0; reflexivity).
      assert (Hwe : weight e = 2%nat)
        by (unfold weight; destruct (Z.eqb_spec (Entity_time e) 0); [contradiction|reflexivity]).
      unfold list_sum. cbn. lia. }
  destruct (Entity_survive e').
  - apply IH; [exact Hok1|lia|lia].
  - pose proof (rounds_left_delete i (Entity_list w1)).
    apply IH; [apply World_ok_delete; exact Hok1| |];
      cbn [Entity_list set_Entity_list]; lia.
Qed.

(** ** Food generation *)

Lemma randint_frame (a b : Z) (w : World) (r : outcome Z) (w' : World) :
  randint a b w = (r, w') ->
  (exists tp, w' = set_tape tp w)
  /\ (forall v, r = Return v -> a <= v <= b).
Proof.
  unfold randint. destruct (Z.ltb_spec b a) as [Hlt|Hle].
  - intros [= <- <-]. split; [exists (tape w); destruct w; reflexivity|discriminate].
  - unfold bind, draw. destruct (tape w) as [|d rest] eqn:Et.
    + intros [= <- <-]. split; [exists (tape w); destruct w; reflexivity|discriminate].
    + intros [= <- <-]. split; [exists rest; reflexivity|].
      intros v [= <-]. pose proof (Z.mod_pos_bound d (b - a + 1) ltac:(lia)). lia.
Qed.

Lemma set_tape_twice (tp tp' : list Z) (w : World) :
  set_tape tp' (set_tape tp w) = set_tape tp' w.
Proof. reflexivity. Qed.

(** The sampling loop only consumes draws, and what it returns is a free
    place of the map. *)
Lemma rmdCoord_loop_frame {T} `{Element T} (rounds : nat) (datas : list T) :
  forall (w : World) (r : outcome (Z * Z)) (w' : World),
  rmdCoord_loop rounds datas w = (r, w') ->
  (exists tp, w' = set_tape tp w)
  /\ (forall x y, r = Return (x, y) ->
        on_map (Map_size w) x y = true /\ occupied datas x y = false).
Proof.
  induction rounds as [|k IH]; intros w r w'.
  - intros [= <- <-]. split; [exists (tape w); destruct w; reflexivity|discriminate].
  - cbn [rmdCoord_loop]. unfold bind at 1, gets.
    unfold bind at 1.
    destruct (randint 0 (fst (Map_size w) - 1) w) as [rx w1] eqn:Ex.
    destruct (randint_frame _ _ _ _ _ Ex) as ((tp1 & ->) & Hx).
    destruct rx as [x|e|]; try (intros [= <- <-]; split; [eauto|discriminate]).
    unfold bind at 1.
    destruct (randint 0 (snd (Map_size w) - 1) (set_tape tp1 w)) as [ry w2] eqn:Ey.
    destruct (randint_frame _ _ _ _ _ Ey) as ((tp2 & ->) & Hy).
    rewrite set_tape_twice in *.
    destruct ry as [y|e|]; try (intros [= <- <-]; split; [eauto|discriminate]).
    destruct (occupied datas x y) eqn:Eo; cbn [negb].
    + intros Hl. destruct (IH _ _ _ Hl) as ((tp3 & ->) & Hr).
      split; [exists tp3; reflexivity|]. exact Hr.
    + intros [= <- <-]. split; [eauto|]. intros x' y' [= <- <-].
      specialize (Hx x eq_refl). specialize (Hy y eq_refl).
      split; [|exact Eo]. unfold on_map, in_range.
      repeat (apply andb_true_intro; split); try apply Z.leb_le; try apply Z.ltb_lt; lia.
Qed.

(** One Food generation attempt: at most one Food, with the default points
    and on the map, is appended; only the Food list and the tape change. *)
Lemma Food_generate_frame (w : World) (r : outcome unit) (w' : World) :
  Food_generate w = (r, w') ->
  exists tp foods,
    w' = set_tape tp (set_Food_list foods w)
    /\ (foods = Food_list w
        \/ exists x y, foods = Food_list w ++ [mkFood x y Food_PTS_DEFAULT]
                       /\ on_map (Map_size w) x y = true
                       /\ occupied (Food_list w) x y = false
                       /\ Z.of_nat (length (Food_list w)) < Food_maxFoods w
                       /\ r = Return tt).
Proof.
  assert (Hsame : forall tp, set_tape tp (set_Food_list (Food_list w) w) = set_tape tp w)
    by (intros; destruct w; reflexivity).
  assert (Hnone : exists tp foods, w = set_tape tp (set_Food_list foods w)
                                   /\ (foods = Food_list w \/ False)).
  { exists (tape w), (Food_list w). split; [destruct w; reflexivity|auto]. }
  unfold Food_generate, Food_len.
  unfold bind at 1. unfold bind at 1, gets, ret. cbv beta iota.
  unfold bind at 1. cbv beta iota.
  destruct (Z.ltb_spec (Z.of_nat (length (Food_list w))) (Food_maxFoods w)) as [Hcap|Hcap].
  2:{ intros Heq. injection Heq as Hr Hw. subst r w'.
      destruct Hnone as (tp & foods & H1 & [H2|[]]). eauto. }
  unfold bind at 1. cbv beta iota.
  unfold bind at 1. unfold Map_rmdCoord.
  unfold bind at 1. unfold gets at 1. cbv beta iota.
  destruct (fst (Map_size w) * snd (Map_size w) >? Z.of_nat (length (Food_list w))).
  2:{ unfold ret. intros Heq. injection Heq as Hr Hw. subst r w'.
      destruct Hnone as (tp & foods & H1 & [H2|[]]). eauto. }
  unfold bind at 1. unfold gets at 1. cbv beta iota.
  unfold bind at 1.
  destruct (rmdCoord_loop (S (length (tape w))) (Food_list w) w) as [rc w1] eqn:El.
  destruct (rmdCoord_loop_frame _ _ _ _ _ El) as ((tp & ->) & Hc).
  destruct rc as [[x y]|e|];
    try (intros [= <- <-]; exists tp, (Food_list w); rewrite Hsame; auto).
  destruct (Hc x y eq_refl) as [Hmap Hfree].
  cbn [ret]. unfold bind at 1.
  apply andb_prop in Hmap as [Hx Hy].
  rewrite Food_new_ok by (first [exact Hx | exact Hy | reflexivity]).
  intros [= <- <-]. exists tp, (Food_list w ++ [mkFood x y Food_PTS_DEFAULT]).
  split; [reflexivity|]. right. exists x, y. unfold on_map. rewrite Hx, Hy. auto.
Qed.

(** ** The engine step *)

Lemma Save_time_set_frame (value : Z) (w : World) :
  exists t age energy,
    Save_time_set value w
    = (Return tt, set_save_age age (set_save_energy energy (set_save_time t w)))
    /\ (in_range Save_TIME_MAX value = true -> t = value).
Proof.
  unfold Save_time_set. destruct (in_range Save_TIME_MAX value).
  - exists value, (value / Save_TIME_IN_AGE), (save_energy w).
    split; [destruct w; reflexivity|auto].
  - exists (-1), 0, (Some 0). split; [reflexivity|discriminate].
Qed.

Lemma Save_time_set_cases (value : Z) (w : World) :
  Save_time_set value w =
  (Return tt,
   if in_range Save_TIME_MAX value
   then set_save_age (value / Save_TIME_IN_AGE) (set_save_time value w)
   else set_save_age 0 (set_save_energy (Some 0) (set_save_time (-1) w))).
Proof. unfold Save_time_set. destruct (in_range Save_TIME_MAX value); reflexivity. Qed.

(** With a free place under the first two draws, the first round returns
    it. *)
Lemma rmdCoord_loop_hit {T} `{Element T} (k : nat) (datas : list T) (w : World)
      (r1 r2 : Z) (rest : list Z) :
  0 < fst (Map_size w) -> 0 < snd (Map_size w) ->
  tape w = r1 :: r2 :: rest ->
  occupied datas (r1 mod fst (Map_size w)) (r2 mod snd (Map_size w)) = false ->
  rmdCoord_loop (S k) datas w
  = (Return (r1 mod fst (Map_size w), r2 mod snd (Map_size w)), set_tape rest w).
Proof.
  intros Hx Hy Ht Hfree. cbn [rmdCoord_loop].
  assert (Hdraw : forall n r tp w0, 0 < n -> tape w0 = r :: tp ->
            randint 0 (n - 1) w0 = (Return (r mod n), set_tape tp w0)).
  { intros n r tp w0 Hn Hw0. unfold randint.
    destruct (Z.ltb_spec (n - 1) 0); [lia|].
    unfold bind, draw, ret. rewrite Hw0.
    replace (n - 1 - 0 + 1) with n by lia. reflexivity. }
  unfold bind at 1, gets. unfold bind at 1.
  rewrite (Hdraw _ r1 (r2 :: rest) w Hx Ht).
  unfold bind at 1.
  rewrite (Hdraw _ r2 rest (set_tape (r2 :: rest) w) Hy eq_refl).
  rewrite Hfree. reflexivity.
Qed.

Lemma Food_generate_full (w : World) :
  Food_maxFoods w <= Z.of_nat (length (Food_list w)) ->
  Food_generate w = (Return tt, w).
Proof.
  intros Hfull. unfold Food_generate, Food_len.
  unfold bind at 1. unfold bind at 1, gets, ret. cbv beta iota.
  unfold bind at 1. cbv beta iota.
  destruct (Z.ltb_spec (Z.of_nat (length (Food_list w))) (Food_maxFoods w)); [lia|].
  reflexivity.
Qed.

(** An attempt that finds room and a free place under the first two draws
    puts a Food of 100 points there. *)
Lemma Food_generate_hit (w : World) (r1 r2 : Z) (rest : list Z) :
  Z.of_nat (length (Food_list w)) < Food_maxFoods w ->
  Z.of_nat (length (Food_list w)) < fst (Map_size w) * snd (Map_size w) ->
  0 < fst (Map_size w) -> 0 < snd (Map_size w) ->
  tape w = r1 :: r2 :: rest ->
  occupied (Food_list w) (r1 mod fst (Map_size w)) (r2 mod snd (Map_size w)) = false ->
  Food_generate w =
  (Return tt,
   set_tape rest
     (set_Food_list
        (Food_list w ++
         [mkFood (r1 mod fst (Map_size w)) (r2 mod snd (Map_size w)) Food_PTS_DEFAULT]) w)).
Proof.
  intros Hcap Harea Hx Hy Ht Hfree. unfold Food_generate, Food_len.
  unfold bind at 1. unfold bind at 1, gets, ret. cbv beta iota.
  unfold bind at 1. cbv beta iota.
  destruct (Z.ltb_spec (Z.of_nat (length (Food_list w))) (Food_maxFoods w)); [|lia].
  unfold bind at 1. cbv beta iota.
  unfold bind at 1. unfold Map_rmdCoord.
  unfold bind at 1. unfold gets at 1. cbv beta iota.
  destruct (Z.gtb_spec (fst (Map_size w) * snd (Map_size w))
                       (Z.of_nat (length (Food_list w)))); [|lia].
  unfold bind at 1. unfold gets at 1. cbv beta iota.
  unfold bind at 1.
  rewrite (rmdCoord_loop_hit _ (Food_list w) w r1 r2 rest Hx Hy Ht Hfree).
  cbn [ret]. unfold bind at 1.
  pose proof (Z.mod_pos_bound r1 _ Hx) as Hr1. pose proof (Z.mod_pos_bound r2 _ Hy) as Hr2.
  rewrite Food_new_ok.
  - reflexivity.
  - cbn [Map_size set_tape]. unfold in_range.
    apply andb_true_intro; split; [apply Z.leb_le | apply Z.ltb_lt]; lia.
  - cbn [Map_size set_tape]. unfold in_range.
    apply andb_true_intro; split; [apply Z.leb_le | apply Z.ltb_lt]; lia.
  - reflexivity.
Qed.





(** ** Coordinates stay on the map *)

Lemma World_ok_ext (w w' : World) :
  Map_size w' = Map_size w -> Food_list w' = Food_list w ->
  Entity_list w' = Entity_list w -> Entity_nEntities w' = Entity_nEntities w ->
  World_ok w' = World_ok w.
Proof. intros H1 H2 H3 H4. unfold World_ok. rewrite H1, H2, H3, H4. reflexivity. Qed.

Lemma World_ok_new_food (w : World) (x y : Z) (tp : list Z) :
  World_ok w = true -> on_map (Map_size w) x y = true ->
  World_ok (set_tape tp (set_Food_list (Food_list w ++ [mkFood x y Food_PTS_DEFAULT]) w)) = true.
Proof.
  intros Hok Hmap. apply World_ok_parts in Hok as (Hf & He & Hn).
  unfold World_ok.
  cbn [Map_size Food_list Entity_list Entity_nEntities set_tape set_Food_list].
  rewrite He, forallb_app, Hf. cbn [forallb andb].
  unfold Food_ok at 1. cbn [Food_x Food_y Food_pts]. unfold on_map in Hmap. rewrite Hmap.
  cbn [andb]. change ((0 <? Food_PTS_DEFAULT) && (Food_PTS_DEFAULT <=? Food_PTS_MAX)) with true.
  cbn [andb]. apply andb_true_intro. split; apply Z.leb_le; lia.
Qed.

Lemma RSim_step_World_ok (w : World) (r : outcome unit) (w' : World) :
  World_ok w = true -> RSim_step w = (r, w') -> World_ok w' = true.
Proof.
  intros Hok. unfold RSim_step. unfold bind at 1, gets. cbv beta iota.
  unfold bind at 1.
  destruct (sweep (S (2 * length (Entity_list w))) 0 w) as [rs w1] eqn:Es.
  destruct (sweep_frame _ _ _ _ _ Hok Es) as (Hrs & Hok1 & _).
  destruct Hrs as [->| ->]; [intros [= <- <-]; exact Hok1|].
  unfold bind at 1. cbv beta iota. unfold bind at 1.
  destruct (Save_time_set_frame (save_time w1 + 1) w1) as (t & age & energy & Hset & _).
  rewrite Hset.
  set (w2 := set_save_age age (set_save_energy energy (set_save_time t w1))).
  assert (Hok2 : World_ok w2 = true) by (rewrite <- Hok1; apply World_ok_ext; reflexivity).
  intros Hg. destruct (Food_generate_frame _ _ _ Hg) as (tp & foods & -> & Hfoods).
  destruct Hfoods as [->|(x & y & -> & Hmap & _)].
  - rewrite <- Hok2. apply World_ok_ext; reflexivity.
  - apply World_ok_new_food; assumption.
Qed.

Lemma World_ok_snoc_entity (w : World) (entity : Entity) (n : Z) :
  World_ok w = true -> Entity_ok (Map_size w) entity = true ->
  0 <= n <= Entity_MAX_ID ->
  World_ok (set_Entity_list (Entity_list w ++ [entity]) (set_Entity_nEntities n w)) = true.
Proof.
  intros Hok He Hn. apply World_ok_parts in Hok as (Hf & Hl & _).
  unfold World_ok.
  cbn [Map_size Food_list Entity_list Entity_nEntities set_Entity_list set_Entity_nEntities].
  rewrite Hf, forallb_app, Hl. cbn [forallb andb]. rewrite He. cbn [andb].
  apply andb_true_intro. split; apply Z.leb_le; lia.
Qed.

Lemma next_id_range (n : Z) : 0 <= n -> 0 < next_id n <= Entity_MAX_ID.
Proof.
  intros Hn. unfold next_id.
  destruct (Z.ltb_spec n Entity_MAX_ID); [lia|]. vm_compute. split; [reflexivity|discriminate].
Qed.

(** [Entity.new] either raises and changes nothing, or appends an agent
    that is on the map with its values in range. *)
Lemma Entity_new_World_ok (w : World) (x y energy time : Z) (r : outcome Z) (w' : World) :
  World_ok w = true -> Entity_new (x, y) energy time w = (r, w') -> World_ok w' = true.
Proof.
  intros Hok. pose proof Hok as Hok0.
  apply World_ok_parts in Hok0 as (_ & _ & Hn).
  pose proof (next_id_range (Entity_nEntities w) (proj1 Hn)) as Hid.
  unfold Entity_new, Entity_init, Element_init, Element_x_set, Element_y_set,
    Entity_energy_set, Entity_time_set, Entity_len.
  unfold_monad.
  destruct (in_range (fst (Map_size w)) x) eqn:Ex; cbn; [|intros [= <- <-]; exact Hok].
  destruct (in_range (snd (Map_size w)) y) eqn:Ey; cbn; [|intros [= <- <-]; exact Hok].
  assert (Hnew : forall e t a,
            0 <= e <= Entity_ENERGY_MAX -> -1 <= t < Entity_TIME_MAX ->
            World_ok (set_Entity_list
                        (Entity_list w ++
                         [mkEntity x y e t a Entity_RANGE_DEF (next_id (Entity_nEntities w))])
                        (set_Entity_nEntities (next_id (Entity_nEntities w)) w)) = true).
  { intros e t a He Ht. apply World_ok_snoc_entity; [exact Hok| |lia].
    unfold Entity_ok. cbn. rewrite Ex, Ey. cbn.
    repeat (apply andb_true_intro; split); try apply Z.leb_le; try apply Z.ltb_lt;
      try apply Z.eqb_eq; try lia; reflexivity. }
  unfold Entity_ENERGY_MAX, Entity_TIME_MAX in *.
  destruct (Z.gtb_spec energy 9999); [|destruct (Z.ltb_spec energy 0)]; cbn;
    (destruct (in_range 4000 time) eqn:Et; cbn;
     [unfold in_range in Et; apply andb_prop in Et as [Et1 Et2];
      apply Z.leb_le in Et1; apply Z.ltb_lt in Et2|]);
    intros [= <- <-]; apply Hnew; cbn; lia.
Qed.

(** [Food.new] with its points either raises and changes nothing, or
    appends a Food that is on the map. *)
Lemma Food_new_World_ok (w : World) (x y pts : Z) (r : outcome Z) (w' : World) :
  World_ok w = true -> Food_new (x, y) (Some pts) w = (r, w') -> World_ok w' = true.
Proof.
  intros Hok. pose proof Hok as Hok0.
  apply World_ok_parts in Hok0 as (Hf & Hl & Hn).
  unfold Food_new, Food_init, Element_init, Element_x_set, Element_y_set, Food_pts_set, Food_len.
  unfold_monad.
  destruct (in_range (fst (Map_size w)) x) eqn:Ex; cbn; [|intros [= <- <-]; exact Hok].
  destruct (in_range (snd (Map_size w)) y) eqn:Ey; cbn; [|intros [= <- <-]; exact Hok].
  assert (Hnew : forall p, (0 <? p) && (p <=? Food_PTS_MAX) = true ->
            World_ok (set_Food_list (Food_list w ++ [mkFood x y p]) w) = true).
  { intros p Hp. unfold World_ok.
    cbn [Map_size Food_list Entity_list Entity_nEntities set_Food_list].
    rewrite Hl, forallb_app, Hf. cbn [forallb andb].
    unfold Food_ok at 1. cbn [Food_x Food_y Food_pts]. rewrite Ex, Ey. cbn [andb].
    apply andb_prop in Hp as [Hp1 Hp2]. rewrite Hp1, Hp2. cbn [andb].
    apply andb_true_intro. split; apply Z.leb_le; lia. }
  destruct ((0 <? pts) && (pts <=? Food_PTS_MAX)) eqn:Ep; cbn;
    intros [= <- <-]; apply Hnew; [exact Ep|reflexivity].
Qed.

(** * Further properties of the code *)

(** ** Big-endian integers, both ways *)

Lemma from_bytes_range (data : list byte) :
  0 <= from_bytes data < 256 ^ Z.of_nat (length data).
Proof.
  induction data as [|b data IH] using rev_ind.
  - cbn. lia.
  - rewrite from_bytes_snoc, length_app. cbn [length].
    replace (Z.of_nat (length data + 1)) with (Z.of_nat (length data) + 1) by lia.
    rewrite Z.pow_add_r by lia.
    pose proof (byte.unsigned_range b) as Hb. change (2 ^ 8) with 256 in Hb. lia.
Qed.

Lemma to_from_bytes (data : list byte) : to_bytes (length data) (from_bytes data) = data.
Proof.
  induction data as [|b data IH] using rev_ind; [reflexivity|].
  rewrite from_bytes_snoc, length_app, Nat.add_comm. cbn [length Nat.add to_bytes].
  pose proof (byte.unsigned_range b) as Hb. change (2 ^ 8) with 256 in Hb.
  replace ((from_bytes data * 256 + byte.unsigned b) / 256) with (from_bytes data).
  2:{ rewrite Z.div_add_l by lia. rewrite Z.div_small by lia. lia. }
  rewrite IH. f_equal. f_equal.
  apply byte.unsigned_inj. rewrite byte.unsigned_of_Z. unfold byte.wrap.
  change (2 ^ 8) with 256. rewrite Z.add_comm, Z.mod_add by lia. apply Z.mod_small; lia.
Qed.

(** Reading one field from any file. *)
Lemma bind_read_int {A} (size : Z) (name : string)
      (k : Z -> M (list byte * World) A) (file : list byte) (w : World) :
  0 <= size ->
  bind (Save_read_int size name) k (file, w) =
  if (Z.to_nat size <=? length file)%nat
  then k (from_bytes (firstn (Z.to_nat size) file)) (skipn (Z.to_nat size) file, w)
  else (Raise (Exn ValueError (CouldNotRead name)), (skipn (Z.to_nat size) file, w)).
Proof.
  intros Hs. unfold Save_read_int. rewrite !bind_assoc.
  unfold bind, self, set_self; cbn [fst snd].
  destruct (Nat.leb_spec (Z.to_nat size) (length file)) as [Hle|Hlt];
    destruct (Z.eqb_spec (Z.of_nat (length (firstn (Z.to_nat size) file))) size) as [E|E];
    rewrite length_firstn in E; try lia; reflexivity.
Qed.

(** X1. [to_bytes] and [from_bytes], as [_write_int] and [_read_int] use
    them, are inverse of each other at a fixed width: a value below
    256^size is written on exactly [size] bytes and read back unchanged, and
    any byte string is the big-endian writing, on its own length, of the
    integer it reads as, which is below 256^length.  Accordingly [_read_int]
    on a file that starts with the bytes [_write_int] produced for a value
    returns that value and leaves the rest of the file to be read. *)
Theorem bytes_roundtrip :
  (forall (size : nat) (value : Z), 0 <= value < 256 ^ Z.of_nat size ->
     length (to_bytes size value) = size /\ from_bytes (to_bytes size value) = value)
  /\ (forall data : list byte,
        0 <= from_bytes data < 256 ^ Z.of_nat (length data)
        /\ to_bytes (length data) (from_bytes data) = data)
  /\ (forall (size value : Z) (written_as name : string) (rest : list byte) (w : World),
        0 <= size -> 0 <= value < 2 ^ (size * 8) ->
        exists written,
          Save_write_int size value written_as ([], w) = (Return tt, (written, w))
          /\ Z.of_nat (length written) = size
          /\ Save_read_int size name (written ++ rest, w) = (Return value, (rest, w))).
Proof.
  split; [|split].
  - intros size value Hv. split; [apply length_to_bytes | apply from_to_bytes; exact Hv].
  - intros data. split; [apply from_bytes_range | apply to_from_bytes].
  - intros size value written_as name rest w Hs Hv.
    assert (Hfit : fits (Field size value written_as) = true).
    { unfold fits; cbn [field_value field_size].
      apply andb_true_intro; split; [apply Z.leb_le | apply Z.ltb_lt]; lia. }
    exists (to_bytes (Z.to_nat size) value). split; [|split].
    + unfold Save_write_int. unfold fits in Hfit; cbn [field_value field_size] in Hfit.
      rewrite Hfit. reflexivity.
    + rewrite length_to_bytes. lia.
    + pose proof (bind_read_int_firstn size value written_as name ret
                    (Z.to_nat size + length rest) rest w Hs Hfit) as H.
      unfold field_bytes in H; cbn [field_size field_value] in H.
      rewrite firstn_all2 in H by (rewrite length_app, length_to_bytes; lia).
      destruct (Nat.leb_spec (Z.to_nat size) (Z.to_nat size + length rest)); [|lia].
      replace (Z.to_nat size + length rest - Z.to_nat size)%nat with (length rest) in H by lia.
      rewrite firstn_all in H.
      unfold bind in H. destruct (Save_read_int size name _) as [[v| |] s]; 
        unfold ret in H; congruence.
Qed.

Lemma bytes_roundtrip_witness :
  0 <= 258 < 256 ^ Z.of_nat 2
  /\ to_bytes 2 258 = [Byte.x01; Byte.x02]
  /\ from_bytes (to_bytes 2 258) = 258.
Proof.
  split; [vm_compute; split; [discriminate | reflexivity]|].
  split; [reflexivity|].
  apply (proj1 bytes_roundtrip 2%nat 258). vm_compute. split; [discriminate | reflexivity].
Defined.

(** ** [Save.save] as a whole *)

(** X2. [Save.save] returns exactly when every value of the world fits the
    width of its field; the file then holds the complete record, of
    24 + 6 * foods + 10 * agents bytes.  In every other case it raises a
    [ValueError] whose text starts with "Value error: ", and nothing else:
    the failure of the backup copy, when no save file exists yet, is
    swallowed. *)
Theorem Save_save_outcomes (w : World) :
  ((exists w', Save_save w = (Return tt, w')) <-> saveable w = true)
  /\ (saveable w = true ->
      exists w', Save_save w = (Return tt, w')
                 /\ file_save w' = Some (record_bytes w)
                 /\ length (record_bytes w)
                    = (24 + 6 * length (Food_list w) + 10 * length (Entity_list w))%nat)
  /\ (saveable w = false ->
      exists m w', Save_save w = (Raise (Exn ValueError (Wrapped "Value error: " m)), w')).
Proof.
  rewrite Save_save_fields. unfold saveable.
  destruct (first_misfit (record_fields w)) as [f|] eqn:E.
  - apply first_misfit_Some in E as [Hin Hf].
    assert (Hno : forallb fits (record_fields w) = false).
    { destruct (forallb fits (record_fields w)) eqn:Hall; [|reflexivity].
      rewrite (forallb_In _ _ _ Hall Hin) in Hf. discriminate. }
    rewrite Hno. split; [|split].
    + split; [intros [w' H]; discriminate | discriminate].
    + discriminate.
    + intros _. eexists _, _. reflexivity.
  - apply first_misfit_None in E. rewrite E. split; [|split].
    + split; [reflexivity | intros _; eexists; reflexivity].
    + intros _. eexists. split; [reflexivity|]. split; [reflexivity|].
      rewrite length_record_bytes. lia.
    + discriminate.
Qed.

Lemma Save_save_outcomes_witness :
  saveable fed_world = true
  /\ exists w', Save_save fed_world = (Return tt, w')
                /\ file_save w' = Some (record_bytes fed_world)
                /\ length (record_bytes fed_world) = 40%nat.
Proof.
  split; [vm_compute; reflexivity|].
  apply (proj1 (proj2 (Save_save_outcomes fed_world))). vm_compute. reflexivity.
Defined.

(** X3. Whatever its outcome, [Save.save] changes nothing of the
    simulation: the map size, both lists, the id counter and the timers of
    the [Save] object are as before (the time written to the file is not
    stored back).  Only the two files change: the save file is rewritten,
    and the backup holds what the save file held before the call when there
    was one, and is left alone otherwise. *)
Theorem Save_save_frame (w : World) (r : outcome unit) (w' : World) :
  Save_save w = (r, w') ->
  (exists written, w' = set_file_save (Some written) (backed_up w))
  /\ Map_size w' = Map_size w /\ Food_list w' = Food_list w
  /\ Entity_list w' = Entity_list w /\ Entity_nEntities w' = Entity_nEntities w
  /\ save_time w' = save_time w /\ save_last w' = save_last w
  /\ tape w' = tape w /\ stdout w' = stdout w
  /\ file_backup w' = match file_save w with
                      | Some content => Some content
                      | None => file_backup w
                      end.
Proof.
  rewrite Save_save_fields. intros H.
  assert (Hw : exists written, w' = set_file_save (Some written) (backed_up w)).
  { destruct (first_misfit (record_fields w)); injection H as _ <-; eexists; reflexivity. }
  split; [exact Hw|]. destruct Hw as [written ->].
  unfold backed_up. destruct (file_save w); repeat split; reflexivity.
Qed.

Lemma Save_save_frame_witness :
  Food_list (snd (Save_save reset_agent_world)) = Food_list reset_agent_world
  /\ file_backup (snd (Save_save reset_agent_world)) = Some [Byte.x2a].
Proof.
  pose proof (Save_save_frame reset_agent_world (fst (Save_save reset_agent_world))
                (snd (Save_save reset_agent_world))) as H.
  destruct H as (_ & _ & Hfoods & _ & _ & _ & _ & _ & _ & Hbackup).
  - vm_compute. reflexivity.
  - split; [exact Hfoods | exact Hbackup].
Defined.

(** ** The constructors, case by case *)

Lemma Food_new_cases (w : World) (x y pts : Z) :
  Food_new (x, y) (Some pts) w =
  if in_range (fst (Map_size w)) x then
    if in_range (snd (Map_size w)) y then
      (Return (Z.of_nat (length (Food_list w ++ [built_Food x y pts]))),
       set_Food_list (Food_list w ++ [built_Food x y pts]) w)
    else (Raise (Exn ValueError (MustBeIn "y" y (snd (Map_size w)))), w)
  else (Raise (Exn ValueError (MustBeIn "x" x (fst (Map_size w)))), w).
Proof.
  unfold Food_new, Food_init, Element_init, Element_x_set, Element_y_set, Food_pts_set,
    Food_len, built_Food.
  unfold_monad.
  destruct (in_range (fst (Map_size w)) x); cbn; [|reflexivity].
  destruct (in_range (snd (Map_size w)) y); cbn; [|reflexivity].
  destruct ((0 <? pts) && (pts <=? Food_PTS_MAX)); reflexivity.
Qed.

Lemma Entity_new_cases (w : World) (x y energy time : Z) :
  Entity_new (x, y) energy time w =
  if in_range (fst (Map_size w)) x then
    if in_range (snd (Map_size w)) y then
      let entity := built_Entity x y energy time (next_id (Entity_nEntities w)) in
      (Return (Z.of_nat (length (Entity_list w ++ [entity]))),
       set_Entity_list (Entity_list w ++ [entity])
         (set_Entity_nEntities (next_id (Entity_nEntities w)) w))
    else (Raise (Exn ValueError (MustBeIn "y" y (snd (Map_size w)))), w)
  else (Raise (Exn ValueError (MustBeIn "x" x (fst (Map_size w)))), w).
Proof.
  unfold Entity_new, Entity_init, Element_init, Element_x_set, Element_y_set,
    Entity_energy_set, Entity_time_set, Entity_len, built_Entity, next_id.
  unfold_monad.
  destruct (in_range (fst (Map_size w)) x); cbn; [|reflexivity].
  destruct (in_range (snd (Map_size w)) y); cbn; [|reflexivity].
  destruct (energy >? Entity_ENERGY_MAX); cbn;
    [|destruct (energy <? 0); cbn];
    destruct (in_range Entity_TIME_MAX time); reflexivity.
Qed.

Lemma built_Food_ok (size : Z * Z) (x y pts : Z) :
  in_range (fst size) x = true -> in_range (snd size) y = true ->
  Food_ok size (built_Food x y pts) = true.
Proof.
  intros Hx Hy. unfold Food_ok, built_Food. cbn [Food_x Food_y Food_pts].
  rewrite Hx, Hy. cbn [andb].
  destruct ((0 <? pts) && (pts <=? Food_PTS_MAX)) eqn:E; [exact E | reflexivity].
Qed.

Lemma built_Entity_ok (size : Z * Z) (x y energy time id : Z) :
  in_range (fst size) x = true -> in_range (snd size) y = true ->
  0 < id <= Entity_MAX_ID ->
  Entity_ok size (built_Entity x y energy time id) = true.
Proof.
  intros Hx Hy Hid. unfold Entity_ok, built_Entity.
  destruct (in_range Entity_TIME_MAX time) eqn:Et;
    cbn [Entity_x Entity_y Entity_energy Entity_time Entity_id Entity_range];
    rewrite Hx, Hy; cbn [andb].
  - unfold in_range in Et. apply andb_prop in Et as [Et1 Et2].
    apply Z.leb_le in Et1. apply Z.ltb_lt in Et2.
    unfold Entity_ENERGY_MAX, Entity_TIME_MAX, Entity_RANGE_DEF in *.
    rewrite !andb_true_iff, !Z.leb_le, !Z.ltb_lt, Z.eqb_eq.
    destruct (Z.gtb_spec energy 9999); [lia|].
    destruct (Z.ltb_spec energy 0); lia.
  - unfold Entity_ENERGY_MAX, Entity_TIME_MAX, Entity_RANGE_DEF in *.
    rewrite !andb_true_iff, !Z.leb_le, !Z.ltb_lt, Z.eqb_eq. lia.
Qed.

(** ** [Save.load] on any file *)

Lemma same_outside_refl (w : World) : same_outside w w.
Proof. unfold same_outside. tauto. Qed.

Lemma same_outside_trans (w1 w2 w3 : World) :
  same_outside w1 w2 -> same_outside w2 w3 -> same_outside w1 w3.
Proof. unfold same_outside. intuition congruence. Qed.

(** The food section of any file: the loop ends within the file's length,
    by a return or a [ValueError], and all it does to the world is to append
    valid Food to [Food.list]. *)
Lemma read_food_loop_any (rounds : nat) :
  forall (file : list byte) (w : World),
  (length file < rounds)%nat ->
  exists r file' foods,
    read_food_loop rounds (file, w) = (r, (file', set_Food_list (Food_list w ++ foods) w))
    /\ (r = Return tt \/ exists m, r = Raise (Exn ValueError m))
    /\ forallb (Food_ok (Map_size w)) foods = true.
Proof.
  induction rounds as [|k IH]; intros file w Hr; [lia|].
  assert (Hstop : forall (r : outcome unit) (file' : list byte),
    (r = Return tt \/ exists m, r = Raise (Exn ValueError m)) ->
    exists r0 file0 foods,
      (r, (file', w)) = (r0, (file0, set_Food_list (Food_list w ++ foods) w))
      /\ (r0 = Return tt \/ exists m, r0 = Raise (Exn ValueError m))
      /\ forallb (Food_ok (Map_size w)) foods = true).
  { intros r file' Hshape. exists r, file', [].
    rewrite app_nil_r, set_Food_list_same. auto. }
  cbn [read_food_loop].
  rewrite bind_read_int by (vm_compute; discriminate).
  change (Z.to_nat Food_NBYTES_PTS) with 2%nat.
  destruct (Nat.leb_spec 2 (length file)) as [H2|H2]; [|apply Hstop; eauto].
  destruct (from_bytes (firstn 2 file) =? 0); [apply Hstop; auto|].
  rewrite bind_read_int by (vm_compute; discriminate).
  change (Z.to_nat Save_NBYTES_COORD) with 2%nat.
  destruct (Nat.leb_spec 2 (length (skipn 2 file))) as [H4|H4]; [|apply Hstop; eauto].
  rewrite bind_read_int by (vm_compute; discriminate).
  change (Z.to_nat Save_NBYTES_COORD) with 2%nat.
  destruct (Nat.leb_spec 2 (length (skipn 2 (skipn 2 file)))) as [H6|H6];
    [|apply Hstop; eauto].
  unfold bind at 1. unfold liftW at 1. cbn [fst snd].
  rewrite Food_new_cases.
  destruct (in_range (fst (Map_size w)) _) eqn:Hx; [|apply Hstop; eauto].
  destruct (in_range (snd (Map_size w)) _) eqn:Hy; [|apply Hstop; eauto].
  match goal with
  | |- context [built_Food ?x ?y ?p] => set (food := built_Food x y p) in *
  end.
  destruct (IH (skipn 2 (skipn 2 (skipn 2 file)))
               (set_Food_list (Food_list w ++ [food]) w)) as (r & file' & foods & E & Hs & Hok).
  { rewrite !length_skipn in *. lia. }
  rewrite E. exists r, file', (food :: foods). split; [|split].
  - cbn [Food_list set_Food_list]. rewrite <- app_assoc. reflexivity.
  - exact Hs.
  - cbn [Map_size set_Food_list] in Hok. cbn [forallb]. rewrite Hok, andb_true_r.
    apply built_Food_ok; assumption.
Qed.

(** The agent section of any file, likewise; each agent read takes the next
    id of the counter. *)
Lemma read_entity_loop_any (rounds : nat) :
  forall (file : list byte) (w : World),
  (length file < rounds)%nat ->
  exists r file' entities n,
    read_entity_loop rounds (file, w)
    = (r, (file', set_Entity_list (Entity_list w ++ entities) (set_Entity_nEntities n w)))
    /\ (r = Return tt \/ exists m, r = Raise (Exn ValueError m))
    /\ (0 <= Entity_nEntities w <= Entity_MAX_ID ->
        forallb (Entity_ok (Map_size w)) entities = true /\ 0 <= n <= Entity_MAX_ID).
Proof.
  induction rounds as [|k IH]; intros file w Hr; [lia|].
  assert (Hstop : forall (r : outcome unit) (file' : list byte),
    (r = Return tt \/ exists m, r = Raise (Exn ValueError m)) ->
    exists r0 file0 entities n,
      (r, (file', w))
      = (r0, (file0, set_Entity_list (Entity_list w ++ entities) (set_Entity_nEntities n w)))
      /\ (r0 = Return tt \/ exists m, r0 = Raise (Exn ValueError m))
      /\ (0 <= Entity_nEntities w <= Entity_MAX_ID ->
          forallb (Entity_ok (Map_size w)) entities = true /\ 0 <= n <= Entity_MAX_ID)).
  { intros r file' Hshape. exists r, file', [], (Entity_nEntities w).
    rewrite app_nil_r, set_counter_same. auto. }
  cbn [read_entity_loop].
  rewrite bind_read_int by (vm_compute; discriminate).
  change (Z.to_nat Entity_NBYTES_ID) with 2%nat.
  destruct (Nat.leb_spec 2 (length file)) as [H2|H2]; [|apply Hstop; eauto].
  destruct (from_bytes (firstn 2 file) =? 0); [apply Hstop; auto|].
  rewrite bind_read_int by (vm_compute; discriminate).
  change (Z.to_nat Save_NBYTES_COORD) with 2%nat.
  destruct (Nat.leb_spec 2 (length (skipn 2 file))) as [H4|H4]; [|apply Hstop; eauto].
  rewrite bind_read_int by (vm_compute; discriminate).
  change (Z.to_nat Save_NBYTES_COORD) with 2%nat.
  destruct (Nat.leb_spec 2 (length (skipn 2 (skipn 2 file)))) as [H6|H6];
    [|apply Hstop; eauto].
  rewrite bind_read_int by (vm_compute; discriminate).
  change (Z.to_nat Entity_NBYTES_ENERGY) with 2%nat.
  destruct (Nat.leb_spec 2 (length (skipn 2 (skipn 2 (skipn 2 file))))) as [H8|H8];
    [|apply Hstop; eauto].
  rewrite bind_read_int by (vm_compute; discriminate).
  change (Z.to_nat Entity_NBYTES_TIME) with 2%nat.
  destruct (Nat.leb_spec 2 (length (skipn 2 (skipn 2 (skipn 2 (skipn 2 file))))))
    as [H10|H10]; [|apply Hstop; eauto].
  unfold bind at 1. unfold liftW at 1. cbn [fst snd].
  rewrite Entity_new_cases.
  destruct (in_range (fst (Map_size w)) _) eqn:Hx; [|apply Hstop; eauto].
  destruct (in_range (snd (Map_size w)) _) eqn:Hy; [|apply Hstop; eauto].
  cbv zeta.
  match goal with
  | |- context [built_Entity ?x ?y ?en ?t ?i] => set (entity := built_Entity x y en t i) in *
  end.
  destruct (IH (skipn 2 (skipn 2 (skipn 2 (skipn 2 (skipn 2 file)))))
               (set_Entity_list (Entity_list w ++ [entity])
                  (set_Entity_nEntities (next_id (Entity_nEntities w)) w)))
    as (r & file' & entities & n & E & Hs & Hok).
  { rewrite !length_skipn in *. lia. }
  rewrite E. exists r, file', (entity :: entities), n. split; [|split].
  - cbn [Entity_list set_Entity_list set_Entity_nEntities]. rewrite <- app_assoc. reflexivity.
  - exact Hs.
  - intros Hn. pose proof (next_id_range (Entity_nEntities w) (proj1 Hn)) as Hid.
    destruct Hok as [Hok Hn'].
    { cbn [Entity_nEntities set_Entity_list set_Entity_nEntities]. lia. }
    split; [|exact Hn'].
    cbn [forallb]. cbn [Map_size set_Entity_list set_Entity_nEntities] in Hok.
    rewrite Hok, andb_true_r. apply built_Entity_ok; assumption.
Qed.

Ltac load_stops :=
  cbn [reraise exn_class_of exn_message raise];
  eexists _, _; split; [reflexivity|];
  split; [unfold same_outside; cbn; tauto|];
  split; [right; eexists; reflexivity | discriminate].

Lemma Save_load_any (w : World) (content : list byte) :
  file_save w = Some content ->
  exists r w',
    Save_load w = (r, w')
    /\ same_outside w w'
    /\ (r = Return tt \/ exists m, r = Raise (Exn ValueError (Wrapped "Value error: " m)))
    /\ (r = Return tt -> 0 <= Entity_nEntities w <= Entity_MAX_ID -> World_ok w' = true).
Proof.
  intros Hfile. unfold Save_load, catch, with_open_rb. rewrite Hfile.
  rewrite bind_read_int by (vm_compute; discriminate).
  change (Z.to_nat Save_NBYTES_TIME) with 8%nat.
  destruct (Nat.leb_spec 8 (length content)) as [H8|H8]; [|load_stops].
  unfold bind at 1. unfold liftW at 1, modify. cbn [fst snd].
  rewrite bind_read_int by (vm_compute; discriminate).
  change (Z.to_nat Save_NBYTES_TIME) with 8%nat.
  destruct (Nat.leb_spec 8 (length (skipn 8 content))) as [H16|H16]; [|load_stops].
  unfold bind at 1. unfold liftW at 1. cbn [fst snd].
  match goal with
  | |- context [Save_time_set ?t ?w1] =>
      destruct (Save_time_set_frame t w1) as (t' & age & energy & E & _); rewrite E; clear E
  end.
  rewrite bind_read_int by (vm_compute; discriminate).
  change (Z.to_nat Save_NBYTES_COORD) with 2%nat.
  destruct (Nat.leb_spec 2 (length (skipn 8 (skipn 8 content)))) as [H18|H18]; [|load_stops].
  rewrite bind_read_int by (vm_compute; discriminate).
  change (Z.to_nat Save_NBYTES_COORD) with 2%nat.
  destruct (Nat.leb_spec 2 (length (skipn 2 (skipn 8 (skipn 8 content))))) as [H20|H20];
    [|load_stops].
  unfold bind at 1. unfold liftW at 1, modify. cbn [fst snd].
  match goal with
  | |- context [set_Map_size ?size ?w2] => set (w3 := set_Map_size size w2)
  end.
  set (file := skipn 2 (skipn 2 (skipn 8 (skipn 8 content)))).
  unfold Save_read_food. rewrite !bind_assoc.
  unfold bind at 1. unfold liftW at 1, modify. cbn [fst snd].
  rewrite bind_assoc. unfold bind at 1, self. cbn [fst snd].
  destruct (read_food_loop_any (S (length file)) file (set_Food_list [] w3))
    as (r & file1 & foods & E & Hs & Hfoods); [lia|].
  unfold bind at 1. rewrite E. clear E.
  destruct Hs as [-> | [m ->]]; [|load_stops].
  unfold Save_read_entity.
  unfold bind at 1. unfold liftW at 1, modify. cbn [fst snd].
  unfold bind at 1, self. cbn [fst snd].
  match goal with
  | |- context [read_entity_loop ?rounds (?f, ?w4)] =>
      destruct (read_entity_loop_any rounds f w4)
        as (r & file2 & entities & n & E & Hs & Hentities); [lia|]; rewrite E; clear E
  end.
  destruct Hs as [-> | [m ->]]; [|load_stops].
  eexists _, _. split; [reflexivity|].
  split; [unfold same_outside; cbn; tauto|].
  split; [left; reflexivity|].
  intros _ Hn. destruct Hentities as [Hentities Hn']; [exact Hn|].
  unfold World_ok. cbn in Hfoods, Hentities |- *.
  rewrite Hfoods, Hentities. cbn [andb].
  apply andb_true_intro; split; [apply Z.leb_le | apply Z.leb_le]; lia.
Qed.

(** X4. [Save.load] ends on every file, whatever bytes it holds: it
    returns, or raises the [IOError] "File error: ..." exactly when there is
    no save file (and then changes nothing at all), or raises a [ValueError]
    "Value error: ...".  In every case the two files, the terminal, the
    random tape and the settings of the simulation are left as they were. *)
Theorem Save_load_outcomes (w : World) (r : outcome unit) (w' : World) :
  Save_load w = (r, w') ->
  (r = Return tt
   \/ (r = Raise (Exn IOError (Wrapped "File error: " NoSuchFile)) /\ w' = w)
   \/ exists m, r = Raise (Exn ValueError (Wrapped "Value error: " m)))
  /\ (file_save w = None <-> exists e, r = Raise e /\ exn_class_of e = IOError)
  /\ same_outside w w'.
Proof.
  intros H. destruct (file_save w) as [content|] eqn:Hfile.
  - destruct (Save_load_any w content Hfile) as (r0 & w0 & E & Hsame & Hs & _).
    rewrite E in H. injection H as <- <-.
    split; [|split].
    + destruct Hs as [-> | [m ->]]; [left; reflexivity | right; right; eauto].
    + split; [discriminate|]. intros (e & -> & He).
      destruct Hs as [Hs | [m Hs]]; [discriminate|].
      injection Hs as ->. discriminate.
    + exact Hsame.
  - unfold Save_load, catch, with_open_rb in H. rewrite Hfile in H.
    cbn [reraise exn_class_of exn_message raise] in H. injection H as <- <-.
    split; [right; left; split; reflexivity|].
    split; [|apply same_outside_refl].
    split; [intros _; eexists; split; reflexivity | reflexivity].
Qed.

Lemma Save_load_outcomes_witness :
  fst (Save_load (empty_world (5, 5)))
    = Raise (Exn IOError (Wrapped "File error: " NoSuchFile))
  /\ same_outside cut_file_world (snd (Save_load cut_file_world)).
Proof.
  split; [reflexivity|].
  apply (Save_load_outcomes cut_file_world (fst (Save_load cut_file_world))).
  vm_compute. reflexivity.
Defined.

(** X5. A [Save.load] that returns leaves a well-formed world, whatever
    bytes the file held: every Food and every agent it created is on the
    map the file declared, energies are within [0, 9999], times within
    [-1, 4000), points within [1, 65536], ids within [1, 65536]: the
    setters clamp or reset what the file has out of range.  The id counter
    is assumed within [0, 65536], as it is from the start of the program. *)
Theorem Save_load_well_formed (w w' : World) :
  0 <= Entity_nEntities w <= Entity_MAX_ID ->
  Save_load w = (Return tt, w') ->
  World_ok w' = true.
Proof.
  intros Hn H. destruct (file_save w) as [content|] eqn:Hfile.
  - destruct (Save_load_any w content Hfile) as (r0 & w0 & E & _ & _ & Hok).
    rewrite E in H. injection H as -> ->. apply Hok; [reflexivity | exact Hn].
  - unfold Save_load, catch, with_open_rb in H. rewrite Hfile in H. discriminate.
Qed.

Lemma Save_load_well_formed_witness :
  exists w',
    Save_load crafted_world = (Return tt, w')
    /\ Map_size w' = (5, 5)
    /\ Entity_list w' = [mkEntity 1 1 9999 100 2 10 1]
    /\ World_ok w' = true.
Proof.
  eexists. split; [vm_compute; reflexivity|]. split; [reflexivity|]. split; [reflexivity|].
  eapply (Save_load_well_formed crafted_world).
  - vm_compute. split; discriminate.
  - vm_compute. reflexivity.
Defined.

(** ** [Map.rmdCoord] *)

Lemma randint_outcomes (a b : Z) (w : World) (r : outcome Z) (w' : World) :
  randint a b w = (r, w') ->
  (exists used, tape w = used ++ tape w')
  /\ (forall e, r = Raise e -> e = Exn ValueError EmptyRange /\ b < a).
Proof.
  unfold randint. destruct (Z.ltb_spec b a) as [Hlt|Hle].
  - intros [= <- <-]. split; [exists []; reflexivity|]. intros e [= <-]. auto.
  - unfold bind, draw. destruct (tape w) as [|d rest] eqn:Et.
    + intros [= <- <-]. split; [exists []; symmetry; exact Et | discriminate].
    + intros [= <- <-]. split; [exists [d]; reflexivity | discriminate].
Qed.

(** The sampling loop consumes draws from the front of the tape, and raises
    only on a map with a dimension that is not positive. *)
Lemma rmdCoord_loop_outcomes {T} `{Element T} (rounds : nat) (datas : list T) :
  forall (w : World) (r : outcome (Z * Z)) (w' : World),
  rmdCoord_loop rounds datas w = (r, w') ->
  (exists used, tape w = used ++ tape w')
  /\ (forall e, r = Raise e ->
        e = Exn ValueError EmptyRange
        /\ (fst (Map_size w) <= 0 \/ snd (Map_size w) <= 0)).
Proof.
  induction rounds as [|k IH]; intros w r w'.
  - intros [= <- <-]. split; [exists []; reflexivity | discriminate].
  - cbn [rmdCoord_loop]. unfold bind at 1, gets.
    unfold bind at 1.
    destruct (randint 0 (fst (Map_size w) - 1) w) as [rx w1] eqn:Ex.
    destruct (randint_frame _ _ _ _ _ Ex) as ((tp1 & Hw1) & _).
    destruct (randint_outcomes _ _ _ _ _ Ex) as ((u1 & Hu1) & Hx). subst w1.
    destruct rx as [x|e|].
    2:{ intros [= <- <-]. split; [eauto|]. intros e' [= <-].
        destruct (Hx e eq_refl) as [-> Hlt]. split; [reflexivity | left; lia]. }
    2:{ intros [= <- <-]. split; [eauto | discriminate]. }
    unfold bind at 1.
    destruct (randint 0 (snd (Map_size w) - 1) (set_tape tp1 w)) as [ry w2] eqn:Ey.
    destruct (randint_frame _ _ _ _ _ Ey) as ((tp2 & Hw2) & _).
    destruct (randint_outcomes _ _ _ _ _ Ey) as ((u2 & Hu2) & Hy). subst w2.
    cbn [tape set_tape] in Hu1, Hu2.
    assert (Hused : exists used, tape w = used ++ tp2)
      by (exists (u1 ++ u2); rewrite <- app_assoc, <- Hu2; exact Hu1).
    destruct ry as [y|e|].
    2:{ intros [= <- <-]. split; [exact Hused|]. intros e' [= <-].
        destruct (Hy e eq_refl) as [-> Hlt]. split; [reflexivity | right].
        cbn [Map_size set_tape] in Hlt. lia. }
    2:{ intros [= <- <-]. split; [exact Hused | discriminate]. }
    destruct (occupied datas x y); cbn [negb].
    + intros Hl. destruct (IH _ _ _ Hl) as ((u3 & Hu3) & Hr).
      cbn [tape set_tape Map_size] in Hu3, Hr.
      split; [|exact Hr]. destruct Hused as [used Hused].
      exists (used ++ u3). rewrite <- app_assoc, <- Hu3. exact Hused.
    + intros [= <- <-]. split; [exact Hused | discriminate].
Qed.

(** X6. [Map.rmdCoord(datas)] answers [None], without drawing, exactly when
    the area of the map does not exceed the number of objects given.
    Otherwise it draws pairs from the random generator and nothing else of
    the world changes; a coordinate it returns is on the map and holds no
    object of [datas]; it raises only the [ValueError] of [randint], and only
    on a map with a dimension that is not positive; and on a map with
    positive dimensions, when the first pair drawn falls on a free place,
    that place is returned and exactly two draws are used. *)
Theorem Map_rmdCoord_free (T : Type) (E : Element T) (datas : list T) (w : World)
        (r : outcome (option (Z * Z))) (w' : World) :
  Map_rmdCoord datas w = (r, w') ->
  let area := fst (Map_size w) * snd (Map_size w) in
  (exists used, tape w = used ++ tape w' /\ w' = set_tape (tape w') w)
  /\ (area <= Z.of_nat (length datas) <-> r = Return None)
  /\ (area <= Z.of_nat (length datas) -> w' = w)
  /\ (forall x y, r = Return (Some (x, y)) ->
        on_map (Map_size w) x y = true /\ occupied datas x y = false)
  /\ (forall e, r = Raise e ->
        e = Exn ValueError EmptyRange
        /\ (fst (Map_size w) <= 0 \/ snd (Map_size w) <= 0))
  /\ (forall r1 r2 rest,
        Z.of_nat (length datas) < area ->
        0 < fst (Map_size w) -> 0 < snd (Map_size w) ->
        tape w = r1 :: r2 :: rest ->
        occupied datas (r1 mod fst (Map_size w)) (r2 mod snd (Map_size w)) = false ->
        r = Return (Some (r1 mod fst (Map_size w), r2 mod snd (Map_size w)))
        /\ w' = set_tape rest w).
Proof.
  intros Hrun area. unfold Map_rmdCoord in Hrun.
  unfold bind at 1, gets at 1 in Hrun. cbv beta iota in Hrun. fold area in Hrun.
  destruct (Z.gtb_spec area (Z.of_nat (length datas))) as [Hgt|Hle].
  - unfold bind at 1, gets at 1 in Hrun. cbv beta iota in Hrun.
    unfold bind at 1 in Hrun.
    destruct (rmdCoord_loop (S (length (tape w))) datas w) as [rc w1] eqn:El.
    destruct (rmdCoord_loop_frame _ _ _ _ _ El) as ((tp & Hw1) & Hc).
    destruct (rmdCoord_loop_outcomes _ _ _ _ _ El) as (Hused & He).
    assert (Hw' : w' = w1 /\ w1 = set_tape (tape w1) w).
    { split; [destruct rc; unfold ret in Hrun; congruence|].
      subst w1. reflexivity. }
    destruct Hw' as [-> Hw1'].
    split; [destruct Hused as [used Hu]; exists used; split; assumption|].
    split; [split; [lia|]; intros ->; destruct rc; discriminate|].
    split; [lia|].
    split; [intros x y ->; destruct rc as [[x' y']| |]; try discriminate;
            injection Hrun as <- <-; apply Hc; reflexivity|].
    split; [intros e ->; destruct rc as [c|e'|]; try discriminate;
            injection Hrun as <-; apply He; reflexivity|].
    intros r1 r2 rest _ Hx Hy Ht Hfree.
    rewrite (rmdCoord_loop_hit _ datas w r1 r2 rest Hx Hy Ht Hfree) in El.
    injection El as <- <-. unfold ret in Hrun. injection Hrun as <-.
    split; reflexivity.
  - unfold ret in Hrun. injection Hrun as <- <-.
    split; [exists []; split; [reflexivity | destruct w; reflexivity]|].
    split; [split; [reflexivity | intros _; lia]|].
    split; [reflexivity|].
    split; [discriminate|]. split; [discriminate|]. intros; lia.
Qed.

Lemma Map_rmdCoord_free_witness :
  Map_rmdCoord [mkFood 2 2 100] (set_tape [7; 7; 8; 4] (empty_world (5, 5)))
  = (Return (Some (3, 4)), set_tape [] (empty_world (5, 5)))
  /\ on_map (5, 5) 3 4 = true.
Proof.
  split; [reflexivity|].
  apply (Map_rmdCoord_free Food Food_Element [mkFood 2 2 100]
           (set_tape [7; 7; 8; 4] (empty_world (5, 5)))
           (Return (Some (3, 4))) (set_tape [] (empty_world (5, 5))));
    reflexivity.
Defined.

(** ** [Food.generate] *)

Lemma occupied_cell (foods : list Food) (x y : Z) :
  occupied foods x y = false -> ~ In (x, y) (map Food_cell foods).
Proof.
  unfold occupied. induction foods as [|f foods IH]; cbn [existsb map In]; [tauto|].
  intros H. apply orb_false_elim in H as [Hf Hrest].
  intros [Heq|Hin]; [|exact (IH Hrest Hin)].
  unfold Food_cell in Heq. injection Heq as <- <-.
  cbn [_x _y Food_Element] in Hf. rewrite !Z.eqb_refl in Hf. discriminate.
Qed.

Lemma Food_generate_outcomes (w : World) (r : outcome unit) (w' : World) :
  Food_generate w = (r, w') ->
  r = Return tt \/ r = Starved
  \/ (r = Raise (Exn ValueError EmptyRange)
      /\ (fst (Map_size w) <= 0 \/ snd (Map_size w) <= 0)).
Proof.
  unfold Food_generate, Food_len.
  unfold bind at 1. unfold bind at 1, gets, ret. cbv beta iota.
  unfold bind at 1. cbv beta iota.
  destruct (Z.of_nat (length (Food_list w)) <? Food_maxFoods w);
    [|intros Heq; injection Heq as <- _; auto].
  unfold bind at 1. cbv beta iota. unfold bind at 1.
  destruct (Map_rmdCoord (Food_list w) w) as [rc w1] eqn:Ec.
  unfold Map_rmdCoord in Ec.
  unfold bind at 1, gets at 1 in Ec. cbv beta iota in Ec.
  destruct (fst (Map_size w) * snd (Map_size w) >? Z.of_nat (length (Food_list w))).
  2:{ unfold ret in Ec. injection Ec as <- <-. intros Heq; injection Heq as <- _; auto. }
  unfold bind at 1, gets at 1 in Ec. cbv beta iota in Ec. unfold bind at 1 in Ec.
  destruct (rmdCoord_loop (S (length (tape w))) (Food_list w) w) as [rl w2] eqn:El.
  destruct (rmdCoord_loop_frame _ _ _ _ _ El) as ((tp & ->) & Hc).
  destruct (rmdCoord_loop_outcomes _ _ _ _ _ El) as (_ & He).
  destruct rl as [[x y]|e|]; unfold ret in Ec; injection Ec as <- <-.
  - destruct (Hc x y eq_refl) as [Hmap _]. apply andb_prop in Hmap as [Hx Hy].
    unfold bind at 1.
    rewrite Food_new_ok by (first [exact Hx | exact Hy | reflexivity]).
    intros Heq; injection Heq as <- _; auto.
  - intros Heq; injection Heq as <- _. destruct (He e eq_refl) as [-> Hdim]. auto.
  - intros Heq; injection Heq as <- _; auto.
Qed.

(** What one attempt adds. *)
Lemma Food_generate_added (w : World) (r : outcome unit) (w' : World) :
  Food_generate w = (r, w') ->
  Food_maxFoods w' = Food_maxFoods w /\ Entity_list w' = Entity_list w
  /\ exists added,
       Food_list w' = Food_list w ++ added /\ (length added <= 1)%nat
       /\ forall f, In f added ->
            Food_pts f = Food_PTS_DEFAULT
            /\ on_map (Map_size w) (Food_x f) (Food_y f) = true
            /\ ~ In (Food_cell f) (map Food_cell (Food_list w))
            /\ Z.of_nat (length (Food_list w)) < Food_maxFoods w.
Proof.
  intros Hrun.
  destruct (Food_generate_frame _ _ _ Hrun) as (tp & foods & -> & Hfoods).
  cbn [Food_list Food_maxFoods Entity_list set_tape set_Food_list].
  split; [reflexivity|]. split; [reflexivity|].
  destruct Hfoods as [->|(x & y & -> & Hmap & Hfree & Hcap & _)].
  - exists []. rewrite app_nil_r. split; [reflexivity|].
    split; [cbn; lia | intros f []].
  - exists [mkFood x y Food_PTS_DEFAULT]. split; [reflexivity|]. split; [cbn; lia|].
    intros f [<-|[]]. cbn [Food_pts Food_x Food_y]. unfold Food_cell.
    cbn [Food_x Food_y]. auto using occupied_cell.
Qed.

Lemma added_within (foods added : list Food) (cap : Z) :
  (length added <= 1)%nat ->
  (forall f, In f added -> Z.of_nat (length foods) < cap) ->
  Z.of_nat (length foods) <= cap ->
  Z.of_nat (length (foods ++ added)) <= cap.
Proof.
  intros Hlen Hcap Hle. destruct added as [|f [|g added]]; cbn [length] in Hlen; [| |lia].
  - rewrite app_nil_r. exact Hle.
  - specialize (Hcap f (or_introl eq_refl)). rewrite length_app. cbn [length]. lia.
Qed.

Lemma added_NoDup (foods added : list Food) :
  (length added <= 1)%nat ->
  (forall f, In f added -> ~ In (Food_cell f) (map Food_cell foods)) ->
  NoDup (map Food_cell foods) -> NoDup (map Food_cell (foods ++ added)).
Proof.
  intros Hlen Hfree Hnd. destruct added as [|f [|g added]]; cbn [length] in Hlen; [| |lia].
  - rewrite app_nil_r. exact Hnd.
  - rewrite map_app. cbn [map]. apply NoDup_app. split; [exact Hnd|].
    split; [|apply NoDup_singleton].
    intros c Hc Hin. apply list_elem_of_In in Hc.
    apply list_elem_of_In in Hin. destruct Hin as [<-|[]].
    exact (Hfree f (or_introl eq_refl) Hc).
Qed.

(** X7. [Food.generate] does nothing at all, and draws nothing, when
    [Food.list] already holds [maxFoods] items or more.  Otherwise it appends
    at most one Food, which has the default 100 points and stands on a cell
    of the map where no Food was; so a list within [maxFoods] stays within
    it, and a list with no two Foods on one cell stays so. *)
Theorem Food_generate_keeps (w : World) (r : outcome unit) (w' : World) :
  Food_generate w = (r, w') ->
  (Food_maxFoods w <= Z.of_nat (length (Food_list w)) -> r = Return tt /\ w' = w)
  /\ (exists added,
        Food_list w' = Food_list w ++ added /\ (length added <= 1)%nat
        /\ forall f, In f added ->
             Food_pts f = Food_PTS_DEFAULT
             /\ on_map (Map_size w) (Food_x f) (Food_y f) = true
             /\ ~ In (Food_cell f) (map Food_cell (Food_list w))
             /\ Z.of_nat (length (Food_list w)) < Food_maxFoods w)
  /\ (Z.of_nat (length (Food_list w)) <= Food_maxFoods w ->
      Z.of_nat (length (Food_list w')) <= Food_maxFoods w')
  /\ (NoDup (map Food_cell (Food_list w)) -> NoDup (map Food_cell (Food_list w'))).
Proof.
  intros Hrun. split.
  { intros Hfull. rewrite (Food_generate_full w Hfull) in Hrun.
    injection Hrun as <- <-. auto. }
  destruct (Food_generate_added _ _ _ Hrun) as (Hcap & _ & added & Hl & Hlen & Hadded).
  split; [exists added; auto|]. rewrite Hl, Hcap. split.
  - apply added_within; [exact Hlen|]. intros f Hf. apply (Hadded f Hf).
  - apply added_NoDup; [exact Hlen|]. intros f Hf. apply (Hadded f Hf).
Qed.

Lemma Food_generate_keeps_witness :
  exists added,
    Food_list (snd (Food_generate (set_tape [7; 7] fed_world)))
    = Food_list fed_world ++ added /\ (length added <= 1)%nat.
Proof.
  destruct (Food_generate_keeps (set_tape [7; 7] fed_world)
              (fst (Food_generate (set_tape [7; 7] fed_world)))
              (snd (Food_generate (set_tape [7; 7] fed_world))))
    as (_ & (added & Hadd & Hlen & _) & _).
  - vm_compute. reflexivity.
  - exists added. split; [exact Hadd | exact Hlen].
Defined.

(** ** What one engine step does to the two lists *)

Lemma take_first_at_sublist (x y : Z) (foods : list Food) (food : Food) (others : list Food) :
  take_first_at x y foods = Some (food, others) -> sublist others foods.
Proof.
  revert others. induction foods as [|f foods IH]; intros others; cbn [take_first_at].
  - discriminate.
  - destruct ((Food_x f =? x) && (Food_y f =? y)).
    + intros [= <- <-]. apply sublist_cons. reflexivity.
    + destruct (take_first_at x y foods) as [[found rest]|]; [|discriminate].
      intros [= <- <-]. apply sublist_skip. apply IH. reflexivity.
Qed.

Lemma tick_eat_foods (s : Entity * World) :
  sublist (Food_list (snd (tick_eat s))) (Food_list (snd s)).
Proof.
  destruct s as [e w]. unfold tick_eat.
  destruct (Entity_energy e <? 9999); [|reflexivity].
  destruct (take_first_at (Entity_x e) (Entity_y e) (Food_list w)) as [[food others]|] eqn:E;
    [|reflexivity].
  cbn [snd Food_list set_Food_list]. eapply take_first_at_sublist. exact E.
Qed.

Lemma tick_reproduce_foods (s : Entity * World) :
  Food_list (snd (tick_reproduce s)) = Food_list (snd s).
Proof.
  destruct s as [e w]. unfold tick_reproduce.
  destruct ((18 <=? Entity_age e) && (Entity_age e <? 60) && (500 <=? Entity_energy e));
    reflexivity.
Qed.

(** A tick takes Food away, in place, and adds none. *)
Lemma tick_phases_foods (s : Entity * World) (r : outcome unit) (s' : Entity * World) :
  tickable s -> tick_phases s = (r, s') ->
  sublist (Food_list (snd s')) (Food_list (snd s)).
Proof.
  intros Ht. unfold tick_phases.
  pose proof (tickable_reproduce _ (tickable_eat _ (tickable_time _ (tickable_energy _ Ht))))
    as Ht4.
  assert (H4 : sublist (Food_list (snd (tick_reproduce (tick_eat (tick_time (tick_energy s))))))
                       (Food_list (snd s))).
  { rewrite tick_reproduce_foods.
    etransitivity; [apply tick_eat_foods|].
    destruct s as [e w]. unfold tick_time, tick_energy. cbn [fst snd].
    destruct ((0 <=? _) && (_ <? 4000)); reflexivity. }
  destruct (tick_reproduce (tick_eat (tick_time (tick_energy s)))) as [e4 w4].
  destruct (tick_movement (e4, w4)) as [[e5 w5]|] eqn:E5.
  - destruct Ht4 as (Hmap & _ & _ & Hfoods).
    destruct (tick_movement_frame e4 e5 w4 w5 Hmap Hfoods E5) as (_ & tp & -> & _).
    intros [= <- <-]. exact H4.
  - intros [= <- <-]. exact H4.
Qed.

Lemma sweep_round_foods (i : nat) (e : Entity) (w : World) (r : outcome bool) (w1 : World) :
  World_ok w = true -> Entity_list w !! i = Some e ->
  sweep_round i e w = (r, w1) ->
  sublist (Food_list w1) (Food_list w).
Proof.
  intros Hok Hi. apply World_ok_parts in Hok as (Hfoods & Hents & Hn).
  assert (He : Entity_ok (Map_size w) e = true).
  { apply (forallb_In _ _ _ Hents). apply list_elem_of_In.
    eapply list_elem_of_lookup_2. exact Hi. }
  assert (Ht : tickable (e, w)).
  { apply Entity_ok_fields in He as (Hx & Hy & Hen & _ & _ & Hr).
    unfold tickable, on_map. rewrite Hx, Hy. auto. }
  unfold sweep_round, on_entity. unfold bind at 1.
  rewrite Entity_move_tick_phases by exact Ht.
  destruct (tick_phases (e, w)) as [r0 [e' w0]] eqn:E.
  pose proof (tick_phases_foods _ _ _ Ht E) as Hsub. cbn [snd] in Hsub.
  destruct r0 as [[]|ex|]; unfold bind, self, ret; cbn [fst snd];
    intros [= <- <-]; exact Hsub.
Qed.

Lemma sweep_foods (fuel : nat) :
  forall (i : nat) (w : World) (r : outcome unit) (w' : World),
  World_ok w = true -> sweep fuel i w = (r, w') ->
  sublist (Food_list w') (Food_list w).
Proof.
  induction fuel as [|k IH]; intros i w r w' Hok.
  - intros [= <- <-]. reflexivity.
  - rewrite sweep_unfold.
    destruct (Entity_list w !! i) as [e|] eqn:Ei; [|intros [= <- <-]; reflexivity].
    destruct (sweep_round_frame i e w Hok Ei)
      as (r0 & e' & children & w1 & Hround & Hr0 & Hok1 & _).
    pose proof (sweep_round_foods i e w r0 w1 Hok Ei Hround) as Hsub.
    rewrite Hround.
    destruct Hr0 as [->| ->]; [intros [= <- <-]; exact Hsub|].
    intros Hs. etransitivity; [|exact Hsub].
    destruct (Entity_survive e').
    + exact (IH _ _ _ _ Hok1 Hs).
    + exact (IH _ _ _ _ (World_ok_delete i w1 Hok1) Hs).
Qed.

Lemma rounds_left_ge (i : nat) (l : list Entity) :
  (length l <= length (take i l) + rounds_left i l)%nat.
Proof.
  unfold rounds_left. rewrite <- (take_drop i l) at 1. rewrite length_app.
  apply Nat.add_le_mono_l.
  induction (drop i l) as [|a d IH]; [cbn; lia|].
  cbn [map length]. change (list_sum (weight a :: map weight d))
    with (weight a + list_sum (map weight d))%nat.
  pose proof (weight_pos a). lia.
Qed.

(** From index [i] on, the sweep leaves no more agents than [i] plus the
    rounds it had left: an agent of zero time adds none, any other at most
    one. *)
Lemma sweep_population (fuel : nat) :
  forall (i : nat) (w : World) (r : outcome unit) (w' : World),
  World_ok w = true -> sweep fuel i w = (r, w') ->
  (length (Entity_list w') <= length (take i (Entity_list w)) + rounds_left i (Entity_list w))%nat.
Proof.
  induction fuel as [|k IH]; intros i w r w' Hok.
  - intros [= <- <-]. apply rounds_left_ge.
  - rewrite sweep_unfold.
    destruct (Entity_list w !! i) as [e|] eqn:Ei;
      [|intros [= <- <-]; apply rounds_left_ge].
    destruct (sweep_round_frame i e w Hok Ei)
      as (r0 & e' & children & w1 & -> & Hr0 & Hok1 & _ & _ & Hl1 & Hch).
    pose proof (lookup_lt_Some _ _ _ Ei) as Hlt.
    pose proof (rounds_left_lookup i _ e Ei) as Hhere.
    pose proof (rounds_left_round i (Entity_list w) e e' children Ei) as Hround.
    rewrite <- Hl1 in Hround.
    pose proof (weight_pos e) as Hwe.
    assert (Hchildren : (length children + list_sum (map weight children) < weight e + length children)%nat
                        /\ (length children < weight e)%nat).
    { destruct Hch as [->|(child & -> & Hc0 & He0 & _)].
      - cbn. lia.
      - assert (Hwc : weight child = 1%nat) by (unfold weight; rewrite Hc0; reflexivity).
        assert (Hw2 : weight e = 2%nat)
          by (unfold weight; destruct (Z.eqb_spec (Entity_time e) 0); [contradiction|reflexivity]).
        unfold list_sum. cbn. lia. }
    rewrite length_take, Nat.min_l by lia.
    destruct Hr0 as [->| ->].
    { intros [= <- <-]. rewrite Hl1, length_app, length_insert.
      pose proof (rounds_left_ge (S i) (Entity_list w)) as Hge.
      rewrite length_take in Hge. lia. }
    intros Hs.
    assert (Hbound : forall w2, World_ok w2 = true ->
              sweep k (S i) w2 = (r, w') ->
              (rounds_left (S i) (Entity_list w2) <= rounds_left (S i) (Entity_list w1))%nat ->
              (length (Entity_list w') <= i + rounds_left i (Entity_list w))%nat).
    { intros w2 Hok2 Hs2 Hle. pose proof (IH _ _ _ _ Hok2 Hs2) as H.
      rewrite length_take in H. lia. }
    destruct (Entity_survive e').
    + apply (Hbound w1 Hok1 Hs). lia.
    + apply (Hbound _ (World_ok_delete i w1 Hok1) Hs).
      cbn [Entity_list set_Entity_list]. apply rounds_left_delete.
Qed.

(** ** [RSim.step] as a whole *)

Lemma sublist_map {A B} (f : A -> B) (l1 l2 : list A) :
  sublist l1 l2 -> sublist (map f l1) (map f l2).
Proof.
  induction 1 as [|a l1 l2 _ IH|a l1 l2 _ IH]; cbn [map];
    [constructor | apply sublist_skip; exact IH | apply sublist_cons; exact IH].
Qed.

(** The step, cut at its three statements. *)
Lemma RSim_step_parts (w : World) (r : outcome unit) (w' : World) :
  World_ok w = true -> RSim_step w = (r, w') ->
  exists rs w1,
    sweep (S (2 * length (Entity_list w))) 0 w = (rs, w1)
    /\ ((rs = Starved /\ r = Starved /\ w' = w1)
        \/ (rs = Return tt
            /\ exists w2, Save_time_set (save_time w1 + 1) w1 = (Return tt, w2)
                          /\ Food_generate w2 = (r, w'))).
Proof.
  intros Hok Hrun. unfold RSim_step in Hrun.
  unfold bind at 1, gets in Hrun. cbv beta iota in Hrun.
  unfold bind at 1 in Hrun.
  destruct (sweep (S (2 * length (Entity_list w))) 0 w) as [rs w1] eqn:Es.
  destruct (sweep_frame _ _ _ _ _ Hok Es) as (Hrs & _).
  exists rs, w1. split; [reflexivity|].
  destruct Hrs as [->| ->]; [injection Hrun as <- <-; left; auto|].
  unfold bind at 1 in Hrun. cbv beta iota in Hrun. unfold bind at 1 in Hrun.
  rewrite Save_time_set_cases in Hrun. right. split; [reflexivity|].
  eexists. split; [apply Save_time_set_cases | exact Hrun].
Qed.

(** X8. One engine step on a well-formed world takes Food away only by
    eating, keeping the others in their order, and adds at most one Food, at
    the end of the list and on a cell no remaining Food holds.  So a Food
    list within [maxFoods] stays within it, and a list with no two Foods on
    one cell stays so. *)
Theorem RSim_step_foods (w : World) (r : outcome unit) (w' : World) :
  World_ok w = true -> RSim_step w = (r, w') ->
  exists kept added,
    Food_list w' = kept ++ added
    /\ sublist kept (Food_list w)
    /\ (length added <= 1)%nat
    /\ (forall f, In f added ->
          Food_pts f = Food_PTS_DEFAULT /\ ~ In (Food_cell f) (map Food_cell kept))
    /\ Food_maxFoods w' = Food_maxFoods w
    /\ (Z.of_nat (length (Food_list w)) <= Food_maxFoods w ->
        Z.of_nat (length (Food_list w')) <= Food_maxFoods w)
    /\ (NoDup (map Food_cell (Food_list w)) -> NoDup (map Food_cell (Food_list w'))).
Proof.
  intros Hok Hrun.
  destruct (RSim_step_parts w r w' Hok Hrun) as (rs & w1 & Es & Hrest).
  pose proof (sweep_foods _ _ _ _ _ Hok Es) as Hsub.
  destruct (sweep_frame _ _ _ _ _ Hok Es) as (_ & _ & Hd & _).
  apply differ_in_lists_settings in Hd as (_ & Hcap1 & _).
  pose proof (sublist_length _ _ Hsub) as Hlen1.
  assert (Hnd1 : NoDup (map Food_cell (Food_list w)) -> NoDup (map Food_cell (Food_list w1))).
  { intros Hnd. eapply sublist_NoDup; [exact Hnd|]. apply sublist_map. exact Hsub. }
  destruct Hrest as [(-> & -> & ->)|(-> & w2 & Ht & Hg)].
  - exists (Food_list w1), []. rewrite app_nil_r.
    split; [reflexivity|]. split; [exact Hsub|]. split; [cbn; lia|].
    split; [intros f []|]. split; [exact Hcap1|]. split; [lia | exact Hnd1].
  - rewrite Save_time_set_cases in Ht. injection Ht as <-.
    destruct (Food_generate_added _ _ _ Hg) as (Hcap & _ & added & Hl & Hlen & Hadded).
    assert (Hf2 : forall w0 : World,
              Food_list (if in_range Save_TIME_MAX (save_time w1 + 1)
                         then set_save_age ((save_time w1 + 1) / Save_TIME_IN_AGE)
                                (set_save_time (save_time w1 + 1) w1)
                         else set_save_age 0 (set_save_energy (Some 0) (set_save_time (-1) w1)))
              = Food_list w1
              /\ Food_maxFoods (if in_range Save_TIME_MAX (save_time w1 + 1)
                         then set_save_age ((save_time w1 + 1) / Save_TIME_IN_AGE)
                                (set_save_time (save_time w1 + 1) w1)
                         else set_save_age 0 (set_save_energy (Some 0) (set_save_time (-1) w1)))
                = Food_maxFoods w1).
    { intros _. destruct (in_range Save_TIME_MAX (save_time w1 + 1)); split; reflexivity. }
    destruct (Hf2 w) as [Hfl2 Hcap2]. rewrite Hfl2 in Hl, Hadded. rewrite Hcap2 in Hcap, Hadded.
    exists (Food_list w1), added.
    split; [exact Hl|]. split; [exact Hsub|]. split; [exact Hlen|].
    split; [intros f Hf; destruct (Hadded f Hf) as (Hp & _ & Hfree & _); auto|].
    split; [congruence|]. rewrite Hl. split.
    + intros Hle. rewrite <- Hcap1.
      apply added_within; [exact Hlen| |lia]. intros f Hf. apply (Hadded f Hf).
    + intros Hnd. apply added_NoDup; [exact Hlen| |exact (Hnd1 Hnd)].
      intros f Hf. apply (Hadded f Hf).
Qed.

Lemma RSim_step_foods_witness :
  World_ok stocked_world = true
  /\ exists kept added,
       Food_list (snd (RSim_step stocked_world)) = kept ++ added
       /\ sublist kept (Food_list stocked_world) /\ (length added <= 1)%nat.
Proof.
  split; [vm_compute; reflexivity|].
  destruct (RSim_step_foods stocked_world (fst (RSim_step stocked_world))
              (snd (RSim_step stocked_world)))
    as (kept & added & Hl & Hsub & Hlen & _).
  - vm_compute. reflexivity.
  - destruct (RSim_step stocked_world); reflexivity.
  - exists kept, added. auto.
Defined.

(** X9. One engine step at most doubles the population: every agent that
    was in [Entity.list] when the step began has at most one child in it,
    and an agent born during the step, although the sweep reaches and ticks
    it, has none. *)
Theorem RSim_step_population (w : World) (r : outcome unit) (w' : World) :
  World_ok w = true -> RSim_step w = (r, w') ->
  (length (Entity_list w') <= 2 * length (Entity_list w))%nat.
Proof.
  intros Hok Hrun.
  destruct (RSim_step_parts w r w' Hok Hrun) as (rs & w1 & Es & Hrest).
  pose proof (sweep_population _ _ _ _ _ Hok Es) as Hpop.
  pose proof (rounds_left_bound 0 (Entity_list w)) as Hbound.
  rewrite take_0 in Hpop. cbn [length Nat.add] in Hpop.
  assert (H1 : (length (Entity_list w1) <= 2 * length (Entity_list w))%nat) by lia.
  destruct Hrest as [(-> & -> & ->)|(-> & w2 & Ht & Hg)]; [exact H1|].
  rewrite Save_time_set_cases in Ht. injection Ht as <-.
  destruct (Food_generate_added _ _ _ Hg) as (_ & Hl & _). rewrite Hl.
  destruct (in_range Save_TIME_MAX (save_time w1 + 1)); exact H1.
Qed.

Lemma RSim_step_population_witness :
  World_ok stocked_world = true
  /\ (length (Entity_list (snd (RSim_step stocked_world))) <= 2 * 2)%nat.
Proof.
  split; [vm_compute; reflexivity|].
  apply (RSim_step_population stocked_world (fst (RSim_step stocked_world))).
  - vm_compute. reflexivity.
  - destruct (RSim_step stocked_world); reflexivity.
Defined.

Lemma World_ok_positive (w : World) :
  World_ok w = true -> Food_list w <> [] \/ Entity_list w <> [] ->
  0 < fst (Map_size w) /\ 0 < snd (Map_size w).
Proof.
  intros Hok Hsome. apply World_ok_parts in Hok as (Hf & He & _).
  assert (Hin : forall x y, in_range (fst (Map_size w)) x = true ->
                            in_range (snd (Map_size w)) y = true ->
                            0 < fst (Map_size w) /\ 0 < snd (Map_size w)).
  { unfold in_range. intros x y Hx Hy.
    apply andb_prop in Hx as [Hx1 Hx2]. apply andb_prop in Hy as [Hy1 Hy2].
    apply Z.leb_le in Hx1, Hy1. apply Z.ltb_lt in Hx2, Hy2. lia. }
  destruct Hsome as [Hsome|Hsome].
  - destruct (Food_list w) as [|f foods]; [contradiction|].
    cbn [forallb] in Hf. apply andb_prop in Hf as [Hf _].
    apply Food_ok_fields in Hf as (Hx & Hy & _). eauto.
  - destruct (Entity_list w) as [|e entities]; [contradiction|].
    cbn [forallb] in He. apply andb_prop in He as [He _].
    apply Entity_ok_fields in He as (Hx & Hy & _). eauto.
Qed.



(** ** [Entity.generate] and [RSim.generate] *)

Lemma Map_rmdCoord_frame {T} `{Element T} (datas : list T) (w : World)
      (r : outcome (option (Z * Z))) (w' : World) :
  Map_rmdCoord datas w = (r, w') ->
  (exists tp, w' = set_tape tp w)
  /\ (forall x y, r = Return (Some (x, y)) -> on_map (Map_size w) x y = true)
  /\ (r = Return None -> fst (Map_size w) * snd (Map_size w) <= Z.of_nat (length datas)).
Proof.
  unfold Map_rmdCoord. unfold bind at 1, gets at 1. cbv beta iota.
  destruct (Z.gtb_spec (fst (Map_size w) * snd (Map_size w)) (Z.of_nat (length datas))).
  - unfold bind at 1, gets at 1. cbv beta iota. unfold bind at 1.
    destruct (rmdCoord_loop (S (length (tape w))) datas w) as [rc w1] eqn:El.
    destruct (rmdCoord_loop_frame _ _ _ _ _ El) as (Htp & Hc).
    destruct rc as [[x y]| |]; unfold ret; intros [= <- <-];
      (split; [exact Htp|]); (split; [|discriminate]).
    + intros x' y' [= <- <-]. apply (Hc x y eq_refl).
    + discriminate.
    + discriminate.
  - unfold ret. intros [= <- <-].
    split; [exists (tape w); destruct w; reflexivity|]. split; [discriminate | intros _; lia].
Qed.

Lemma built_default_Entity (x y id : Z) :
  built_Entity x y Entity_ENERGY_DEF 0 id = mkEntity x y 200 0 0 10 id.
Proof. reflexivity. Qed.

(** One [Entity.generate]: a raise changes nothing but the tape; otherwise
    one agent with the default energy, no elapsed time and the next id is
    appended, on the map. *)
Lemma Entity_generate_frame (w : World) (r : outcome unit) (w' : World) :
  Entity_generate w = (r, w') ->
  exists tp born,
    w' = set_tape tp
           (set_Entity_list (Entity_list w ++ born)
              (set_Entity_nEntities
                 (match born with [] => Entity_nEntities w | _ => next_id (Entity_nEntities w) end)
                 w))
    /\ ((born = [] /\ r <> Return tt)
        \/ exists x y, born = [mkEntity x y 200 0 0 10 (next_id (Entity_nEntities w))]
                       /\ on_map (Map_size w) x y = true /\ r = Return tt).
Proof.
  unfold Entity_generate. unfold bind at 1.
  destruct (Map_rmdCoord (@nil Food) w) as [rc w1] eqn:Ec.
  destruct (Map_rmdCoord_frame _ _ _ _ Ec) as ((tp & ->) & Hc & _).
  assert (Hnone : forall r0 : outcome unit, r0 <> Return tt ->
    exists tp0 born,
      set_tape tp w = set_tape tp0
           (set_Entity_list (Entity_list w ++ born)
              (set_Entity_nEntities
                 (match born with [] => Entity_nEntities w | _ => next_id (Entity_nEntities w) end)
                 w))
      /\ ((born = [] /\ r0 <> Return tt)
          \/ exists x y, born = [mkEntity x y 200 0 0 10 (next_id (Entity_nEntities w))]
                         /\ on_map (Map_size w) x y = true /\ r0 = Return tt)).
  { intros r0 Hr0. exists tp, []. rewrite app_nil_r. split; [destruct w; reflexivity | auto]. }
  destruct rc as [[[x y]|]|e|].
  - specialize (Hc x y eq_refl). pose proof Hc as Hmap.
    apply andb_prop in Hc as [Hx Hy].
    unfold bind at 1. rewrite Entity_new_cases.
    cbn [Map_size set_tape]. rewrite Hx, Hy. cbv zeta. rewrite built_default_Entity.
    unfold ret. intros [= <- <-].
    exists tp, [mkEntity x y 200 0 0 10 (next_id (Entity_nEntities w))].
    split; [reflexivity|]. right. exists x, y. auto.
  - unfold raise. intros [= <- <-]. apply Hnone. discriminate.
  - intros [= <- <-]. apply Hnone. discriminate.
  - intros [= <- <-]. apply Hnone. discriminate.
Qed.

Lemma Entity_generate_World_ok (w : World) (r : outcome unit) (w' : World) :
  World_ok w = true -> Entity_generate w = (r, w') -> World_ok w' = true.
Proof.
  intros Hok Hrun. pose proof Hok as Hparts.
  apply World_ok_parts in Hparts as (_ & _ & Hn).
  destruct (Entity_generate_frame _ _ _ Hrun) as (tp & born & -> & Hborn).
  destruct Hborn as [[-> _]|(x & y & -> & Hmap & _)].
  - rewrite <- Hok. apply World_ok_ext; cbn; rewrite ?app_nil_r; reflexivity.
  - pose proof (next_id_range (Entity_nEntities w) (proj1 Hn)) as Hid.
    rewrite <- (World_ok_snoc_entity w (mkEntity x y 200 0 0 10 (next_id (Entity_nEntities w)))
                  (next_id (Entity_nEntities w)) Hok).
    + apply World_ok_ext; reflexivity.
    + replace (mkEntity x y 200 0 0 10 (next_id (Entity_nEntities w)))
        with (built_Entity x y Entity_ENERGY_DEF 0 (next_id (Entity_nEntities w)))
        by reflexivity.
      apply andb_prop in Hmap as [Hx Hy]. apply built_Entity_ok; assumption.
    + lia.
Qed.

Lemma Food_generate_World_ok (w : World) (r : outcome unit) (w' : World) :
  World_ok w = true -> Food_generate w = (r, w') -> World_ok w' = true.
Proof.
  intros Hok Hg. destruct (Food_generate_frame _ _ _ Hg) as (tp & foods & -> & Hfoods).
  destruct Hfoods as [->|(x & y & -> & Hmap & _)].
  - rewrite <- Hok. apply World_ok_ext; reflexivity.
  - apply World_ok_new_food; assumption.
Qed.

Lemma repeat_Entity_generate (n : nat) :
  forall (w : World) (r : outcome unit) (w' : World),
  World_ok w = true -> repeat_times n Entity_generate w = (r, w') ->
  World_ok w' = true /\ Map_size w' = Map_size w /\ Food_list w' = Food_list w
  /\ Food_maxFoods w' = Food_maxFoods w
  /\ exists born,
       Entity_list w' = Entity_list w ++ born /\ (length born <= n)%nat
       /\ (r = Return tt -> length born = n) /\ Forall newborn born.
Proof.
  induction n as [|n IH]; intros w r w' Hok; cbn [repeat_times].
  - unfold ret. intros [= <- <-]. repeat (split; [first [assumption | reflexivity]|]).
    exists []. rewrite app_nil_r. repeat split; auto.
  - unfold bind at 1. destruct (Entity_generate w) as [r1 w1] eqn:E1.
    pose proof (Entity_generate_World_ok _ _ _ Hok E1) as Hok1.
    destruct (Entity_generate_frame _ _ _ E1) as (tp & born1 & Hw1 & Hborn).
    assert (H1 : Map_size w1 = Map_size w /\ Food_list w1 = Food_list w
                 /\ Food_maxFoods w1 = Food_maxFoods w
                 /\ Entity_list w1 = Entity_list w ++ born1)
      by (subst w1; repeat split; reflexivity).
    destruct H1 as (Hs1 & Hf1 & Hc1 & Hl1).
    destruct Hborn as [[-> Hr1]|(x & y & -> & Hmap & ->)].
    + destruct r1 as [[]|e|]; [contradiction| |];
        intros [= <- <-]; repeat (split; [first [assumption | reflexivity]|]);
        exists []; (split; [exact Hl1|]); cbn [length];
        (split; [lia|]); (split; [discriminate | constructor]).
    + intros Hrest. destruct (IH _ _ _ Hok1 Hrest) as (Hok' & Hs & Hf & Hc & born & Hl & Hlen & Hr & Hnew).
      split; [exact Hok'|]. split; [congruence|]. split; [congruence|]. split; [congruence|].
      exists (mkEntity x y 200 0 0 10 (next_id (Entity_nEntities w)) :: born).
      split; [rewrite Hl, Hl1, <- app_assoc; reflexivity|].
      cbn [length]. split; [lia|]. split; [intros Hret; rewrite (Hr Hret); reflexivity|].
      constructor; [repeat split | exact Hnew].
Qed.

Lemma repeat_Food_generate (n : nat) :
  forall (w : World) (r : outcome unit) (w' : World),
  World_ok w = true -> repeat_times n Food_generate w = (r, w') ->
  World_ok w' = true /\ Map_size w' = Map_size w /\ Entity_list w' = Entity_list w
  /\ Food_maxFoods w' = Food_maxFoods w
  /\ (exists added, Food_list w' = Food_list w ++ added /\ (length added <= n)%nat)
  /\ (Z.of_nat (length (Food_list w)) <= Food_maxFoods w ->
      Z.of_nat (length (Food_list w')) <= Food_maxFoods w)
  /\ (NoDup (map Food_cell (Food_list w)) -> NoDup (map Food_cell (Food_list w'))).
Proof.
  induction n as [|n IH]; intros w r w' Hok; cbn [repeat_times].
  - unfold ret. intros [= <- <-]. repeat (split; [first [assumption | reflexivity]|]).
    split; [exists []; rewrite app_nil_r; split; [reflexivity | cbn; lia]|]. auto.
  - unfold bind at 1. destruct (Food_generate w) as [r1 w1] eqn:E1.
    pose proof (Food_generate_World_ok _ _ _ Hok E1) as Hok1.
    destruct (Food_generate_added _ _ _ E1) as (Hc1 & Hl1 & added1 & Hf1 & Hlen1 & Hadded).
    destruct (Food_generate_frame _ _ _ E1) as (tp & foods & Hw1 & _).
    assert (Hs1 : Map_size w1 = Map_size w) by (subst w1; reflexivity).
    assert (Hcap1 : Z.of_nat (length (Food_list w)) <= Food_maxFoods w ->
                    Z.of_nat (length (Food_list w1)) <= Food_maxFoods w).
    { intros Hle. rewrite Hf1. apply added_within; [exact Hlen1| |exact Hle].
      intros f Hf. apply (Hadded f Hf). }
    assert (Hnd1 : NoDup (map Food_cell (Food_list w)) -> NoDup (map Food_cell (Food_list w1))).
    { intros Hnd. rewrite Hf1. apply added_NoDup; [exact Hlen1| |exact Hnd].
      intros f Hf. apply (Hadded f Hf). }
    assert (Hstop : r = r1 -> w' = w1 ->
      World_ok w' = true /\ Map_size w' = Map_size w /\ Entity_list w' = Entity_list w
      /\ Food_maxFoods w' = Food_maxFoods w
      /\ (exists added, Food_list w' = Food_list w ++ added /\ (length added <= S n)%nat)
      /\ (Z.of_nat (length (Food_list w)) <= Food_maxFoods w ->
          Z.of_nat (length (Food_list w')) <= Food_maxFoods w)
      /\ (NoDup (map Food_cell (Food_list w)) -> NoDup (map Food_cell (Food_list w')))).
    { intros -> ->. repeat (split; [assumption|]).
      split; [exists added1; split; [exact Hf1 | lia]|]. auto. }
    destruct r1 as [[]|e|]; [|intros [= <- <-]; apply Hstop; reflexivity
                             |intros [= <- <-]; apply Hstop; reflexivity].
    intros Hrest.
    destruct (IH _ _ _ Hok1 Hrest) as (Hok' & Hs & Hl & Hc & (added & Hf & Hlen) & Hcap & Hnd).
    split; [exact Hok'|]. split; [congruence|]. split; [congruence|]. split; [congruence|].
    split; [exists (added1 ++ added); rewrite Hf, Hf1, <- app_assoc, length_app;
            split; [reflexivity | lia]|].
    split; [intros Hle; rewrite <- Hc1; apply Hcap; rewrite Hc1; auto|auto].
Qed.

(** X11. [Entity.generate] on a map whose area is not positive raises the
    [TypeError] of indexing [None], and changes nothing.  On a map with
    positive dimensions it never looks at who stands where: the first two
    draws give the place, and one agent with energy 200, no elapsed time and
    the next id is appended there; with fewer than two draws left nothing is
    created. *)
Theorem Entity_generate_cases (w : World) :
  (fst (Map_size w) * snd (Map_size w) <= 0 ->
   Entity_generate w = (Raise (Exn TypeError NotSubscriptable), w))
  /\ (0 < fst (Map_size w) -> 0 < snd (Map_size w) ->
      (forall r1 r2 rest, tape w = r1 :: r2 :: rest ->
         Entity_generate w =
         (Return tt,
          set_Entity_list
            (Entity_list w ++
             [mkEntity (r1 mod fst (Map_size w)) (r2 mod snd (Map_size w)) 200 0 0 10
                       (next_id (Entity_nEntities w))])
            (set_Entity_nEntities (next_id (Entity_nEntities w)) (set_tape rest w))))
      /\ ((length (tape w) < 2)%nat ->
          exists w', Entity_generate w = (Starved, w')
                     /\ Entity_list w' = Entity_list w)).
Proof.
  split.
  - intros Harea. unfold Entity_generate, Map_rmdCoord.
    unfold bind at 1. unfold bind at 1, gets at 1. cbv beta iota.
    cbn [length]. destruct (Z.gtb_spec (fst (Map_size w) * snd (Map_size w)) (Z.of_nat 0)); [lia|].
    reflexivity.
  - intros Hx Hy.
    assert (Harea : 0 < fst (Map_size w) * snd (Map_size w)) by lia.
    assert (Hloop : forall rc w1,
              rmdCoord_loop (S (length (tape w))) (@nil Food) w = (rc, w1) ->
              Entity_generate w =
              match rc with
              | Return c => bind (Entity_new c Entity_ENERGY_DEF 0) (fun _ => ret tt) w1
              | Raise e => (Raise e, w1)
              | Starved => (Starved, w1)
              end).
    { intros rc w1 El. unfold Entity_generate, Map_rmdCoord.
      unfold bind at 1. unfold bind at 1, gets at 1. cbv beta iota.
      cbn [length]. destruct (Z.gtb_spec (fst (Map_size w) * snd (Map_size w)) (Z.of_nat 0)); [|lia].
      unfold bind at 1, gets at 1. cbv beta iota. unfold bind at 1. rewrite El.
      destruct rc; reflexivity. }
    split.
    + intros r1 r2 rest Ht.
      pose proof (rmdCoord_loop_hit (length (tape w)) (@nil Food) w r1 r2 rest Hx Hy Ht eq_refl)
        as El.
      rewrite (Hloop _ _ El). unfold bind at 1. rewrite Entity_new_cases.
      cbn [Map_size set_tape Entity_list Entity_nEntities].
      assert (Hin : forall n r, 0 < n -> in_range n (r mod n) = true).
      { intros n r Hn. pose proof (Z.mod_pos_bound r n Hn). unfold in_range.
        apply andb_true_intro; split; [apply Z.leb_le | apply Z.ltb_lt]; lia. }
      rewrite (Hin _ r1 Hx), (Hin _ r2 Hy). cbv zeta. rewrite built_default_Entity.
      reflexivity.
    + intros Hshort.
      destruct (rmdCoord_loop (S (length (tape w))) (@nil Food) w) as [rc w1] eqn:El.
      rewrite (Hloop _ _ eq_refl).
      destruct (rmdCoord_loop_frame _ _ _ _ _ El) as ((tp & ->) & _).
      assert (Hrc : rc = Starved).
      { revert El. cbn [rmdCoord_loop]. unfold bind at 1, gets. unfold bind at 1.
        unfold randint at 1.
        destruct (Z.ltb_spec (fst (Map_size w) - 1) 0); [lia|].
        unfold bind at 1, draw at 1.
        destruct (tape w) as [|r1 [|r2 rest]] eqn:Et; cbn [length] in Hshort; [| |lia].
        - intros [= <- _]. reflexivity.
        - unfold ret at 1. unfold bind at 1. unfold randint at 1.
          cbn [Map_size set_tape].
          destruct (Z.ltb_spec (snd (Map_size w) - 1) 0); [lia|].
          unfold bind at 1, draw at 1. cbn [tape set_tape].
          intros [= <- _]. reflexivity. }
      subst rc. eexists. split; reflexivity.
Qed.

Lemma Entity_generate_cases_witness :
  Entity_generate (set_tape [7; 8] one_agent_world)
  = (Return tt,
     set_Entity_list [mkEntity 2 2 50 0 0 10 1; mkEntity 2 3 200 0 0 10 2]
       (set_Entity_nEntities 2 (set_tape [] one_agent_world))).
Proof.
  apply (proj1 (proj2 (Entity_generate_cases (set_tape [7; 8] one_agent_world))
                 ltac:(reflexivity) ltac:(reflexivity)) 7 8 []).
  reflexivity.
Defined.

(** X12. [RSim.generate(nEntities, nFoods)] on a well-formed world leaves a
    well-formed world with the same map.  When it returns, exactly
    [nEntities] agents were appended (none for a negative number), each with
    energy 200 and no elapsed time, and at most [nFoods] Foods; a Food list
    within [maxFoods] stays within it, and one with no two Foods on a cell
    stays so. *)
Theorem RSim_generate_keeps (nEntities nFoods : Z) (w : World) (r : outcome unit) (w' : World) :
  World_ok w = true -> RSim_generate nEntities nFoods w = (r, w') ->
  World_ok w' = true /\ Map_size w' = Map_size w
  /\ (exists born,
        Entity_list w' = Entity_list w ++ born /\ Forall newborn born
        /\ (length born <= Z.to_nat nEntities)%nat
        /\ (r = Return tt -> length born = Z.to_nat nEntities))
  /\ (exists added,
        Food_list w' = Food_list w ++ added /\ (length added <= Z.to_nat nFoods)%nat)
  /\ (Z.of_nat (length (Food_list w)) <= Food_maxFoods w ->
      Z.of_nat (length (Food_list w')) <= Food_maxFoods w')
  /\ (NoDup (map Food_cell (Food_list w)) -> NoDup (map Food_cell (Food_list w'))).
Proof.
  intros Hok. unfold RSim_generate. unfold bind at 1.
  destruct (repeat_times (Z.to_nat nEntities) Entity_generate w) as [r1 w1] eqn:E1.
  destruct (repeat_Entity_generate _ _ _ _ Hok E1)
    as (Hok1 & Hs1 & Hf1 & Hc1 & born & Hl1 & Hlen1 & Hr1 & Hnew).
  assert (Hstop : r = r1 -> r1 <> Return tt -> w' = w1 ->
    World_ok w' = true /\ Map_size w' = Map_size w
    /\ (exists born,
          Entity_list w' = Entity_list w ++ born /\ Forall newborn born
          /\ (length born <= Z.to_nat nEntities)%nat
          /\ (r = Return tt -> length born = Z.to_nat nEntities))
    /\ (exists added,
          Food_list w' = Food_list w ++ added /\ (length added <= Z.to_nat nFoods)%nat)
    /\ (Z.of_nat (length (Food_list w)) <= Food_maxFoods w ->
        Z.of_nat (length (Food_list w')) <= Food_maxFoods w')
    /\ (NoDup (map Food_cell (Food_list w)) -> NoDup (map Food_cell (Food_list w')))).
  { intros -> Hr -> . split; [exact Hok1|]. split; [exact Hs1|].
    split; [exists born; repeat split; auto; contradiction|].
    split; [exists []; rewrite app_nil_r; split; [exact Hf1 | cbn; lia]|].
    rewrite Hf1, Hc1. auto. }
  destruct r1 as [[]|e|]; [|intros [= <- <-]; apply Hstop; [reflexivity|discriminate|reflexivity]
                           |intros [= <- <-]; apply Hstop; [reflexivity|discriminate|reflexivity]].
  intros E2.
  destruct (repeat_Food_generate _ _ _ _ Hok1 E2)
    as (Hok2 & Hs2 & Hl2 & Hc2 & (added & Hf2 & Hlen2) & Hcap & Hnd).
  split; [exact Hok2|]. split; [congruence|].
  split; [exists born; rewrite Hl2; repeat split; auto|].
  split; [exists added; rewrite Hf2, Hf1; auto|].
  rewrite Hc2, Hc1, <- Hf1. split; [intros Hle; rewrite <- Hc1; apply Hcap; rewrite Hc1; exact Hle|exact Hnd].
Qed.

Lemma RSim_generate_keeps_witness :
  World_ok (empty_world (5, 5)) = true
  /\ fst (RSim_generate 2 1 (set_tape [1; 1; 1; 1; 3; 3] (empty_world (5, 5)))) = Return tt
  /\ World_ok (snd (RSim_generate 2 1 (set_tape [1; 1; 1; 1; 3; 3] (empty_world (5, 5))))) = true.
Proof.
  split; [reflexivity|]. split; [vm_compute; reflexivity|].
  apply (RSim_generate_keeps 2 1 (set_tape [1; 1; 1; 1; 3; 3] (empty_world (5, 5)))
           (fst (RSim_generate 2 1 (set_tape [1; 1; 1; 1; 3; 3] (empty_world (5, 5)))))).
  - vm_compute. reflexivity.
  - destruct (RSim_generate 2 1 (set_tape [1; 1; 1; 1; 3; 3] (empty_world (5, 5)))); reflexivity.
Defined.

(** ** The phases of a tick, one by one *)

Lemma take_first_at_split (x y : Z) (before after : list Food) (food : Food) :
  Forall (fun f => Food_cell f <> (x, y)) before -> Food_cell food = (x, y) ->
  take_first_at x y (before ++ food :: after) = Some (food, before ++ after).
Proof.
  intros Hbefore Hfood. induction Hbefore as [|f before Hf _ IH]; cbn [app take_first_at].
  - unfold Food_cell in Hfood. injection Hfood as -> ->. rewrite !Z.eqb_refl. reflexivity.
  - destruct ((Food_x f =? x) && (Food_y f =? y)) eqn:E.
    + apply andb_prop in E as [Ex Ey]. apply Z.eqb_eq in Ex, Ey.
      exfalso. apply Hf. unfold Food_cell. congruence.
    + rewrite IH. reflexivity.
Qed.

Lemma take_first_at_None (x y : Z) (foods : list Food) :
  take_first_at x y foods = None <-> Forall (fun f => Food_cell f <> (x, y)) foods.
Proof.
  induction foods as [|f foods IH]; cbn [take_first_at].
  - split; [constructor | reflexivity].
  - destruct ((Food_x f =? x) && (Food_y f =? y)) eqn:E.
    + apply andb_prop in E as [Ex Ey]. apply Z.eqb_eq in Ex, Ey.
      split; [discriminate|]. intros H. inversion H as [|? ? Hf _]; subst.
      exfalso. apply Hf. reflexivity.
    + destruct (take_first_at x y foods) as [[found others]|].
      * split; [discriminate|]. intros H. inversion H as [|? ? _ Hrest]; subst.
        apply IH in Hrest. discriminate.
      * split; [|reflexivity]. intros _. constructor; [|apply IH; reflexivity].
        unfold Food_cell. intros [= Hx Hy]. subst. rewrite !Z.eqb_refl in E. discriminate.
Qed.

(** X13. [Entity.eat], for an agent of non-negative energy among valid
    Food, never raises and leaves the agents alone.  With energy 9999, or
    with no Food on its cell, it changes nothing.  Otherwise it removes
    exactly the first Food of the list that is on the agent's cell, keeping
    all others in their order, and adds its points to the energy, capped at
    9999. *)
Theorem Entity_eat_first (e : Entity) (w : World) :
  0 <= Entity_energy e ->
  forallb (Food_ok (Map_size w)) (Food_list w) = true ->
  exists e' w',
    Entity_eat (e, w) = (Return tt, (e', w'))
    /\ Entity_list w' = Entity_list w
    /\ (Entity_ENERGY_MAX <= Entity_energy e -> e' = e /\ w' = w)
    /\ (Forall (fun f => Food_cell f <> (Entity_x e, Entity_y e)) (Food_list w) ->
        e' = e /\ w' = w)
    /\ (forall before food after,
          Entity_energy e < Entity_ENERGY_MAX ->
          Food_list w = before ++ food :: after ->
          Forall (fun f => Food_cell f <> (Entity_x e, Entity_y e)) before ->
          Food_cell food = (Entity_x e, Entity_y e) ->
          e' = with_energy (Z.min Entity_ENERGY_MAX (Entity_energy e + Food_pts food)) e
          /\ w' = set_Food_list (before ++ after) w).
Proof.
  intros He Hfoods. rewrite (Entity_eat_phase e w He Hfoods).
  destruct (tick_eat (e, w)) as [e' w'] eqn:E. exists e', w'.
  split; [reflexivity|]. unfold tick_eat in E. change Entity_ENERGY_MAX with 9999.
  destruct (Z.ltb_spec (Entity_energy e) 9999) as [Hlt|Hge].
  - destruct (take_first_at (Entity_x e) (Entity_y e) (Food_list w)) as [[food others]|] eqn:Et;
      injection E as <- <-.
    + split; [reflexivity|]. split; [lia|]. split.
      * intros Hnone. apply take_first_at_None in Hnone. congruence.
      * intros before food' after _ Hl Hbefore Hfood.
        rewrite Hl, (take_first_at_split _ _ _ _ _ Hbefore Hfood) in Et.
        injection Et as <- <-. split; reflexivity.
    + split; [reflexivity|]. split; [auto|]. split; [auto|].
      intros before food after _ Hl Hbefore Hfood.
      rewrite Hl, (take_first_at_split _ _ _ _ _ Hbefore Hfood) in Et. discriminate.
  - injection E as <- <-. split; [reflexivity|]. split; [auto|]. split; [auto|]. intros; lia.
Qed.

Lemma Entity_eat_first_witness :
  exists e' w',
    Entity_eat (mkEntity 2 2 50 0 0 10 1, fed_world) = (Return tt, (e', w'))
    /\ Entity_energy e' = 150 /\ Food_list w' = [].
Proof.
  destruct (Entity_eat_first (mkEntity 2 2 50 0 0 10 1) fed_world)
    as (e' & w' & Hrun & _ & _ & _ & Hfirst).
  - vm_compute. discriminate.
  - vm_compute. reflexivity.
  - exists e', w'. split; [exact Hrun|].
    destruct (Hfirst [] (mkFood 2 2 100) []) as [-> ->].
    + vm_compute. reflexivity.
    + reflexivity.
    + constructor.
    + reflexivity.
    + split; reflexivity.
Defined.

(** X14. [Entity.reproduction], for an agent on the map with its energy in
    range, never raises and leaves the Food alone.  An agent whose age is in
    [18, 60) and whose energy is at least 500 gets exactly one child,
    appended to [Entity.list]: it stands on the parent's cell, has energy
    200, no elapsed time and the next id; the parent loses exactly those 200,
    so that energy is conserved.  Any other agent is left as it is, and so is
    the world. *)
Theorem Entity_reproduction_conserves (e : Entity) (w : World) :
  on_map (Map_size w) (Entity_x e) (Entity_y e) = true ->
  0 <= Entity_energy e <= Entity_ENERGY_MAX ->
  exists e' w',
    Entity_reproduction (e, w) = (Return tt, (e', w'))
    /\ Food_list w' = Food_list w
    /\ (Entity_AGE_REPROD (Entity_age e) = true -> Entity_MIN_REPROD <= Entity_energy e ->
        exists child,
          Entity_list w' = Entity_list w ++ [child]
          /\ child = mkEntity (Entity_x e) (Entity_y e) Entity_ENERGY_DEF 0 0 Entity_RANGE_DEF
                              (next_id (Entity_nEntities w))
          /\ e' = with_energy (Entity_energy e - Entity_REPROD) e
          /\ Entity_energy e' + Entity_energy child = Entity_energy e
          /\ Entity_nEntities w' = next_id (Entity_nEntities w))
    /\ (Entity_AGE_REPROD (Entity_age e) = false \/ Entity_energy e < Entity_MIN_REPROD ->
        e' = e /\ w' = w).
Proof.
  intros Hmap He. rewrite (Entity_reproduction_phase e w Hmap He).
  unfold tick_reproduce, Entity_AGE_REPROD, Entity_MIN_REPROD.
  destruct ((18 <=? Entity_age e) && (Entity_age e <? 60)) eqn:Eage;
    destruct (Z.leb_spec 500 (Entity_energy e)) as [H500|H500]; cbn [andb];
    eexists _, _; (split; [reflexivity|]); (split; [reflexivity|]).
  - split.
    + intros _ _. eexists. split; [reflexivity|]. split; [reflexivity|].
      split; [reflexivity|]. split; [|reflexivity].
      cbn [Entity_energy with_energy]. unfold Entity_ENERGY_DEF. lia.
    + intros [H|H]; [discriminate | lia].
  - split; [intros _ H; lia | auto].
  - split; [discriminate | auto].
  - split; [discriminate | auto].
Qed.

Lemma Entity_reproduction_conserves_witness :
  exists e' w',
    Entity_reproduction (mkEntity 2 2 600 800 20 10 1, one_agent_world) = (Return tt, (e', w'))
    /\ Entity_energy e' = 400
    /\ Entity_list w' = Entity_list one_agent_world ++ [mkEntity 2 2 200 0 0 10 2].
Proof.
  destruct (Entity_reproduction_conserves (mkEntity 2 2 600 800 20 10 1) one_agent_world)
    as (e' & w' & Hrun & _ & Hchild & _).
  - reflexivity.
  - vm_compute. split; discriminate.
  - exists e', w'. split; [exact Hrun|].
    destruct Hchild as (child & Hl & -> & -> & _).
    + reflexivity.
    + vm_compute. discriminate.
    + split; [reflexivity | exact Hl].
Defined.

(** ** Age, death and the way to the Food *)

(** Age and time after the first four phases: set by the time setter and
    not touched again. *)
Lemma tick_first_phases_time (e : Entity) (w : World) :
  let e4 := fst (tick_reproduce (tick_eat (tick_time (tick_energy (e, w))))) in
  (Entity_time e4, Entity_age e4)
  = if (0 <=? Entity_time e + 1) && (Entity_time e + 1 <? 4000)
    then (Entity_time e + 1, (Entity_time e + 1) / 40) else (-1, 0).
Proof.
  cbv zeta. unfold tick_energy, tick_time. cbn [fst snd Entity_time with_energy].
  assert (Hrest : forall e2 : Entity,
            let e4 := fst (tick_reproduce (tick_eat (e2, w))) in
            (Entity_time e4, Entity_age e4) = (Entity_time e2, Entity_age e2)).
  { intros e2. cbv zeta. unfold tick_eat.
    assert (Hrep : forall e3 w3, let e4 := fst (tick_reproduce (e3, w3)) in
              (Entity_time e4, Entity_age e4) = (Entity_time e3, Entity_age e3)).
    { intros e3 w3. cbv zeta. unfold tick_reproduce.
      destruct ((18 <=? Entity_age e3) && (Entity_age e3 <? 60) && (500 <=? Entity_energy e3));
        reflexivity. }
    destruct (Entity_energy e2 <? 9999); [|apply Hrep].
    destruct (take_first_at (Entity_x e2) (Entity_y e2) (Food_list w)) as [[food others]|];
      [|apply Hrep].
    rewrite (Hrep (with_energy _ e2) _). reflexivity. }
  destruct ((0 <=? Entity_time e + 1) && (Entity_time e + 1 <? 4000));
    cbv zeta in Hrest; rewrite Hrest; reflexivity.
Qed.

(** What a whole tick leaves of the agent it started from ([e4] after the
    first four phases): the place may change, nothing else. *)
Lemma tick_phases_moved (s : Entity * World) (r : outcome unit) (e' : Entity) (w' : World) :
  tickable s -> tick_phases s = (r, (e', w')) ->
  exists x y,
    e' = with_y y (with_x x (fst (tick_reproduce (tick_eat (tick_time (tick_energy s)))))).
Proof.
  intros Ht. unfold tick_phases.
  pose proof (tickable_reproduce _ (tickable_eat _ (tickable_time _ (tickable_energy _ Ht))))
    as Ht4.
  destruct (tick_reproduce (tick_eat (tick_time (tick_energy s)))) as [e4 w4].
  destruct Ht4 as (Hmap & _ & _ & Hfoods). cbn [fst].
  destruct (tick_movement (e4, w4)) as [[e5 w5]|] eqn:E5.
  - destruct (tick_movement_frame e4 e5 w4 w5 Hmap Hfoods E5) as ((x & y & -> & _) & _).
    intros [= _ <- _]. eauto.
  - intros [= _ <- _]. exists (Entity_x e4), (Entity_y e4). destruct e4; reflexivity.
Qed.

(** X15. After any tick of an agent that is on the map with its energy in
    range, among valid Food, its age is within [0, 99]: the second test of
    [survive()], age above 4000, never holds, and the agent survives exactly
    when its energy is positive.  The tick in which the elapsed time would
    reach 4000 resets the time to -1 and the energy to 0; the agent then
    dies, unless a Food lies on its cell, which it eats in the same tick. *)
Theorem Entity_survive_after_tick (s : Entity * World) (r : outcome unit)
        (e' : Entity) (w' : World) :
  tickable s -> Entity_move s = (r, (e', w')) ->
  0 <= Entity_age e' <= 99
  /\ Entity_survive e' = (0 <? Entity_energy e')
  /\ (Entity_time (fst s) = 3999 ->
      Entity_time e' = -1
      /\ (first_food_at (Entity_x (fst s)) (Entity_y (fst s)) (Food_list (snd s)) = None ->
          Entity_energy e' = 0 /\ Entity_survive e' = false)).
Proof.
  intros Ht Hrun. rewrite (Entity_move_tick_phases s Ht) in Hrun.
  destruct (tick_phases_moved s r e' w' Ht Hrun) as (x & y & ->).
  destruct s as [e w]. cbn [fst snd].
  pose proof (tick_first_phases_time e w) as Htime. cbv zeta in Htime.
  set (e4 := fst (tick_reproduce (tick_eat (tick_time (tick_energy (e, w)))))) in *.
  rewrite Entity_survive_moved.
  change (Entity_age (with_y y (with_x x e4))) with (Entity_age e4).
  change (Entity_time (with_y y (with_x x e4))) with (Entity_time e4).
  change (Entity_energy (with_y y (with_x x e4))) with (Entity_energy e4).
  assert (Hage : 0 <= Entity_age e4 <= 99).
  { destruct (Z.leb_spec 0 (Entity_time e + 1)), (Z.ltb_spec (Entity_time e + 1) 4000);
      cbn [andb] in Htime; injection Htime as _ ->; try lia.
    split; [apply Z.div_pos; lia|].
    assert ((Entity_time e + 1) / 40 < 100) by (apply Z.div_lt_upper_bound; lia). lia. }
  assert (Hsurvive : Entity_survive e4 = (0 <? Entity_energy e4)).
  { unfold Entity_survive, Entity_TIME_MAX.
    destruct (Z.gtb_spec (Entity_age e4) 4000); [lia|]. rewrite orb_false_r.
    destruct (Z.leb_spec (Entity_energy e4) 0), (Z.ltb_spec 0 (Entity_energy e4));
      try lia; reflexivity. }
  split; [exact Hage|]. split; [exact Hsurvive|].
  intros H3999. rewrite H3999 in Htime. cbn in Htime. injection Htime as Ht4 _.
  split; [exact Ht4|]. intros Hnone.
  assert (He4 : Entity_energy e4 = 0).
  { unfold e4, tick_energy, tick_time. cbn [fst snd Entity_time with_energy].
    rewrite H3999. change ((0 <=? 3999 + 1) && (3999 + 1 <? 4000)) with false. cbv iota.
    unfold tick_eat. cbn [Entity_energy Entity_x Entity_y with_age with_energy with_time].
    change (0 <? 9999) with true. cbv iota.
    pose proof (take_first_at_index (Entity_x e) (Entity_y e) (Food_list w)) as Hi.
    rewrite Hnone in Hi. rewrite Hi.
    unfold tick_reproduce. cbn [Entity_age Entity_energy with_age with_energy with_time].
    reflexivity. }
  split; [exact He4|]. rewrite Hsurvive, He4. reflexivity.
Qed.

Lemma Entity_survive_after_tick_witness :
  exists e' w',
    Entity_move (mkEntity 2 2 50 3999 99 10 1, set_tape [4] one_agent_world)
    = (Return tt, (e', w'))
    /\ Entity_time e' = -1 /\ Entity_energy e' = 0 /\ Entity_survive e' = false.
Proof.
  eexists _, _. split; [vm_compute; reflexivity|].
  destruct (Entity_survive_after_tick
              (mkEntity 2 2 50 3999 99 10 1, set_tape [4] one_agent_world)
              (Return tt) (mkEntity 2 2 0 (-1) 0 10 1) (set_tape [] one_agent_world))
    as (_ & _ & Hlast).
  - vm_compute. repeat split; discriminate.
  - vm_compute. reflexivity.
  - destruct (Hlast eq_refl) as (Htime & Hdead). destruct (Hdead eq_refl) as [He Hs].
    split; [exact Htime|]. split; [exact He | exact Hs].
Defined.

Lemma nearest_None (e : Entity) (foods : list Food) :
  nearest e foods = None -> forall g, In g foods -> in_sight e g = false.
Proof.
  induction foods as [|food rest IH]; cbn [nearest]; [intros _ g []|].
  destruct (nearest e rest) as [other|].
  - destruct (in_sight e food && (distance2 e food <=? distance2 e other)); discriminate.
  - destruct (in_sight e food) eqn:Es; [discriminate|].
    intros _ g [<-|Hg]; [exact Es | apply IH; [reflexivity | exact Hg]].
Qed.

Lemma nearest_least (e : Entity) (foods : list Food) (food : Food) :
  nearest e foods = Some food ->
  in_sight e food = true
  /\ forall g, In g foods -> in_sight e g = true -> distance2 e food <= distance2 e g.
Proof.
  revert food. induction foods as [|f rest IH]; intros food; cbn [nearest]; [discriminate|].
  destruct (nearest e rest) as [other|] eqn:En.
  - destruct (IH other eq_refl) as [Hso Hleast].
    destruct (in_sight e f) eqn:Es; cbn [andb].
    + destruct (Z.leb_spec (distance2 e f) (distance2 e other)) as [Hle|Hgt];
        intros [= <-]; (split; [assumption|]); intros g [<-|Hg] Hsg;
        first [lia | specialize (Hleast g Hg Hsg); lia].
    + intros [= <-]. split; [exact Hso|]. intros g [<-|Hg] Hsg; [congruence | auto].
  - pose proof (nearest_None e rest En) as Hnone.
    destruct (in_sight e f) eqn:Es; [|discriminate].
    intros [= <-]. split; [exact Es|]. intros g [<-|Hg] Hsg; [lia|].
    rewrite (Hnone g Hg) in Hsg. discriminate.
Qed.

Lemma toward_nearer (from target : Z) :
  (toward from target - target) ^ 2 <= (from - target) ^ 2
  /\ (from <> target -> (toward from target - target) ^ 2 < (from - target) ^ 2)
  /\ (from = target -> toward from target = from).
Proof.
  unfold toward. rewrite !Z.pow_2_r.
  destruct (Z.lt_trichotomy (target - from) 0) as [H|[H|H]].
  - rewrite Z.sgn_neg by exact H. repeat split; intros; nia.
  - rewrite H. cbn [Z.sgn]. repeat split; intros; nia.
  - rewrite Z.sgn_pos by exact H. repeat split; intros; nia.
Qed.



(** ** The console *)

Lemma split_blank (command : string) :
  forallb isspace (list_ascii_of_string command) = true -> split command EmptyString = [].
Proof.
  induction command as [|c rest IH]; cbn [list_ascii_of_string forallb split]; [reflexivity|].
  intros H. apply andb_prop in H as [Hc Hrest]. rewrite Hc. apply IH. exact Hrest.
Qed.

Lemma int_cases (text : string) (w : World) :
  (exists n, int text w = (Return n, w))
  \/ exists m, int text w = (Raise (Exn ValueError m), w).
Proof.
  unfold int. cbv zeta.
  match goal with
  | |- context [match ?p with Some n => _ | None => _ end] => destruct p as [n|]
  end; [|right; eexists; reflexivity].
  match goal with
  | |- context [if ?c then _ else _] => destruct c
  end; [right; eexists; reflexivity | left; exists n; reflexivity].
Qed.

Lemma int_raises (text : string) (w : World) (e : exn) (w' : World) :
  int text w = (Raise e, w') -> exn_class_of e = ValueError /\ w' = w.
Proof.
  destruct (int_cases text w) as [[n H]|[m H]]; rewrite H; intros [= <- <-]; auto.
Qed.



(** X18. [Cmd._spawn] parses the coordinates before it looks at the element
    type.  A first or second coordinate, of ASCII characters, that [int]
    refuses (not an integer literal, or one of more than 4300 digits) makes
    it print "Coordinates must be integers." and do nothing else, whatever
    the type; a single coordinate must be accepted by [int] but is then
    ignored: the element is generated at a random place, as with no
    coordinate; and a type other than [entity] and [food] only prints the
    "Unknown element type" hint.  Without any argument the usage line is
    printed. *)
Theorem Cmd_spawn_coordinates (elem_type : string) (w : World) :
  Cmd_spawn [] w
  = (Return tt, set_stdout (stdout w ++ ["Usage: spawn <elem_type> [x] [y] [...]"]) w)
  /\ (forall sx rest e w',
        ascii_text sx = true -> int sx w = (Raise e, w') ->
        Cmd_spawn (elem_type :: sx :: rest) w
        = (Return tt, set_stdout (stdout w ++ ["Coordinates must be integers."]) w))
  /\ (forall sx x sy rest e w',
        ascii_text sx = true -> ascii_text sy = true ->
        int sx w = (Return x, w) -> int sy w = (Raise e, w') ->
        Cmd_spawn (elem_type :: sx :: sy :: rest) w
        = (Return tt, set_stdout (stdout w ++ ["Coordinates must be integers."]) w))
  /\ (forall sx x,
        int sx w = (Return x, w) ->
        Cmd_spawn [elem_type; sx] w = Cmd_spawn [elem_type] w)
  /\ (elem_type <> "entity" -> elem_type <> "food" ->
      Cmd_spawn [elem_type] w
      = (Return tt,
         set_stdout (stdout w ++ ["Unknown element type. Use 'entity' or 'food'."]) w)).
Proof.
  split; [reflexivity|]. split; [|split; [|split]].
  - intros sx rest e w' _ Hx. destruct (int_raises _ _ _ _ Hx) as [Hclass ->].
    unfold Cmd_spawn.
    unfold bind at 1. unfold catch. unfold bind at 1. unfold bind at 1.
    rewrite Hx, Hclass. reflexivity.
  - intros sx x sy rest e w' _ _ Hx Hy. destruct (int_raises _ _ _ _ Hy) as [Hclass ->].
    unfold Cmd_spawn.
    unfold bind at 1. unfold catch. unfold bind at 1. unfold bind at 1.
    rewrite Hx. cbn [ret]. unfold bind at 1. unfold bind at 1. rewrite Hy, Hclass.
    reflexivity.
  - intros sx x Hx. unfold Cmd_spawn.
    unfold bind at 1. unfold catch. unfold bind at 1. unfold bind at 1.
    rewrite Hx. cbn [ret]. unfold bind at 1.
    unfold bind at 1. unfold catch. unfold bind at 1. cbn [ret].
    destruct (String.eqb elem_type "entity"); [reflexivity|].
    destruct (String.eqb elem_type "food"); reflexivity.
  - intros He Hf. apply String.eqb_neq in He, Hf. unfold Cmd_spawn.
    unfold bind at 1. unfold catch. unfold bind at 1. cbn [ret].
    rewrite He, Hf. reflexivity.
Qed.

Lemma Cmd_spawn_coordinates_witness :
  Cmd_spawn ["entity"; "3"; "x"] (empty_world (5, 5))
  = (Return tt, set_stdout ["Coordinates must be integers."] (empty_world (5, 5)))
  /\ Cmd_spawn ["entity"; long_literal; "1"] (empty_world (5, 5))
     = (Return tt, set_stdout ["Coordinates must be integers."] (empty_world (5, 5))).
Proof.
  destruct (Cmd_spawn_coordinates "entity" (empty_world (5, 5))) as (_ & Hfirst & Hsecond & _).
  split.
  - apply (Hsecond "3" 3 "x" [] (Exn ValueError (InvalidLiteral "x")) (empty_world (5, 5)));
      reflexivity.
  - apply (Hfirst long_literal ["1"] (Exn ValueError (TooManyDigits 4301))
             (empty_world (5, 5))); vm_compute; reflexivity.
Defined.

(** X19. [spawn entity x y] with two coordinates that [int] accepts
    (integer literals of at most 4300 digits) creates, when [(x, y)] is on
    the map, one agent there with energy 200, no elapsed time and the next
    id, and reports it; off the map it raises the [ValueError] of the
    coordinate setter ([x] is checked first), creates nothing and leaves the
    id counter alone. *)
Theorem Cmd_spawn_entity_at (w : World) (sx sy : string) (x y : Z) :
  int sx w = (Return x, w) -> int sy w = (Return y, w) ->
  Cmd_spawn ["entity"; sx; sy] w =
  if in_range (fst (Map_size w)) x then
    if in_range (snd (Map_size w)) y then
      (Return tt,
       set_stdout (stdout w ++ [("Spawning entity at (" ++ str x ++ ", " ++ str y ++ ")")%string])
         (set_Entity_list
            (Entity_list w ++ [mkEntity x y 200 0 0 10 (next_id (Entity_nEntities w))])
            (set_Entity_nEntities (next_id (Entity_nEntities w)) w)))
    else (Raise (Exn ValueError (MustBeIn "y" y (snd (Map_size w)))), w)
  else (Raise (Exn ValueError (MustBeIn "x" x (fst (Map_size w)))), w).
Proof.
  intros Hx Hy. unfold Cmd_spawn.
  unfold bind at 1. unfold catch. unfold bind at 1. unfold bind at 1.
  rewrite Hx. cbn [ret]. unfold bind at 1. unfold bind at 1. rewrite Hy. cbn [ret].
  cbn [String.eqb Ascii.eqb Bool.eqb]. cbv iota.
  unfold bind at 1. rewrite Entity_new_cases.
  destruct (in_range (fst (Map_size w)) x); [|reflexivity].
  destruct (in_range (snd (Map_size w)) y); [|reflexivity].
  cbv zeta. rewrite built_default_Entity. reflexivity.
Qed.

Lemma Cmd_spawn_entity_at_witness :
  Entity_list (snd (Cmd_spawn ["entity"; "1"; "4"] (empty_world (5, 5))))
  = [mkEntity 1 4 200 0 0 10 1]
  /\ Cmd_spawn ["entity"; "1"; "5"] (empty_world (5, 5))
     = (Raise (Exn ValueError (MustBeIn "y" 5 5)), empty_world (5, 5)).
Proof.
  split.
  - rewrite (Cmd_spawn_entity_at (empty_world (5, 5)) "1" "4" 1 4); reflexivity.
  - rewrite (Cmd_spawn_entity_at (empty_world (5, 5)) "1" "5" 1 5); reflexivity.
Defined.

(** X20. The [save] command never raises: it sets the save-message duration
    to 60, also when saving fails, runs [Save.save] and prints exactly one
    line, "Saving simulation with ID ..." when every value fits its field
    and "Error saving simulation: Value error: ..." otherwise; the file is
    written as [Save.save] writes it and the simulation itself is left as it
    was. *)
Theorem Cmd_save_reports (w : World) :
  exists line w',
    Cmd_save w = (Return tt, w')
    /\ stdout w' = stdout w ++ [line]
    /\ save_duration w' = 60
    /\ Food_list w' = Food_list w /\ Entity_list w' = Entity_list w
    /\ Map_size w' = Map_size w
    /\ (saveable w = true ->
        line = ("Saving simulation with ID " ++ str (save_number w) ++ "...")%string
        /\ file_save w' = Some (record_bytes w))
    /\ (saveable w = false ->
        exists f, first_misfit (record_fields w) = Some f
                  /\ line = ("Error saving simulation: Value error: "
                             ++ render (MustFit (field_name f) (field_size f)))%string
                  /\ file_save w'
                     = Some (flat_map field_bytes (fitting_prefix (record_fields w)))).
Proof.
  unfold Cmd_save, catch. unfold bind at 1, modify. unfold bind at 1.
  rewrite Save_save_fields.
  change (record_fields (set_save_duration 60 w)) with (record_fields w).
  change (record_bytes (set_save_duration 60 w)) with (record_bytes w).
  unfold saveable, backed_up. cbn [file_save set_save_duration].
  destruct (first_misfit (record_fields w)) as [f|] eqn:E.
  - cbn [exn_class_of exn_message]. unfold print, modify.
    assert (Hno : forallb fits (record_fields w) = false).
    { apply first_misfit_Some in E as [Hin Hf].
      destruct (forallb fits (record_fields w)) eqn:Hall; [|reflexivity].
      rewrite (forallb_In _ _ _ Hall Hin) in Hf. discriminate. }
    rewrite Hno.
    destruct (file_save w); eexists _, _; (split; [reflexivity|]);
      cbn [stdout set_stdout save_duration Food_list Entity_list Map_size file_save];
      (split; [reflexivity|]); (split; [reflexivity|]); (split; [reflexivity|]);
      (split; [reflexivity|]); (split; [reflexivity|]);
      (split; [discriminate|]); intros _; exists f; repeat split; reflexivity.
  - apply first_misfit_None in E. rewrite E.
    unfold bind, gets, print, modify.
    destruct (file_save w); eexists _, _; (split; [reflexivity|]);
      cbn [stdout set_stdout save_duration Food_list Entity_list Map_size file_save save_number
           set_file_save set_file_backup set_save_duration];
      (split; [reflexivity|]); (split; [reflexivity|]); (split; [reflexivity|]);
      (split; [reflexivity|]); (split; [reflexivity|]);
      (split; [intros _; split; reflexivity | discriminate]).
Qed.

Lemma Cmd_save_reports_witness :
  exists w',
    Cmd_save reset_agent_world = (Return tt, w')
    /\ stdout w'
       = ["Error saving simulation: Value error: entity.time must fit in 2 bytes!"]
    /\ save_duration w' = 60.
Proof.
  destruct (Cmd_save_reports reset_agent_world)
    as (line & w' & Hrun & Hout & Hduration & _ & _ & _ & _ & Hfail).
  exists w'. split; [exact Hrun|]. split; [|exact Hduration].
  destruct Hfail as (f & Hf & -> & _); [vm_compute; reflexivity|].
  rewrite Hout. vm_compute in Hf. injection Hf as <-. reflexivity.
Defined.

(** ** Identifiers *)

Lemma next_id_mod (n : Z) : 0 <= n <= Entity_MAX_ID -> next_id n = n mod 65536 + 1.
Proof.
  unfold next_id. change Entity_MAX_ID with 65536. intros Hn.
  destruct (Z.ltb_spec n 65536).
  - rewrite Z.mod_small by lia. reflexivity.
  - assert (n = 65536) as -> by lia. reflexivity.
Qed.

Lemma fresh_ids_In (k : nat) :
  forall n i, 0 <= n <= Entity_MAX_ID -> In i (fresh_ids n k) ->
  exists j, 0 <= j < Z.of_nat k /\ i = (n + j) mod 65536 + 1.
Proof.
  induction k as [|k IH]; intros n i Hn; cbn [fresh_ids]; [intros []|].
  intros [<-|Hin].
  - exists 0. rewrite Z.add_0_r. split; [lia | apply next_id_mod; exact Hn].
  - pose proof (next_id_range n (proj1 Hn)) as Hid.
    destruct (IH (next_id n) i ltac:(lia) Hin) as (j & Hj & ->).
    exists (j + 1). split; [lia|].
    rewrite (next_id_mod n Hn).
    replace (n mod 65536 + 1 + j) with (n mod 65536 + (j + 1)) by lia.
    rewrite Zplus_mod_idemp_l. reflexivity.
Qed.

Lemma fresh_ids_NoDup (k : nat) :
  forall n, 0 <= n <= Entity_MAX_ID -> Z.of_nat k <= Entity_MAX_ID -> NoDup (fresh_ids n k).
Proof.
  induction k as [|k IH]; intros n Hn Hk; cbn [fresh_ids]; [constructor|].
  pose proof (next_id_range n (proj1 Hn)) as Hid.
  change Entity_MAX_ID with 65536 in *.
  apply NoDup_cons. split; [|apply IH; lia].
  intros Hin. apply list_elem_of_In in Hin.
  destruct (fresh_ids_In k (next_id n) (next_id n) ltac:(change Entity_MAX_ID with 65536; lia) Hin)
    as (j & Hj & Heq).
  pose proof (Z.div_mod (next_id n + j) 65536 ltac:(lia)) as Hdiv.
  pose proof (Z.mod_pos_bound (next_id n + j) 65536 ltac:(lia)) as Hmod.
  assert (Hq : j + 1 = 65536 * ((next_id n + j) / 65536)) by lia.
  assert (0 < (next_id n + j) / 65536 < 1) by nia. lia.
Qed.

Lemma fresh_ids_range (k : nat) :
  forall n, 0 <= n <= Entity_MAX_ID ->
  Forall (fun i => 1 <= i <= Entity_MAX_ID) (fresh_ids n k).
Proof.
  induction k as [|k IH]; intros n Hn; cbn [fresh_ids]; constructor.
  - pose proof (next_id_range n (proj1 Hn)). lia.
  - apply IH. pose proof (next_id_range n (proj1 Hn)). lia.
Qed.

Lemma repeat_Entity_generate_ids (n : nat) :
  forall (w : World) (r : outcome unit) (w' : World),
  repeat_times n Entity_generate w = (r, w') ->
  exists born,
    Entity_list w' = Entity_list w ++ born /\ (length born <= n)%nat
    /\ map Entity_id born = fresh_ids (Entity_nEntities w) (length born).
Proof.
  induction n as [|n IH]; intros w r w'; cbn [repeat_times].
  - unfold ret. intros [= <- <-]. exists []. rewrite app_nil_r. auto.
  - unfold bind at 1. destruct (Entity_generate w) as [r1 w1] eqn:E1.
    destruct (Entity_generate_frame _ _ _ E1) as (tp & born1 & -> & Hborn).
    destruct Hborn as [[-> Hr1]|(x & y & -> & _ & ->)].
    + destruct r1 as [[]|e|]; [contradiction| |];
        intros [= <- <-]; exists []; cbn; rewrite app_nil_r; auto with arith.
    + intros Hrest. destruct (IH _ _ _ Hrest) as (born & Hl & Hlen & Hids).
      cbn [Entity_list Entity_nEntities set_tape set_Entity_list set_Entity_nEntities]
        in Hl, Hids.
      exists (mkEntity x y 200 0 0 10 (next_id (Entity_nEntities w)) :: born).
      split; [rewrite Hl, <- app_assoc; reflexivity|].
      cbn [length map fresh_ids Entity_id]. split; [lia|]. rewrite Hids. reflexivity.
Qed.

(** X21. The agents created in a row by [Entity.generate], as
    [RSim.generate] does, take the ids that follow the class counter, each
    within [1, 65536]; as long as no more than 65536 are created they are
    pairwise distinct. *)
Theorem generated_ids_distinct (n : nat) (w : World) (r : outcome unit) (w' : World) :
  0 <= Entity_nEntities w <= Entity_MAX_ID -> Z.of_nat n <= Entity_MAX_ID ->
  repeat_times n Entity_generate w = (r, w') ->
  exists born,
    Entity_list w' = Entity_list w ++ born
    /\ map Entity_id born = fresh_ids (Entity_nEntities w) (length born)
    /\ Forall (fun i => 1 <= i <= Entity_MAX_ID) (map Entity_id born)
    /\ NoDup (map Entity_id born).
Proof.
  intros Hn Hk Hrun.
  destruct (repeat_Entity_generate_ids n w r w' Hrun) as (born & Hl & Hlen & Hids).
  exists born. split; [exact Hl|]. split; [exact Hids|]. rewrite Hids.
  split; [apply fresh_ids_range; exact Hn | apply fresh_ids_NoDup; [exact Hn | lia]].
Qed.

Lemma generated_ids_distinct_witness :
  exists born,
    Entity_list (snd (repeat_times 2 Entity_generate
                        (set_tape [1; 1; 1; 1] (empty_world (5, 5))))) = [] ++ born
    /\ map Entity_id born = [1; 2] /\ NoDup (map Entity_id born).
Proof.
  destruct (generated_ids_distinct 2 (set_tape [1; 1; 1; 1] (empty_world (5, 5)))
              (fst (repeat_times 2 Entity_generate (set_tape [1; 1; 1; 1] (empty_world (5, 5)))))
              (snd (repeat_times 2 Entity_generate (set_tape [1; 1; 1; 1] (empty_world (5, 5))))))
    as (born & Hl & Hids & _ & Hnd).
  - vm_compute. split; discriminate.
  - vm_compute. discriminate.
  - vm_compute. reflexivity.
  - exists born. split; [exact Hl|]. split; [|exact Hnd].
    rewrite Hids. cbn [Entity_list empty_world set_tape app] in Hl.
    rewrite <- (f_equal (@length Entity) Hl). reflexivity.
Defined.

(** ** What the constructors make of their arguments *)

(** X22. On a coordinate of the map neither [Food.new] nor [Entity.new]
    raises: each appends one object there and returns the new length of its
    list.  Points outside [1, 65536] are replaced by 100.  An energy is
    clamped into [0, 9999]; a time within [0, 4000) is kept, with the age
    [time // 40]; any other time is stored as -1 and then the energy given is
    discarded: energy and age are 0.  The agent gets the range 10 and the
    next id. *)
Theorem constructors_sanitize (w : World) (x y : Z) :
  on_map (Map_size w) x y = true ->
  (forall pts, exists food,
     Food_new (x, y) (Some pts) w
     = (Return (Z.of_nat (S (length (Food_list w)))), set_Food_list (Food_list w ++ [food]) w)
     /\ Food_cell food = (x, y)
     /\ Food_pts food = if (0 <? pts) && (pts <=? 65536) then pts else 100)
  /\ (forall energy time, exists entity,
        Entity_new (x, y) energy time w
        = (Return (Z.of_nat (S (length (Entity_list w)))),
           set_Entity_list (Entity_list w ++ [entity])
             (set_Entity_nEntities (next_id (Entity_nEntities w)) w))
        /\ Entity_x entity = x /\ Entity_y entity = y
        /\ Entity_range entity = 10 /\ Entity_id entity = next_id (Entity_nEntities w)
        /\ (0 <= time < 4000 ->
            Entity_time entity = time /\ Entity_age entity = time / 40
            /\ Entity_energy entity = Z.max 0 (Z.min 9999 energy))
        /\ (~ 0 <= time < 4000 ->
            Entity_time entity = -1 /\ Entity_age entity = 0 /\ Entity_energy entity = 0)).
Proof.
  intros Hmap. apply andb_prop in Hmap as [Hx Hy]. split.
  - intros pts. exists (built_Food x y pts).
    rewrite Food_new_cases, Hx, Hy, length_app, Nat.add_comm. auto.
  - intros energy time. exists (built_Entity x y energy time (next_id (Entity_nEntities w))).
    rewrite Entity_new_cases, Hx, Hy. cbv zeta. rewrite length_app, Nat.add_comm.
    split; [reflexivity|]. unfold built_Entity, in_range.
    change Entity_TIME_MAX with 4000. change Entity_ENERGY_MAX with 9999.
    change Entity_TIME_IN_AGE with 40. change Entity_RANGE_DEF with 10.
    destruct (Z.leb_spec 0 time), (Z.ltb_spec time 4000); cbn [andb];
      cbn [Entity_x Entity_y Entity_range Entity_id Entity_time Entity_age Entity_energy];
      repeat (split; [reflexivity|]); (split; [|intros; try lia; auto]); try (intros; lia).
    intros _. split; [reflexivity|]. split; [reflexivity|].
    destruct (Z.gtb_spec energy 9999); [lia|]. destruct (Z.ltb_spec energy 0); lia.
Qed.

Lemma constructors_sanitize_witness :
  exists entity,
    Entity_new (1, 1) 60000 4000 (empty_world (5, 5))
    = (Return 1, set_Entity_list [entity] (set_Entity_nEntities 1 (empty_world (5, 5))))
    /\ Entity_time entity = -1 /\ Entity_energy entity = 0.
Proof.
  destruct (proj2 (constructors_sanitize (empty_world (5, 5)) 1 1 eq_refl) 60000 4000)
    as (entity & Hrun & _ & _ & _ & _ & _ & Hreset).
  exists entity. split; [exact Hrun|].
  destruct Hreset as (Ht & _ & He); [lia|]. split; [exact Ht | exact He].
Defined.

(** ** [Save.load] and the map *)

Ltac load_keeps Hok :=
  cbn [reraise exn_class_of exn_message raise];
  eexists _, _; split; [reflexivity|];
  left; rewrite <- Hok; apply World_ok_ext; reflexivity.

(** [Save.load] assigns [Map.size] once the header is read, rebuilds
    [Food.list] under the new size, and only then clears [Entity.list]: a
    load that fails in the Food section leaves the agents of the world it
    started from under a map they were not made for.  In every other case
    the world it leaves is well-formed. *)
Lemma Save_load_stale (w : World) (content : list byte) :
  file_save w = Some content -> World_ok w = true ->
  exists r w',
    Save_load w = (r, w')
    /\ (World_ok w' = true
        \/ ((exists m, r = Raise (Exn ValueError (Wrapped "Value error: " m)))
            /\ Entity_list w' = Entity_list w
            /\ forallb (Food_ok (Map_size w')) (Food_list w') = true)).
Proof.
  intros Hfile Hok. pose proof Hok as Hparts.
  apply World_ok_parts in Hparts as (_ & _ & Hn).
  unfold Save_load, catch, with_open_rb. rewrite Hfile.
  rewrite bind_read_int by (vm_compute; discriminate).
  change (Z.to_nat Save_NBYTES_TIME) with 8%nat.
  destruct (Nat.leb_spec 8 (length content)) as [H8|H8]; [|load_keeps Hok].
  unfold bind at 1. unfold liftW at 1, modify. cbn [fst snd].
  rewrite bind_read_int by (vm_compute; discriminate).
  change (Z.to_nat Save_NBYTES_TIME) with 8%nat.
  destruct (Nat.leb_spec 8 (length (skipn 8 content))) as [H16|H16]; [|load_keeps Hok].
  unfold bind at 1. unfold liftW at 1. cbn [fst snd].
  match goal with
  | |- context [Save_time_set ?t ?w1] =>
      destruct (Save_time_set_frame t w1) as (t' & age & energy & E & _); rewrite E; clear E
  end.
  rewrite bind_read_int by (vm_compute; discriminate).
  change (Z.to_nat Save_NBYTES_COORD) with 2%nat.
  destruct (Nat.leb_spec 2 (length (skipn 8 (skipn 8 content)))) as [H18|H18];
    [|load_keeps Hok].
  rewrite bind_read_int by (vm_compute; discriminate).
  change (Z.to_nat Save_NBYTES_COORD) with 2%nat.
  destruct (Nat.leb_spec 2 (length (skipn 2 (skipn 8 (skipn 8 content))))) as [H20|H20];
    [|load_keeps Hok].
  unfold bind at 1. unfold liftW at 1, modify. cbn [fst snd].
  match goal with
  | |- context [set_Map_size ?size ?w2] => set (w3 := set_Map_size size w2)
  end.
  set (file := skipn 2 (skipn 2 (skipn 8 (skipn 8 content)))).
  unfold Save_read_food. rewrite !bind_assoc.
  unfold bind at 1. unfold liftW at 1, modify. cbn [fst snd].
  rewrite bind_assoc. unfold bind at 1, self. cbn [fst snd].
  destruct (read_food_loop_any (S (length file)) file (set_Food_list [] w3))
    as (r & file1 & foods & E & Hs & Hfoods); [lia|].
  unfold bind at 1. rewrite E. clear E.
  destruct Hs as [-> | [m ->]].
  2:{ cbn [reraise exn_class_of exn_message raise].
      eexists _, _. split; [reflexivity|]. right.
      split; [eexists; reflexivity|]. split; [reflexivity|].
      cbn in Hfoods |- *. exact Hfoods. }
  unfold Save_read_entity.
  unfold bind at 1. unfold liftW at 1, modify. cbn [fst snd].
  unfold bind at 1, self. cbn [fst snd].
  match goal with
  | |- context [read_entity_loop ?rounds (?f, ?w4)] =>
      destruct (read_entity_loop_any rounds f w4)
        as (r & file2 & entities & n & E & Hs & Hentities); [lia|]; rewrite E; clear E
  end.
  destruct Hentities as [Hentities Hn']; [exact Hn|].
  assert (Hdone : forall r0 : outcome unit,
    exists r1 w',
      (r0, set_Entity_list
             (Entity_list (set_Entity_list [] (set_Food_list (Food_list (set_Food_list [] w3) ++ foods)
                                                 (set_Food_list [] w3))) ++ entities)
             (set_Entity_nEntities n
                (set_Entity_list [] (set_Food_list (Food_list (set_Food_list [] w3) ++ foods)
                                       (set_Food_list [] w3))))) = (r1, w')
      /\ (World_ok w' = true
          \/ ((exists m, r1 = Raise (Exn ValueError (Wrapped "Value error: " m)))
              /\ Entity_list w' = Entity_list w
              /\ forallb (Food_ok (Map_size w')) (Food_list w') = true))).
  { intros r0. eexists _, _. split; [reflexivity|]. left.
    unfold World_ok. cbn in Hfoods, Hentities |- *.
    rewrite Hfoods, Hentities. cbn [andb].
    apply andb_true_intro; split; [apply Z.leb_le | apply Z.leb_le]; lia. }
  destruct Hs as [-> | [m ->]]; cbn [reraise exn_class_of exn_message raise]; apply Hdone.
Qed.

(** ** Coordinates and the map *)



